(** * alert-receiver: the alert analysis pipeline

    A shallow embedding of the Go service under [alert-receiver]:
    webhook admission, the worker loop, evidence collection against
    Prometheus, the concurrent fan-out over the configured LLM backends
    and the bounded store of recent analyses.

    Conventions.
    - Go [string] is a byte string: [String.string].
    - Go [int], [int64] and [time.Duration] are [Z]; no arithmetic of the
      modelled code can leave the 64-bit range except [UnixNano], whose
      wrap-around is written out.
    - Go [float64] is the primitive [float].
    - [time.Time] is the number of nanoseconds since the zero time
      (January 1, year 1, 00:00:00 UTC), so [IsZero] is a test against 0.
    - [map[string]string] is [gmap string string].
    - A slice that the code may leave [nil] is an [option (list _)];
      other slices are lists.
    - Everything the service obtains from outside (clock readings, the
      process environment, HTTP exchanges, the JSON codec, the order in
      which goroutines finish) is a field of [Env].
    - [slog] output goes to stdout only and is not tracked. *)

From Stdlib Require Import ZArith String Ascii List Lia Permutation.
From Stdlib Require Import Floats.PrimFloat.
From Stdlib Require DecimalString.
From stdpp Require Import base option list gmap strings sorting.

Set Default Proof Using "Type".

(* ===================================================================== *)
(** ** Strings *)
(* ===================================================================== *)

Module Strings.

Definition byte_of (c : ascii) : N := N_of_ascii c.

(** The six ASCII characters of Go's [asciiSpace] table:
    tab, line feed, vertical tab, form feed, carriage return, space. *)
Definition asciiSpace (c : ascii) : bool :=
  let n := byte_of c in
  ((9 <=? n) && (n <=? 13) || (n =? 32))%N.

(** Two-byte UTF-8 encodings of white space: U+0085 and U+00A0. *)
Definition space2 (a b : ascii) : bool :=
  ((byte_of a =? 194) && ((byte_of b =? 133) || (byte_of b =? 160)))%N.

(** Three-byte UTF-8 encodings of white space: U+1680, U+2000..U+200A,
    U+2028, U+2029, U+202F, U+205F and U+3000. *)
Definition space3 (a b c : ascii) : bool :=
  let x := byte_of a in
  let y := byte_of b in
  let z := byte_of c in
  ((x =? 225) && (y =? 154) && (z =? 128)
   || (x =? 226) && (y =? 128)
      && ((128 <=? z) && (z <=? 138) || (z =? 168) || (z =? 169) || (z =? 175))
   || (x =? 226) && (y =? 129) && (z =? 159)
   || (x =? 227) && (y =? 128) && (z =? 128))%N.

(** Drop leading runes of one, two or three bytes that the given tests
    accept. *)
Fixpoint dropRunes (p1 : ascii -> bool) (p2 : ascii -> ascii -> bool)
    (p3 : ascii -> ascii -> ascii -> bool) (s : list ascii) : list ascii :=
  match s with
  | [] => []
  | a :: r1 =>
      if p1 a then dropRunes p1 p2 p3 r1 else
      match r1 with
      | [] => s
      | b :: r2 =>
          if p2 a b then dropRunes p1 p2 p3 r2 else
          match r2 with
          | [] => s
          | c :: r3 => if p3 a b c then dropRunes p1 p2 p3 r3 else s
          end
      end
  end.

(** Whether the bytes start with a rune that the tests accept. *)
Definition startsWithRune (p1 : ascii -> bool) (p2 : ascii -> ascii -> bool)
    (p3 : ascii -> ascii -> ascii -> bool) (s : list ascii) : bool :=
  match s with
  | [] => false
  | a :: r1 =>
      p1 a ||
      match r1 with
      | [] => false
      | b :: r2 =>
          p2 a b ||
          match r2 with
          | [] => false
          | c :: _ => p3 a b c
          end
      end
  end.

(** [strings.TrimLeftFunc s unicode.IsSpace] on the bytes of [s]: drop
    leading runes that are white space.  A rune decoded at the front of
    a byte string is white space exactly when the string starts with the
    encoding of one. *)
Definition trimLeftSpace : list ascii -> list ascii :=
  dropRunes asciiSpace space2 space3.

(** The same scan on the reversed bytes, for the rune decoded at the end:
    the first argument of a test is then the last byte. *)
Definition trimLeftSpaceRev : list ascii -> list ascii :=
  dropRunes asciiSpace (fun a b => space2 b a) (fun a b c => space3 c b a).

(** [strings.TrimRightFunc s unicode.IsSpace]. *)
Definition trimRightSpace (s : list ascii) : list ascii :=
  reverse (trimLeftSpaceRev (reverse s)).

(** [strings.TrimSpace] on bytes. *)
Definition trimSpace (s : list ascii) : list ascii :=
  trimRightSpace (trimLeftSpace s).

(** [strings.TrimSpace]. *)
Definition TrimSpace (s : string) : string :=
  string_of_list_ascii (trimSpace (list_ascii_of_string s)).

Definition rev (s : string) : string :=
  string_of_list_ascii (reverse (list_ascii_of_string s)).

Definition is_empty (s : string) : bool :=
  match s with EmptyString => true | String _ _ => false end.

Fixpoint map_bytes (f : ascii -> ascii) (s : string) : string :=
  match s with
  | EmptyString => EmptyString
  | String a r => String (f a) (map_bytes f r)
  end.

(** [fmt.Sprintf("%d", n)]. *)
Definition itoa (n : Z) : string :=
  DecimalString.NilZero.string_of_int (Z.to_int n).

(** [strings.Join]. *)
Fixpoint Join (parts : list string) (sep : string) : string :=
  match parts with
  | [] => ""
  | [p] => p
  | p :: rest => p +:+ sep +:+ Join rest sep
  end.

(** [sort.Strings]: ascending byte-wise order. *)
Definition sortStrings (l : list string) : list string :=
  merge_sort (fun a b => Is_true (String.leb a b)) l.

End Strings.

Import Strings.

(* ===================================================================== *)
(** ** Time *)
(* ===================================================================== *)

Module Time.

(** Nanoseconds since the zero time. *)
Definition Time := Z.
(** [time.Duration]: a count of nanoseconds. *)
Definition Duration := Z.

Definition IsZero (t : Time) : bool := (t =? 0)%Z.
Definition Before (t u : Time) : bool := (t <? u)%Z.
Definition After (t u : Time) : bool := (u <? t)%Z.
Definition Add (t : Time) (d : Duration) : Time := (t + d)%Z.

(** Nanoseconds between the zero time and 1970-01-01T00:00:00Z. *)
Definition unixEpoch : Z := (62135596800 * 1000000000)%Z.

Definition wrap64 (z : Z) : Z := ((z + 2 ^ 63) mod 2 ^ 64 - 2 ^ 63)%Z.

Definition UnixNano (t : Time) : Z := wrap64 (t - unixEpoch).

(** [Duration.Milliseconds]: integer division truncating toward zero. *)
Definition Milliseconds (d : Duration) : Z := (d ÷ 1000000)%Z.

(** What [time.Now()] returns: a wall clock reading and a monotonic one.
    [UTC()] keeps the wall reading only; [time.Since] subtracts
    monotonic readings. *)
Record Instant := { wall : Time; mono : Z }.

Definition Since (now start : Instant) : Duration := (mono now - mono start)%Z.

End Time.

Import Time.

(* ===================================================================== *)
(** ** Data model *)
(* ===================================================================== *)

Module GrafanaAlert.
Record t := {
  Status : string;
  Labels : gmap string string;
  Annotations : gmap string string;
  StartsAt : Time;
  EndsAt : Time;
  GeneratorURL : string;
  Fingerprint : string;
  SilenceURL : string;
  DashboardURL : string;
  PanelURL : string;
}.
End GrafanaAlert.

Module GrafanaWebhookPayload.
Record t := {
  Receiver : string;
  Status : string;
  Alerts : list GrafanaAlert.t;
  GroupLabels : gmap string string;
  CommonLabels : gmap string string;
  CommonAnnotations : gmap string string;
  ExternalURL : string;
  Version : string;
  GroupKey : string;
  TruncatedAlerts : Z;
}.
End GrafanaWebhookPayload.

Module MetricQuery.
Record t := {
  Name : string;
  Description : string;
  Query : string;
}.
End MetricQuery.

Module MetricSeries.
Record t := {
  Labels : gmap string string;
  Value : string;
}.
End MetricSeries.

Module MetricSnapshot.
Record t := {
  Name : string;
  Description : string;
  Query : string;
  ResultType : string;
  Summary : string;
  Series : list MetricSeries.t;
  Error : string;
}.
(** The zero value [MetricSnapshot{}]. *)
Definition zero : t :=
  {| Name := ""; Description := ""; Query := ""; ResultType := "";
     Summary := ""; Series := []; Error := "" |}.
End MetricSnapshot.

Module LLMRequest.
Record t := {
  SystemPrompt : string;
  UserPrompt : string;
  MaxTokens : Z;
  Temperature : float;
}.
Definition zero : t :=
  {| SystemPrompt := ""; UserPrompt := ""; MaxTokens := 0;
     Temperature := 0%float |}.
End LLMRequest.

Module StructuredAnalysis.
Record t := {
  Summary : string;
  LikelyIssue : string;
  Confidence : float;
  Evidence : list string;
  PotentialFix : list string;
  NextChecks : list string;
}.
End StructuredAnalysis.

Module ProviderResult.
Record t := {
  Provider : string;
  Type_ : string;
  Model : string;
  DurationMS : Z;
  Response : string;
  Parsed : option StructuredAnalysis.t;
  Error : string;
}.
(** The zero value, which [make([]ProviderResult, n)] fills slots with. *)
Definition zero : t :=
  {| Provider := ""; Type_ := ""; Model := ""; DurationMS := 0;
     Response := ""; Parsed := None; Error := "" |}.
End ProviderResult.

Module BackendConfig.
Record t := {
  Name : string;
  Type_ : string;
  Model : string;
  BaseURL : string;
  APIKeyEnv : string;
  Region : string;
  SystemPrompt : string;
  MaxTokens : Z;
  Temperature : float;
}.
End BackendConfig.

Module Config.
Record t := {
  Port : Z;
  PrometheusURL : string;
  PrometheusLookback : Duration;
  PrometheusTimeout : Duration;
  LLMTimeout : Duration;
  JobQueueSize : Z;
  WorkerCount : Z;
  MaxStoredAnalyses : Z;
  Backends : list BackendConfig.t;
  MetricQueries : list MetricQuery.t;
}.
End Config.

Module analysisJob.
Record t := {
  ID : string;
  ReceivedAt : Time;
  Payload : GrafanaWebhookPayload.t;
}.
End analysisJob.

Module alertSummary.
Record t := {
  Status : string;
  Labels : gmap string string;
  Annotations : gmap string string;
  StartsAt : Time;
  EndsAt : Time;
}.
End alertSummary.

Module analysisRecord.
Record t := {
  ID : string;
  ReceivedAt : Time;
  CompletedAt : Time;
  AlertStatus : string;
  Receiver : string;
  GroupKey : string;
  CommonLabels : gmap string string;
  CommonAnnots : gmap string string;
  AlertSummaries : list alertSummary.t;
  Metrics : option (list MetricSnapshot.t);
  Providers : list ProviderResult.t;
  Error : string;
}.
End analysisRecord.

(** [len] of a slice that may be nil. *)
Definition slice_len {A} (s : option (list A)) : nat :=
  match s with None => 0 | Some l => length l end.

(* ===================================================================== *)
(** ** The record store *)
(* ===================================================================== *)

(** Outcome of code that may panic. *)
Inductive outcome (A : Type) : Type :=
| Done (a : A)
| Panicked (msg : string).
Arguments Done {A} a.
Arguments Panicked {A} msg.

Module analysisStore.

(** The mutex serialises [add] and [list]; each is one atomic step on
    this state. *)
Record t := {
  max : Z;
  items : list analysisRecord.t;
}.

Definition newAnalysisStore (max : Z) : t := {| max := max; items := [] |}.

(** [s.items = append([]analysisRecord{record}, s.items...)], then
    [s.items = s.items[:s.max]] when the length exceeds [s.max].  The
    slice expression panics for a negative bound. *)
Definition add (record : analysisRecord.t) (s : t) : outcome t :=
  let items' := record :: items s in
  if (max s <? Z.of_nat (length items'))%Z then
    if (max s <? 0)%Z then Panicked "slice bounds out of range"
    else Done {| max := max s; items := take (Z.to_nat (max s)) items' |}
  else Done {| max := max s; items := items' |}.

(** The store between the two statements of [add]: after
    [s.items = append([]analysisRecord{record}, s.items...)].  This is
    the state a panic of the slice expression leaves behind. *)
Definition prepend (record : analysisRecord.t) (s : t) : t :=
  {| max := max s; items := record :: items s |}.

(** [list] returns a copy; a copy of an immutable list is the list. *)
Definition list_ (s : t) : list analysisRecord.t := items s.

(** A run of [add]s, stopping at the first panic. *)
Fixpoint add_all (records : list analysisRecord.t) (s : t) : outcome t :=
  match records with
  | [] => Done s
  | r :: rest =>
      match add r s with
      | Done s' => add_all rest s'
      | Panicked m => Panicked m
      end
  end.

End analysisStore.

(* ===================================================================== *)
(** ** The environment *)
(* ===================================================================== *)

(** A Go [(value, error)] pair: the error carries its message. *)
Inductive result (A : Type) : Type :=
| Ok (a : A)
| Err (msg : string).
Arguments Ok {A} a.
Arguments Err {A} msg.

(** [fmt.Errorf("<prefix>: %w", err)]. *)
Definition wrapErr (prefix msg : string) : string := prefix +:+ ": " +:+ msg.

(** The [map[string]any] that [buildLLMRequest] hands to the JSON encoder. *)
Module PromptPayload.
Record t := {
  received_at : Time;
  alert_status : string;
  receiver : string;
  group_key : string;
  group_labels : gmap string string;
  common_labels : gmap string string;
  common_annotations : gmap string string;
  alerts : list alertSummary.t;
  metric_snapshots : option (list MetricSnapshot.t);
  analysis_window : string;
}.
End PromptPayload.

(** One HTTP exchange with Prometheus, as [InstantQuery] observes it. *)
Inductive PromReply : Type :=
| PromBuildFailed (msg : string)     (* http.NewRequestWithContext *)
| PromDoFailed (msg : string)        (* httpClient.Do *)
| PromReadFailed (msg : string)      (* io.ReadAll *)
| PromResponse (status : Z) (body : string).

(** The anonymous struct [apiResp] of [InstantQuery]. *)
Module apiResp.
Record t := {
  Status : string;
  ResultType : string;
  Result : string;
  ErrorType : string;
  Error : string;
}.
End apiResp.

(** One entry of a vector result; the values are already rendered by
    [fmt.Sprint]. *)
Module vectorEntry.
Record t := {
  Metric : gmap string string;
  Value : list string;
}.
End vectorEntry.

(** What a goroutine of the fan-out observes of one backend call: the
    time between its two clock readings, taken around [Complete], and
    the return value of [Complete].  These readings belong to the
    goroutine and are not counted among those of the worker. *)
Module Call.
Record t := {
  elapsed : Duration;
  returned : result string;
}.
End Call.

(* ===================================================================== *)
(** ** Backend adapters *)
(* ===================================================================== *)

(** [applyProviderOverrides]. *)
Definition applyProviderOverrides (req : LLMRequest.t) (systemPrompt : string)
    (maxTokens : Z) (temperature : float) : LLMRequest.t :=
  let req :=
    if negb (is_empty (TrimSpace systemPrompt)) then
      {| LLMRequest.SystemPrompt := systemPrompt;
         LLMRequest.UserPrompt := LLMRequest.UserPrompt req;
         LLMRequest.MaxTokens := LLMRequest.MaxTokens req;
         LLMRequest.Temperature := LLMRequest.Temperature req |}
    else req in
  let req :=
    if (0 <? maxTokens)%Z then
      {| LLMRequest.SystemPrompt := LLMRequest.SystemPrompt req;
         LLMRequest.UserPrompt := LLMRequest.UserPrompt req;
         LLMRequest.MaxTokens := maxTokens;
         LLMRequest.Temperature := LLMRequest.Temperature req |}
    else req in
  let req :=
    if PrimFloat.ltb 0 temperature then
      {| LLMRequest.SystemPrompt := LLMRequest.SystemPrompt req;
         LLMRequest.UserPrompt := LLMRequest.UserPrompt req;
         LLMRequest.MaxTokens := LLMRequest.MaxTokens req;
         LLMRequest.Temperature := temperature |}
    else req in
  req.

Module openAIProvider.
Record t := {
  name : string;
  model : string;
  baseURL : string;
  apiKey : string;
  systemPrompt : string;
  maxTokens : Z;
  temperature : float;
  httpClient : Duration;
}.
End openAIProvider.

Module ollamaProvider.
Record t := {
  name : string;
  model : string;
  baseURL : string;
  systemPrompt : string;
  maxTokens : Z;
  temperature : float;
  httpClient : Duration;
}.
End ollamaProvider.

Module bedrockProvider.
Record t := {
  name : string;
  model : string;
  region : string;
  systemPrompt : string;
  maxTokens : Z;
  temperature : float;
}.
End bedrockProvider.

(** The identity and request-shaping methods of the [LLMProvider]
    interface.  [Complete] performs the network call and is a field of
    the environment. *)
Class LLMProviderOps (P : Type) := {
  Name : P -> string;
  Type_ : P -> string;
  Model : P -> string;
  PrepareRequest : P -> LLMRequest.t -> LLMRequest.t;
}.

#[export] Instance openAI_ops : LLMProviderOps openAIProvider.t := {|
  Name p := openAIProvider.name p;
  Type_ _ := "openai";
  Model p := openAIProvider.model p;
  PrepareRequest p req :=
    applyProviderOverrides req (openAIProvider.systemPrompt p)
      (openAIProvider.maxTokens p) (openAIProvider.temperature p);
|}.

#[export] Instance ollama_ops : LLMProviderOps ollamaProvider.t := {|
  Name p := ollamaProvider.name p;
  Type_ _ := "ollama";
  Model p := ollamaProvider.model p;
  PrepareRequest p req :=
    applyProviderOverrides req (ollamaProvider.systemPrompt p)
      (ollamaProvider.maxTokens p) (ollamaProvider.temperature p);
|}.

#[export] Instance bedrock_ops : LLMProviderOps bedrockProvider.t := {|
  Name p := bedrockProvider.name p;
  Type_ _ := "bedrock";
  Model p := bedrockProvider.model p;
  PrepareRequest p req :=
    applyProviderOverrides req (bedrockProvider.systemPrompt p)
      (bedrockProvider.maxTokens p) (bedrockProvider.temperature p);
|}.

(** A value of interface type [LLMProvider]: one of the three adapters. *)
Inductive LLMProvider : Type :=
| OpenAI (p : openAIProvider.t)
| Ollama (p : ollamaProvider.t)
| Bedrock (p : bedrockProvider.t).

#[export] Instance provider_ops : LLMProviderOps LLMProvider := {|
  Name p := match p with OpenAI q => Name q | Ollama q => Name q | Bedrock q => Name q end;
  Type_ p := match p with OpenAI q => Type_ q | Ollama q => Type_ q | Bedrock q => Type_ q end;
  Model p := match p with OpenAI q => Model q | Ollama q => Model q | Bedrock q => Model q end;
  PrepareRequest p req :=
    match p with
    | OpenAI q => PrepareRequest q req
    | Ollama q => PrepareRequest q req
    | Bedrock q => PrepareRequest q req
    end;
|}.

(** The override values an adapter was configured with. *)
Definition configuredSystemPrompt (p : LLMProvider) : string :=
  match p with
  | OpenAI q => openAIProvider.systemPrompt q
  | Ollama q => ollamaProvider.systemPrompt q
  | Bedrock q => bedrockProvider.systemPrompt q
  end.

Definition configuredMaxTokens (p : LLMProvider) : Z :=
  match p with
  | OpenAI q => openAIProvider.maxTokens q
  | Ollama q => ollamaProvider.maxTokens q
  | Bedrock q => bedrockProvider.maxTokens q
  end.

Definition configuredTemperature (p : LLMProvider) : float :=
  match p with
  | OpenAI q => openAIProvider.temperature q
  | Ollama q => ollamaProvider.temperature q
  | Bedrock q => bedrockProvider.temperature q
  end.

(** Everything the service reads from outside.  The [nat] that the
    network fields take first is the number of clock readings made so
    far: the moment of the call. *)
Record Env := {
  (* the k-th call of time.Now() *)
  now : nat -> Instant;
  (* the process environment, os.Getenv *)
  environ : gmap string string;
  (* strings.ToLower *)
  ToLower : string -> string;
  (* the verb %q of fmt *)
  Quote : string -> string;
  (* fmt.Sprint of a time.Duration *)
  SprintDuration : Duration -> string;
  (* json.Unmarshal into []BackendConfig *)
  unmarshalBackends : string -> result (list BackendConfig.t);
  (* json.Unmarshal into []MetricQuery *)
  unmarshalMetricQueries : string -> result (list MetricQuery.t);
  (* json.NewDecoder(body).Decode into GrafanaWebhookPayload *)
  decodePayload : string -> result GrafanaWebhookPayload.t;
  (* json.MarshalIndent of the prompt payload *)
  marshalPrompt : PromptPayload.t -> result string;
  (* json.Unmarshal into StructuredAnalysis *)
  unmarshalAnalysis : string -> result StructuredAnalysis.t;
  (* the GET of InstantQuery: base URL, expression, query time *)
  promRoundTrip : nat -> string -> string -> Time -> PromReply;
  (* json.Unmarshal into apiResp *)
  unmarshalApiResp : string -> result apiResp.t;
  (* json.Unmarshal of a scalar result into []any, elements rendered *)
  unmarshalScalar : string -> result (list string);
  (* json.Unmarshal of a vector result *)
  unmarshalVector : string -> result (list vectorEntry.t);
  (* provider.Complete for the adapter at a configuration index *)
  Complete : nat -> nat -> LLMProvider -> LLMRequest.t -> Call.t;
  (* the order in which the goroutines of a fan-out over n adapters
     reach their write to results *)
  completionOrder : nat -> nat -> list nat;
}.

Definition Getenv (E : Env) (key : string) : string :=
  default "" (environ E !! key).

(** [strings.TrimRight(s, "/")]. *)
Fixpoint dropLeadingSlashes (s : string) : string :=
  match s with
  | String a r => if Ascii.eqb a "/" then dropLeadingSlashes r else s
  | EmptyString => EmptyString
  end.

Definition TrimRightSlash (s : string) : string :=
  Strings.rev (dropLeadingSlashes (Strings.rev s)).

Definition sixtySeconds : Duration := (60 * 1000000000)%Z.

Section Adapters.
Context (E : Env).

(** [newOpenAIProvider]. *)
Definition newOpenAIProvider (cfg : BackendConfig.t) : result LLMProvider :=
  if is_empty (BackendConfig.Model cfg) then
    Err ("openai backend " +:+ Quote E (BackendConfig.Name cfg) +:+ " is missing model")
  else
    let apiKey :=
      if negb (is_empty (BackendConfig.APIKeyEnv cfg))
      then TrimSpace (Getenv E (BackendConfig.APIKeyEnv cfg))
      else "" in
    if is_empty apiKey then
      Err ("openai backend " +:+ Quote E (BackendConfig.Name cfg)
           +:+ " is missing API key env " +:+ Quote E (BackendConfig.APIKeyEnv cfg))
    else
      let baseURL :=
        if is_empty (BackendConfig.BaseURL cfg)
        then "https://api.openai.com/v1"
        else BackendConfig.BaseURL cfg in
      Ok (OpenAI {|
        openAIProvider.name := BackendConfig.Name cfg;
        openAIProvider.model := BackendConfig.Model cfg;
        openAIProvider.baseURL := TrimRightSlash baseURL;
        openAIProvider.apiKey := apiKey;
        openAIProvider.systemPrompt := BackendConfig.SystemPrompt cfg;
        openAIProvider.maxTokens := BackendConfig.MaxTokens cfg;
        openAIProvider.temperature := BackendConfig.Temperature cfg;
        openAIProvider.httpClient := sixtySeconds |}).

(** [newOllamaProvider]. *)
Definition newOllamaProvider (cfg : BackendConfig.t) : result LLMProvider :=
  if is_empty (BackendConfig.Model cfg) then
    Err ("ollama backend " +:+ Quote E (BackendConfig.Name cfg) +:+ " is missing model")
  else
    let baseURL :=
      if is_empty (BackendConfig.BaseURL cfg)
      then "http://ollama:11434"
      else BackendConfig.BaseURL cfg in
    Ok (Ollama {|
      ollamaProvider.name := BackendConfig.Name cfg;
      ollamaProvider.model := BackendConfig.Model cfg;
      ollamaProvider.baseURL := TrimRightSlash baseURL;
      ollamaProvider.systemPrompt := BackendConfig.SystemPrompt cfg;
      ollamaProvider.maxTokens := BackendConfig.MaxTokens cfg;
      ollamaProvider.temperature := BackendConfig.Temperature cfg;
      ollamaProvider.httpClient := sixtySeconds |}).

(** [newBedrockProvider]. *)
Definition newBedrockProvider (cfg : BackendConfig.t) : result LLMProvider :=
  if is_empty (BackendConfig.Model cfg) then
    Err ("bedrock backend " +:+ Quote E (BackendConfig.Name cfg) +:+ " is missing model")
  else
    let region :=
      if is_empty (BackendConfig.Region cfg)
      then TrimSpace (Getenv E "AWS_REGION")
      else BackendConfig.Region cfg in
    if is_empty region then
      Err ("bedrock backend " +:+ Quote E (BackendConfig.Name cfg) +:+ " is missing region")
    else
      Ok (Bedrock {|
        bedrockProvider.name := BackendConfig.Name cfg;
        bedrockProvider.model := BackendConfig.Model cfg;
        bedrockProvider.region := region;
        bedrockProvider.systemPrompt := BackendConfig.SystemPrompt cfg;
        bedrockProvider.maxTokens := BackendConfig.MaxTokens cfg;
        bedrockProvider.temperature := BackendConfig.Temperature cfg |}).

(** [buildProvider]. *)
Definition buildProvider (cfg : BackendConfig.t) : result LLMProvider :=
  let ty := BackendConfig.Type_ cfg in
  if String.eqb ty "" || String.eqb ty "openai" then newOpenAIProvider cfg
  else if String.eqb ty "ollama" then newOllamaProvider cfg
  else if String.eqb ty "bedrock" then newBedrockProvider cfg
  else Err ("unsupported backend type " +:+ Quote E ty).

(** [buildProviders]: stops at the first adapter that cannot be built. *)
Fixpoint buildProviders (backends : list BackendConfig.t) : result (list LLMProvider) :=
  match backends with
  | [] => Ok []
  | backend :: rest =>
      match buildProvider backend with
      | Err m => Err m
      | Ok provider =>
          match buildProviders rest with
          | Err m => Err m
          | Ok providers => Ok (provider :: providers)
          end
      end
  end.

(** The nearest [float64] to the constant [0.2]. *)
Definition float_0_2 : float := 0x1.999999999999ap-3%float.

(** The loop body of [parseBackends]. *)
Definition normalizeBackend (b : BackendConfig.t) : BackendConfig.t :=
  let ty := ToLower E (TrimSpace (BackendConfig.Type_ b)) in
  let ty := if is_empty ty then "openai" else ty in
  {| BackendConfig.Name := if is_empty (BackendConfig.Name b) then ty else BackendConfig.Name b;
     BackendConfig.Type_ := ty;
     BackendConfig.Model := BackendConfig.Model b;
     BackendConfig.BaseURL := BackendConfig.BaseURL b;
     BackendConfig.APIKeyEnv := BackendConfig.APIKeyEnv b;
     BackendConfig.Region := BackendConfig.Region b;
     BackendConfig.SystemPrompt := BackendConfig.SystemPrompt b;
     BackendConfig.MaxTokens :=
       if (BackendConfig.MaxTokens b =? 0)%Z then 900%Z else BackendConfig.MaxTokens b;
     BackendConfig.Temperature :=
       if PrimFloat.eqb (BackendConfig.Temperature b) 0
       then float_0_2 else BackendConfig.Temperature b |}.

(** [parseBackends]. *)
Definition parseBackends (raw : string) : result (list BackendConfig.t) :=
  match unmarshalBackends E raw with
  | Err m => Err (wrapErr "parse LLM_BACKENDS_JSON" m)
  | Ok backends => Ok (map normalizeBackend backends)
  end.

(** [envString]. *)
Definition envString (key defaultVal : string) : string :=
  let v := TrimSpace (Getenv E key) in
  if negb (is_empty v) then v else defaultVal.

End Adapters.

(* ===================================================================== *)
(** ** Configuration loading *)
(* ===================================================================== *)

Definition nanosecond : Duration := 1%Z.
Definition second : Duration := 1000000000%Z.
Definition minute : Duration := (60 * second)%Z.
Definition hour : Duration := (60 * minute)%Z.

(** The double quote character, which the query expressions contain. *)
Definition dq : string := String (ascii_of_nat 34) EmptyString.

(** [promDuration]; Go's [%] and [/] truncate toward zero. *)
Definition promDuration (d : Duration) : string :=
  if (Z.rem d hour =? 0)%Z then itoa (d ÷ hour) +:+ "h"
  else if (Z.rem d minute =? 0)%Z then itoa (d ÷ minute) +:+ "m"
  else itoa (d ÷ second) +:+ "s".

Definition mkQuery (name description query : string) : MetricQuery.t :=
  {| MetricQuery.Name := name;
     MetricQuery.Description := description;
     MetricQuery.Query := query |}.

(** [fn(metric{job="<job>"}[lb])]. *)
Definition overJob (fn metric job lb : string) : string :=
  fn +:+ "(" +:+ metric +:+ "{job=" +:+ dq +:+ job +:+ dq +:+ "}[" +:+ lb +:+ "])".

(** [rate(metric{job="node-exporter",device=~"eth0|wlan0|en0"}[lb])]. *)
Definition overUplink (fn metric lb : string) : string :=
  fn +:+ "(" +:+ metric +:+ "{job=" +:+ dq +:+ "node-exporter" +:+ dq
     +:+ ",device=~" +:+ dq +:+ "eth0|wlan0|en0" +:+ dq +:+ "}[" +:+ lb +:+ "])".

(** [defaultMetricQueries]. *)
Definition defaultMetricQueries (lookback : Duration) : list MetricQuery.t :=
  let lb := promDuration lookback in
  [ mkQuery "gateway_reachable_avg" "Average gateway reachability over the lookback window"
      (overJob "avg_over_time" "gateway_reachable" "gateway-monitor" lb);
    mkQuery "wan_reachable_avg" "Average WAN reachability over the lookback window"
      (overJob "avg_over_time" "wan_reachable" "gateway-monitor" lb);
    mkQuery "wifi_probe_up_avg" "Average WiFi probe success over the lookback window"
      (overJob "avg_over_time" "wifi_probe_up" "wifi-probe" lb);
    mkQuery "wifi_probe_errors" "WiFi probe errors accumulated over the lookback window"
      (overJob "increase" "wifi_probe_errors_total" "wifi-probe" lb);
    mkQuery "jitter_avg_ms" "Average jitter in milliseconds over the lookback window"
      (overJob "avg_over_time" "network_jitter_ms" "jitter-probe" lb);
    mkQuery "jitter_max_ms" "Worst jitter in milliseconds over the lookback window"
      (overJob "max_over_time" "network_jitter_ms" "jitter-probe" lb);
    mkQuery "latency_p99_avg_ms" "Average p99 latency over the lookback window"
      (overJob "avg_over_time" "latency_p99" "jitter-probe" lb);
    mkQuery "latency_p99_max_ms" "Worst p99 latency over the lookback window"
      (overJob "max_over_time" "latency_p99" "jitter-probe" lb);
    mkQuery "packet_loss_total" "Packet loss accumulated over the lookback window"
      (overJob "increase" "packet_loss_total" "jitter-probe" lb);
    mkQuery "packet_loss_bursts" "Packet loss bursts accumulated over the lookback window"
      (overJob "increase" "packet_loss_burst_total" "jitter-probe" lb);
    mkQuery "dns_timeouts" "DNS timeouts accumulated over the lookback window"
      (overJob "increase" "dns_probe_timeouts_total" "dns-probe" lb);
    mkQuery "dns_latency_avg_seconds" "Average DNS latency over the lookback window"
      (overJob "avg_over_time" "dns_probe_latency_seconds" "dns-probe" lb);
    mkQuery "failure_domain_events" "Gateway monitor domain transitions over the lookback window"
      (overJob "increase" "failure_domain_events_total" "gateway-monitor" lb);
    mkQuery "carrier_changes" "Host carrier changes on likely uplink devices"
      (overUplink "increase" "node_network_carrier_changes_total" lb);
    mkQuery "link_drops" "Receive and transmit drops on likely uplink devices"
      (overUplink "rate" "node_network_receive_drop_total" lb +:+ " + "
       +:+ overUplink "rate" "node_network_transmit_drop_total" lb);
    mkQuery "link_errors" "Receive and transmit errors on likely uplink devices"
      (overUplink "rate" "node_network_receive_errs_total" lb +:+ " + "
       +:+ overUplink "rate" "node_network_transmit_errs_total" lb);
    mkQuery "tcp_retransmits" "TCP retransmit rate from node-exporter"
      (overJob "rate" "node_netstat_Tcp_RetransSegs" "node-exporter" lb);
    mkQuery "softnet_squeezed" "Softnet times squeezed rate"
      ("sum(" +:+ overJob "rate" "node_softnet_times_squeezed_total" "node-exporter" lb +:+ ")");
    mkQuery "softnet_dropped" "Softnet drop rate"
      ("sum(" +:+ overJob "rate" "node_softnet_dropped_total" "node-exporter" lb +:+ ")");
    mkQuery "uplink_rx_bps" "Receive throughput on likely uplink devices"
      (overUplink "rate" "node_network_receive_bytes_total" lb);
    mkQuery "uplink_tx_bps" "Transmit throughput on likely uplink devices"
      (overUplink "rate" "node_network_transmit_bytes_total" lb) ].

(** [strconv.Atoi] and [time.ParseDuration], which [envInt] and
    [envDuration] call. *)
Record Parsers := {
  Atoi : string -> result Z;
  ParseDuration : string -> result Duration;
}.

Section LoadConfig.
Context (E : Env) (P : Parsers).

(** [envInt]. *)
Definition envInt (key : string) (defaultVal : Z) : Z :=
  let v := TrimSpace (Getenv E key) in
  if negb (is_empty v) then
    match Atoi P v with Ok n => n | Err _ => defaultVal end
  else defaultVal.

(** [envDuration]. *)
Definition envDuration (key : string) (defaultVal : Duration) : Duration :=
  let v := TrimSpace (Getenv E key) in
  if negb (is_empty v) then
    match ParseDuration P v with Ok d => d | Err _ => defaultVal end
  else defaultVal.

(** [parseMetricQueries]. *)
Definition parseMetricQueries (raw : string) : result (list MetricQuery.t) :=
  match unmarshalMetricQueries E raw with
  | Err m => Err (wrapErr "parse METRIC_QUERIES_JSON" m)
  | Ok queries => Ok queries
  end.

(** [loadConfig]. *)
Definition loadConfig : result Config.t :=
  let port := envInt "PORT" 9094%Z in
  let prometheusURL := envString E "PROMETHEUS_URL" "http://host.k3d.internal:9090" in
  let lookback := envDuration "PROMETHEUS_LOOKBACK" (30 * minute)%Z in
  let timeout := envDuration "PROMETHEUS_TIMEOUT" (10 * second)%Z in
  let llmTimeout := envDuration "LLM_TIMEOUT" (30 * second)%Z in
  let queueSize := envInt "JOB_QUEUE_SIZE" 32%Z in
  let workers := envInt "WORKER_CONCURRENCY" 2%Z in
  let maxStored := envInt "MAX_STORED_ANALYSES" 25%Z in
  match parseBackends E (envString E "LLM_BACKENDS_JSON" "[]") with
  | Err m => Err m
  | Ok backends =>
      let metricQueryJSON := TrimSpace (Getenv E "METRIC_QUERIES_JSON") in
      let queries :=
        if negb (is_empty metricQueryJSON)
        then parseMetricQueries metricQueryJSON
        else Ok (defaultMetricQueries lookback) in
      match queries with
      | Err m => Err m
      | Ok metricQueries =>
          Ok {| Config.Port := port;
                Config.PrometheusURL := prometheusURL;
                Config.PrometheusLookback := lookback;
                Config.PrometheusTimeout := timeout;
                Config.LLMTimeout := llmTimeout;
                Config.JobQueueSize := queueSize;
                Config.WorkerCount := workers;
                Config.MaxStoredAnalyses := maxStored;
                Config.Backends := backends;
                Config.MetricQueries := metricQueries |}
      end
  end.

End LoadConfig.

(* ===================================================================== *)
(** ** The job queue *)
(* ===================================================================== *)

Module Chan.

(** A channel of jobs: its capacity, the buffered jobs (oldest first), the
    number of goroutines parked in a receive, and the jobs that a send
    handed directly to a parked receiver which has not resumed yet. *)
Record t := {
  cap : Z;
  buf : list analysisJob.t;
  recvq : nat;
  handed : list analysisJob.t;
}.

Definition make (size : Z) : t :=
  {| cap := size; buf := []; recvq := 0; handed := [] |}.

(** [len(c)]. *)
Definition len (c : t) : Z := Z.of_nat (length (buf c)).

(** The send case of a [select] with a [default]: it proceeds when a
    receiver is parked or the buffer has room, and otherwise the default
    case runs.  [None] is the default case. *)
Definition trySend (job : analysisJob.t) (c : t) : option t :=
  match recvq c with
  | S k => Some {| cap := cap c; buf := buf c; recvq := k;
                   handed := handed c ++ [job] |}
  | O =>
      if (len c <? cap c)%Z
      then Some {| cap := cap c; buf := buf c ++ [job]; recvq := 0;
                   handed := handed c |}
      else None
  end.

(** One receive of [for job := range c]: a resumed receiver takes the job
    handed to it, otherwise the oldest buffered job is taken, otherwise
    the receiver parks. *)
Definition receive (c : t) : option analysisJob.t * t :=
  match handed c with
  | job :: rest =>
      (Some job, {| cap := cap c; buf := buf c; recvq := recvq c; handed := rest |})
  | [] =>
      match buf c with
      | job :: rest =>
          (Some job, {| cap := cap c; buf := rest; recvq := recvq c; handed := [] |})
      | [] =>
          (None, {| cap := cap c; buf := []; recvq := S (recvq c); handed := [] |})
      end
  end.

End Chan.

(* ===================================================================== *)
(** ** Process state *)
(* ===================================================================== *)

(** The mutable state of the process: how many times the clock was read,
    the instruments of [metrics.go], the queue and the store. *)
Record World := {
  ticks : nat;
  alertsReceivedTotal : gmap string nat;
  queueDepthGauge : Z;
  jobResultsTotal : gmap string nat;
  jobDurationSeconds : list Duration;
  providerRequestsTotal : gmap (string * string) nat;
  prometheusQueriesTotal : gmap (string * string) nat;
  queue : Chan.t;
  store : analysisStore.t;
}.

(** [WithLabelValues(k).Inc()]. *)
Definition Inc `{Countable K} (k : K) (m : gmap K nat) : gmap K nat :=
  <[k := S (default 0 (m !! k))]> m.

Definition count `{Countable K} (k : K) (m : gmap K nat) : nat :=
  default 0 (m !! k).

Definition set_ticks (n : nat) (w : World) : World :=
  {| ticks := n;
     alertsReceivedTotal := alertsReceivedTotal w;
     queueDepthGauge := queueDepthGauge w;
     jobResultsTotal := jobResultsTotal w;
     jobDurationSeconds := jobDurationSeconds w;
     providerRequestsTotal := providerRequestsTotal w;
     prometheusQueriesTotal := prometheusQueriesTotal w;
     queue := queue w; store := store w |}.

Definition set_alertsReceivedTotal (m : gmap string nat) (w : World) : World :=
  {| ticks := ticks w;
     alertsReceivedTotal := m;
     queueDepthGauge := queueDepthGauge w;
     jobResultsTotal := jobResultsTotal w;
     jobDurationSeconds := jobDurationSeconds w;
     providerRequestsTotal := providerRequestsTotal w;
     prometheusQueriesTotal := prometheusQueriesTotal w;
     queue := queue w; store := store w |}.

Definition set_queueDepthGauge (g : Z) (w : World) : World :=
  {| ticks := ticks w;
     alertsReceivedTotal := alertsReceivedTotal w;
     queueDepthGauge := g;
     jobResultsTotal := jobResultsTotal w;
     jobDurationSeconds := jobDurationSeconds w;
     providerRequestsTotal := providerRequestsTotal w;
     prometheusQueriesTotal := prometheusQueriesTotal w;
     queue := queue w; store := store w |}.

Definition set_jobResultsTotal (m : gmap string nat) (w : World) : World :=
  {| ticks := ticks w;
     alertsReceivedTotal := alertsReceivedTotal w;
     queueDepthGauge := queueDepthGauge w;
     jobResultsTotal := m;
     jobDurationSeconds := jobDurationSeconds w;
     providerRequestsTotal := providerRequestsTotal w;
     prometheusQueriesTotal := prometheusQueriesTotal w;
     queue := queue w; store := store w |}.

Definition set_jobDurationSeconds (l : list Duration) (w : World) : World :=
  {| ticks := ticks w;
     alertsReceivedTotal := alertsReceivedTotal w;
     queueDepthGauge := queueDepthGauge w;
     jobResultsTotal := jobResultsTotal w;
     jobDurationSeconds := l;
     providerRequestsTotal := providerRequestsTotal w;
     prometheusQueriesTotal := prometheusQueriesTotal w;
     queue := queue w; store := store w |}.

Definition set_providerRequestsTotal (m : gmap (string * string) nat) (w : World) : World :=
  {| ticks := ticks w;
     alertsReceivedTotal := alertsReceivedTotal w;
     queueDepthGauge := queueDepthGauge w;
     jobResultsTotal := jobResultsTotal w;
     jobDurationSeconds := jobDurationSeconds w;
     providerRequestsTotal := m;
     prometheusQueriesTotal := prometheusQueriesTotal w;
     queue := queue w; store := store w |}.

Definition set_prometheusQueriesTotal (m : gmap (string * string) nat) (w : World) : World :=
  {| ticks := ticks w;
     alertsReceivedTotal := alertsReceivedTotal w;
     queueDepthGauge := queueDepthGauge w;
     jobResultsTotal := jobResultsTotal w;
     jobDurationSeconds := jobDurationSeconds w;
     providerRequestsTotal := providerRequestsTotal w;
     prometheusQueriesTotal := m;
     queue := queue w; store := store w |}.

Definition set_queue (q : Chan.t) (w : World) : World :=
  {| ticks := ticks w;
     alertsReceivedTotal := alertsReceivedTotal w;
     queueDepthGauge := queueDepthGauge w;
     jobResultsTotal := jobResultsTotal w;
     jobDurationSeconds := jobDurationSeconds w;
     providerRequestsTotal := providerRequestsTotal w;
     prometheusQueriesTotal := prometheusQueriesTotal w;
     queue := q; store := store w |}.

Definition set_store (s : analysisStore.t) (w : World) : World :=
  {| ticks := ticks w;
     alertsReceivedTotal := alertsReceivedTotal w;
     queueDepthGauge := queueDepthGauge w;
     jobResultsTotal := jobResultsTotal w;
     jobDurationSeconds := jobDurationSeconds w;
     providerRequestsTotal := providerRequestsTotal w;
     prometheusQueriesTotal := prometheusQueriesTotal w;
     queue := queue w; store := s |}.

(** A computation on the process state that returns or panics. *)
Inductive run (A : Type) : Type :=
| Return (a : A) (w : World)
| Panic (msg : string) (w : World).
Arguments Return {A} a w.
Arguments Panic {A} msg w.

Definition M (A : Type) : Type := World -> run A.

Definition ret {A} (a : A) : M A := fun w => Return a w.

Definition bind {A B} (m : M A) (k : A -> M B) : M B :=
  fun w =>
    match m w with
    | Return a w' => k a w'
    | Panic msg w' => Panic msg w'
    end.

Notation "'let*' x ':=' m 'in' k" := (bind m (fun x => k))
  (at level 10, x pattern, m at level 100, k at level 200).

Definition modify (f : World -> World) : M unit := fun w => Return tt (f w).

Definition world_of {A} (r : run A) : World :=
  match r with Return _ w => w | Panic _ w => w end.

(** [PrometheusClient]. *)
Module PrometheusClient.
Record t := {
  baseURL : string;
  httpClient : Duration;
}.
End PrometheusClient.

(** [NewPrometheusClient]. *)
Definition NewPrometheusClient (baseURL : string) (timeout : Duration) : PrometheusClient.t :=
  {| PrometheusClient.baseURL := TrimRightSlash baseURL;
     PrometheusClient.httpClient := timeout |}.

(** The immutable part of [server]; its queue and store are in [World]. *)
Module server.
Record t := {
  cfg : Config.t;
  prom : PrometheusClient.t;
  providers : list LLMProvider;
}.
End server.

(** An HTTP request as the handlers read it. *)
Module Request.
Record t := {
  Method : string;
  Body : string;
}.
End Request.

(** What a handler writes: [http.Error] with a status and a text, the
    JSON of an accepted job, the JSON of the stored analyses, or the JSON
    of the health report. *)
Inductive Response : Type :=
| HttpError (status : Z) (text : string)
| Queued (status : Z) (job_id : string) (alerts : Z) (backends : list string)
| Items (status : Z) (items : list analysisRecord.t)
| Health (status : Z) (providers : list string) (prometheus_url : string)
    (queue_depth worker_count stored_analyses : Z).

Definition StatusOK : Z := 200.
Definition StatusAccepted : Z := 202.
Definition StatusBadRequest : Z := 400.
Definition StatusMethodNotAllowed : Z := 405.
Definition StatusServiceUnavailable : Z := 503.

(* ===================================================================== *)
(** ** The pipeline *)
(* ===================================================================== *)

(** [earliestAlertTime]. *)
Definition earliestAlertTime (payload : GrafanaWebhookPayload.t) (fallback : Time) : Time :=
  fold_left
    (fun earliest alert =>
       if negb (IsZero (GrafanaAlert.StartsAt alert))
          && Before (GrafanaAlert.StartsAt alert) earliest
       then GrafanaAlert.StartsAt alert
       else earliest)
    (GrafanaWebhookPayload.Alerts payload) fallback.

(** [summarizeAlerts]. *)
Definition summarizeAlerts (alerts : list GrafanaAlert.t) : list alertSummary.t :=
  map (fun alert =>
         {| alertSummary.Status := GrafanaAlert.Status alert;
            alertSummary.Labels := GrafanaAlert.Labels alert;
            alertSummary.Annotations := GrafanaAlert.Annotations alert;
            alertSummary.StartsAt := GrafanaAlert.StartsAt alert;
            alertSummary.EndsAt := GrafanaAlert.EndsAt alert |})
      alerts.

(** [providerNames]. *)
Definition providerNames (providers : list LLMProvider) : list string :=
  sortStrings (map Name providers).

(** The replacer of [sanitizeID] maps five single bytes to a dash. *)
Definition sanitizeByte (c : ascii) : ascii :=
  if Ascii.eqb c "/" || Ascii.eqb c ":" || Ascii.eqb c " "
     || Ascii.eqb c "010" || Ascii.eqb c "009"
  then "-"%char else c.

(** [sanitizeID]. *)
Definition sanitizeID (v : string) : string :=
  let out := map_bytes sanitizeByte (TrimSpace v) in
  if is_empty out then "alert" else out.

(** [summarizeSeries]. *)
Definition summarizeSeries (series : list MetricSeries.t) : string :=
  if (length series =? 0)%nat then "no series"
  else
    Join
      (map (fun s =>
              let labelParts :=
                sortStrings
                  (map (fun kv => fst kv +:+ "=" +:+ snd kv)
                     (filter (fun kv => fst kv <> "__name__")
                        (map_to_list (MetricSeries.Labels s)))) in
              if (length labelParts =? 0)%nat then MetricSeries.Value s
              else Join labelParts "," +:+ " => " +:+ MetricSeries.Value s)
           series)
      "; ".

(** The line feed character. *)
Definition nl : string := String "010" EmptyString.

(** ["key": ] at the start of a line of the JSON shape, indented by two. *)
Definition shapeKey (key : string) : string :=
  "  " +:+ dq +:+ key +:+ dq +:+ ": ".

Definition quoted (s : string) : string := dq +:+ s +:+ dq.

(** [defaultSystemPrompt]. *)
Definition defaultSystemPrompt : string :=
  Join
    [ "You analyze edge network alerts using only the provided evidence.";
      "Return strict JSON with this shape:";
      "{";
      shapeKey "summary" +:+ quoted "short incident summary" +:+ ",";
      shapeKey "likely_issue" +:+ quoted "most likely root cause" +:+ ",";
      shapeKey "confidence" +:+ "0.0,";
      shapeKey "evidence" +:+ "[" +:+ quoted "bullet evidence" +:+ "],";
      shapeKey "potential_fix" +:+ "[" +:+ quoted "ordered remediation ideas" +:+ "],";
      shapeKey "next_checks" +:+ "["
        +:+ quoted "additional checks if evidence is insufficient" +:+ "]";
      "}";
      "Do not invent radio-level evidence if it is not present in the metrics." ]
    nl.

(** The fixed head of the user prompt of [buildLLMRequest]. *)
Definition userPromptHeader : string :=
  "Evaluate this Grafana alert incident and summarize the issue, likely cause, and potential fix using only the evidence below."
  +:+ nl +:+ nl.

Definition set_Metrics (m : option (list MetricSnapshot.t)) (r : analysisRecord.t) : analysisRecord.t :=
  {| analysisRecord.ID := analysisRecord.ID r;
     analysisRecord.ReceivedAt := analysisRecord.ReceivedAt r;
     analysisRecord.CompletedAt := analysisRecord.CompletedAt r;
     analysisRecord.AlertStatus := analysisRecord.AlertStatus r;
     analysisRecord.Receiver := analysisRecord.Receiver r;
     analysisRecord.GroupKey := analysisRecord.GroupKey r;
     analysisRecord.CommonLabels := analysisRecord.CommonLabels r;
     analysisRecord.CommonAnnots := analysisRecord.CommonAnnots r;
     analysisRecord.AlertSummaries := analysisRecord.AlertSummaries r;
     analysisRecord.Metrics := m;
     analysisRecord.Providers := analysisRecord.Providers r;
     analysisRecord.Error := analysisRecord.Error r |}.

Definition set_Providers (p : list ProviderResult.t) (r : analysisRecord.t) : analysisRecord.t :=
  {| analysisRecord.ID := analysisRecord.ID r;
     analysisRecord.ReceivedAt := analysisRecord.ReceivedAt r;
     analysisRecord.CompletedAt := analysisRecord.CompletedAt r;
     analysisRecord.AlertStatus := analysisRecord.AlertStatus r;
     analysisRecord.Receiver := analysisRecord.Receiver r;
     analysisRecord.GroupKey := analysisRecord.GroupKey r;
     analysisRecord.CommonLabels := analysisRecord.CommonLabels r;
     analysisRecord.CommonAnnots := analysisRecord.CommonAnnots r;
     analysisRecord.AlertSummaries := analysisRecord.AlertSummaries r;
     analysisRecord.Metrics := analysisRecord.Metrics r;
     analysisRecord.Providers := p;
     analysisRecord.Error := analysisRecord.Error r |}.

Definition set_Error (e : string) (r : analysisRecord.t) : analysisRecord.t :=
  {| analysisRecord.ID := analysisRecord.ID r;
     analysisRecord.ReceivedAt := analysisRecord.ReceivedAt r;
     analysisRecord.CompletedAt := analysisRecord.CompletedAt r;
     analysisRecord.AlertStatus := analysisRecord.AlertStatus r;
     analysisRecord.Receiver := analysisRecord.Receiver r;
     analysisRecord.GroupKey := analysisRecord.GroupKey r;
     analysisRecord.CommonLabels := analysisRecord.CommonLabels r;
     analysisRecord.CommonAnnots := analysisRecord.CommonAnnots r;
     analysisRecord.AlertSummaries := analysisRecord.AlertSummaries r;
     analysisRecord.Metrics := analysisRecord.Metrics r;
     analysisRecord.Providers := analysisRecord.Providers r;
     analysisRecord.Error := e |}.

Definition set_CompletedAt (t : Time) (r : analysisRecord.t) : analysisRecord.t :=
  {| analysisRecord.ID := analysisRecord.ID r;
     analysisRecord.ReceivedAt := analysisRecord.ReceivedAt r;
     analysisRecord.CompletedAt := t;
     analysisRecord.AlertStatus := analysisRecord.AlertStatus r;
     analysisRecord.Receiver := analysisRecord.Receiver r;
     analysisRecord.GroupKey := analysisRecord.GroupKey r;
     analysisRecord.CommonLabels := analysisRecord.CommonLabels r;
     analysisRecord.CommonAnnots := analysisRecord.CommonAnnots r;
     analysisRecord.AlertSummaries := analysisRecord.AlertSummaries r;
     analysisRecord.Metrics := analysisRecord.Metrics r;
     analysisRecord.Providers := analysisRecord.Providers r;
     analysisRecord.Error := analysisRecord.Error r |}.

(** The snapshot [collectMetrics] records for a query that failed. *)
Definition errorSnapshot (query : MetricQuery.t) (msg : string) : MetricSnapshot.t :=
  {| MetricSnapshot.Name := MetricQuery.Name query;
     MetricSnapshot.Description := MetricQuery.Description query;
     MetricSnapshot.Query := MetricQuery.Query query;
     MetricSnapshot.ResultType := "";
     MetricSnapshot.Summary := "";
     MetricSnapshot.Series := [];
     MetricSnapshot.Error := msg |}.

(** The single entry [processJob] records when no backend is configured. *)
Definition noBackendResult : ProviderResult.t :=
  {| ProviderResult.Provider := "none";
     ProviderResult.Type_ := "none";
     ProviderResult.Model := "";
     ProviderResult.DurationMS := 0;
     ProviderResult.Response := "";
     ProviderResult.Parsed := None;
     ProviderResult.Error := "no LLM backends configured" |}.

(** The single entry [runProviders] returns when the prompt cannot be
    built. *)
Definition promptBuilderResult (msg : string) : ProviderResult.t :=
  {| ProviderResult.Provider := "prompt-builder";
     ProviderResult.Type_ := "internal";
     ProviderResult.Model := "";
     ProviderResult.DurationMS := 0;
     ProviderResult.Response := "";
     ProviderResult.Parsed := None;
     ProviderResult.Error := msg |}.

Section Pipeline.
Context (E : Env).

(** [time.Now()]: the next clock reading. *)
Definition timeNow : M Instant :=
  fun w => Return (now E (ticks w)) (set_ticks (S (ticks w)) w).

(** [buildLLMRequest]. *)
Definition buildLLMRequest (job : analysisJob.t)
    (metrics : option (list MetricSnapshot.t)) (lookbackDuration : Duration)
    : result LLMRequest.t :=
  let p := analysisJob.Payload job in
  let payload :=
    {| PromptPayload.received_at := analysisJob.ReceivedAt job;
       PromptPayload.alert_status := GrafanaWebhookPayload.Status p;
       PromptPayload.receiver := GrafanaWebhookPayload.Receiver p;
       PromptPayload.group_key := GrafanaWebhookPayload.GroupKey p;
       PromptPayload.group_labels := GrafanaWebhookPayload.GroupLabels p;
       PromptPayload.common_labels := GrafanaWebhookPayload.CommonLabels p;
       PromptPayload.common_annotations := GrafanaWebhookPayload.CommonAnnotations p;
       PromptPayload.alerts := summarizeAlerts (GrafanaWebhookPayload.Alerts p);
       PromptPayload.metric_snapshots := metrics;
       PromptPayload.analysis_window := SprintDuration E lookbackDuration |} in
  match marshalPrompt E payload with
  | Err m => Err (wrapErr "marshal prompt payload" m)
  | Ok body =>
      Ok {| LLMRequest.SystemPrompt := defaultSystemPrompt;
            LLMRequest.UserPrompt := userPromptHeader +:+ body;
            LLMRequest.MaxTokens := 900;
            LLMRequest.Temperature := float_0_2 |}
  end.

(** [PrometheusClient.InstantQuery], called at the given moment. *)
Definition InstantQuery (p : PrometheusClient.t) (moment : nat)
    (query : MetricQuery.t) (queryTime : Time) : result MetricSnapshot.t :=
  match promRoundTrip E moment (PrometheusClient.baseURL p)
          (MetricQuery.Query query) queryTime with
  | PromBuildFailed m => Err (wrapErr "build Prometheus request" m)
  | PromDoFailed m => Err (wrapErr "query Prometheus" m)
  | PromReadFailed m => Err (wrapErr "read Prometheus response" m)
  | PromResponse status body =>
      if (300 <=? status)%Z then
        Err ("Prometheus status " +:+ itoa status +:+ ": " +:+ TrimSpace body)
      else
        match unmarshalApiResp E body with
        | Err m => Err (wrapErr "decode Prometheus response" m)
        | Ok resp =>
            if negb (String.eqb (apiResp.Status resp) "success") then
              Err ("Prometheus " +:+ apiResp.ErrorType resp +:+ ": " +:+ apiResp.Error resp)
            else
              let snapshot (summary : string) (series : list MetricSeries.t) :=
                {| MetricSnapshot.Name := MetricQuery.Name query;
                   MetricSnapshot.Description := MetricQuery.Description query;
                   MetricSnapshot.Query := MetricQuery.Query query;
                   MetricSnapshot.ResultType := apiResp.ResultType resp;
                   MetricSnapshot.Summary := summary;
                   MetricSnapshot.Series := series;
                   MetricSnapshot.Error := "" |} in
              if String.eqb (apiResp.ResultType resp) "scalar" then
                match unmarshalScalar E (apiResp.Result resp) with
                | Err m => Err (wrapErr "decode scalar result" m)
                | Ok raw =>
                    match raw with
                    | [_; v] =>
                        Ok (snapshot ("value=" +:+ v)
                              [{| MetricSeries.Labels := ∅; MetricSeries.Value := v |}])
                    | _ => Ok (snapshot "" [])
                    end
                end
              else if String.eqb (apiResp.ResultType resp) "vector" then
                match unmarshalVector E (apiResp.Result resp) with
                | Err m => Err (wrapErr "decode vector result" m)
                | Ok entries =>
                    let series :=
                      map (fun entry =>
                             {| MetricSeries.Labels := vectorEntry.Metric entry;
                                MetricSeries.Value :=
                                  match vectorEntry.Value entry with
                                  | [_; v] => v
                                  | _ => ""
                                  end |})
                          entries in
                    Ok (snapshot (summarizeSeries series) series)
                end
              else Ok (snapshot (apiResp.Result resp) [])
        end
  end.

(** The body of the loop of [collectMetrics] for one query. *)
Definition collectOne (s : server.t) (queryTime : Time) (query : MetricQuery.t)
    : M MetricSnapshot.t :=
  fun w =>
    match InstantQuery (server.prom s) (ticks w) query queryTime with
    | Err m =>
        Return (errorSnapshot query m)
          (set_prometheusQueriesTotal
             (Inc (MetricQuery.Name query, "error") (prometheusQueriesTotal w)) w)
    | Ok snapshot =>
        Return snapshot
          (set_prometheusQueriesTotal
             (Inc (MetricQuery.Name query, "success") (prometheusQueriesTotal w)) w)
    end.

(** The loop of [collectMetrics]: [snapshots] grows by one per query. *)
Fixpoint collectLoop (s : server.t) (queryTime : Time)
    (queries : list MetricQuery.t) (snapshots : list MetricSnapshot.t)
    : M (list MetricSnapshot.t) :=
  match queries with
  | [] => ret snapshots
  | query :: rest =>
      let* snapshot := collectOne s queryTime query in
      collectLoop s queryTime rest (snapshots ++ [snapshot])
  end.

(** The time at which [collectMetrics] queries. *)
Definition anchorQueryTime (s : server.t) (job : analysisJob.t) : M Time :=
  let* t0 := timeNow in
  let queryTime := wall t0 in
  if (0 <? length (GrafanaWebhookPayload.Alerts (analysisJob.Payload job)))%nat then
    let earliest := earliestAlertTime (analysisJob.Payload job) queryTime in
    let queryTime := Add earliest (Config.PrometheusLookback (server.cfg s)) in
    let* t1 := timeNow in
    if After queryTime (wall t1) then
      let* t2 := timeNow in
      ret (wall t2)
    else ret queryTime
  else ret queryTime.

(** [server.collectMetrics]: the snapshots and the error. *)
Definition collectMetrics (s : server.t) (job : analysisJob.t)
    : M (option (list MetricSnapshot.t) * option string) :=
  if is_empty (TrimSpace (Config.PrometheusURL (server.cfg s))) then
    ret (None, None)
  else
    let* queryTime := anchorQueryTime s job in
    let* snapshots :=
      collectLoop s queryTime (Config.MetricQueries (server.cfg s)) [] in
    ret (Some snapshots, None).

(** What one goroutine of [runProviders] computes for its slot, and the
    outcome it reports to the counter. *)
Definition providerCall (moment idx : nat) (provider : LLMProvider)
    (request : LLMRequest.t) : ProviderResult.t * string :=
  let call := Complete E moment idx provider (PrepareRequest provider request) in
  let durationMS := Milliseconds (Call.elapsed call) in
  match Call.returned call with
  | Err m =>
      ({| ProviderResult.Provider := Name provider;
          ProviderResult.Type_ := Type_ provider;
          ProviderResult.Model := Model provider;
          ProviderResult.DurationMS := durationMS;
          ProviderResult.Response := "";
          ProviderResult.Parsed := None;
          ProviderResult.Error := m |}, "error")
  | Ok response =>
      ({| ProviderResult.Provider := Name provider;
          ProviderResult.Type_ := Type_ provider;
          ProviderResult.Model := Model provider;
          ProviderResult.DurationMS := durationMS;
          ProviderResult.Response := response;
          ProviderResult.Parsed :=
            match unmarshalAnalysis E response with
            | Ok parsed =>
                if negb (is_empty (StructuredAnalysis.Summary parsed))
                then Some parsed else None
            | Err _ => None
            end;
          ProviderResult.Error := "" |}, "success")
  end.

(** The goroutines of one fan-out, in the order in which they finish.
    The goroutine started for index [idx] bumps its counter and stores
    its result in [results[idx]]; an index for which no goroutine was
    started does nothing. *)
Fixpoint fanOut (moment : nat) (providers : list LLMProvider)
    (request : LLMRequest.t) (order : list nat)
    (results : list ProviderResult.t) (w : World)
    : list ProviderResult.t * World :=
  match order with
  | [] => (results, w)
  | idx :: rest =>
      match providers !! idx with
      | None => fanOut moment providers request rest results w
      | Some provider =>
          let '(result, outcome) := providerCall moment idx provider request in
          fanOut moment providers request rest
            (<[idx := result]> results)
            (set_providerRequestsTotal
               (Inc (Name provider, outcome) (providerRequestsTotal w)) w)
      end
  end.

(** [server.runProviders]. *)
Definition runProviders (s : server.t) (job : analysisJob.t)
    (metrics : option (list MetricSnapshot.t)) : M (list ProviderResult.t) :=
  match buildLLMRequest job metrics (Config.PrometheusLookback (server.cfg s)) with
  | Err m => ret [promptBuilderResult m]
  | Ok request =>
      fun w =>
        let n := length (server.providers s) in
        let results := replicate n ProviderResult.zero in
        let '(results, w') :=
          fanOut (ticks w) (server.providers s) request
            (completionOrder E (ticks w) n) results w in
        Return results w'
  end.

(** [s.store.add(record)] on the store of the process.  When the slice
    expression of [add] panics, the assignment before it has already put
    the record in front of [s.items]. *)
Definition storeAdd (record : analysisRecord.t) : M unit :=
  fun w =>
    match analysisStore.add record (store w) with
    | Done st => Return tt (set_store st w)
    | Panicked msg =>
        Panic msg (set_store (analysisStore.prepend record (store w)) w)
    end.

(** The record [processJob] starts from. *)
Definition initialRecord (job : analysisJob.t) : analysisRecord.t :=
  let p := analysisJob.Payload job in
  {| analysisRecord.ID := analysisJob.ID job;
     analysisRecord.ReceivedAt := analysisJob.ReceivedAt job;
     analysisRecord.CompletedAt := 0%Z;
     analysisRecord.AlertStatus := GrafanaWebhookPayload.Status p;
     analysisRecord.Receiver := GrafanaWebhookPayload.Receiver p;
     analysisRecord.GroupKey := GrafanaWebhookPayload.GroupKey p;
     analysisRecord.CommonLabels := GrafanaWebhookPayload.CommonLabels p;
     analysisRecord.CommonAnnots := GrafanaWebhookPayload.CommonAnnotations p;
     analysisRecord.AlertSummaries := summarizeAlerts (GrafanaWebhookPayload.Alerts p);
     analysisRecord.Metrics := None;
     analysisRecord.Providers := [];
     analysisRecord.Error := "" |}.

(** [server.processJob], up to the record it hands to the store. *)
Definition assembleRecord (s : server.t) (job : analysisJob.t)
    : M (analysisRecord.t * Instant) :=
  let* start := timeNow in
  let record := initialRecord job in
  let* (metrics, err) := collectMetrics s job in
  let record :=
    match err with
    | Some msg => set_Error msg record
    | None => record
    end in
  let record := set_Metrics metrics record in
  let* providers :=
    if (length (server.providers s) =? 0)%nat
    then ret [noBackendResult]
    else runProviders s job metrics in
  let record := set_Providers providers record in
  let* completed := timeNow in
  let record := set_CompletedAt (wall completed) record in
  ret (record, start).

(** [server.processJob]. *)
Definition processJob (s : server.t) (workerID : Z) (job : analysisJob.t) : M unit :=
  let* (record, start) := assembleRecord s job in
  let* t := timeNow in
  let* _ := modify (fun w =>
              set_jobDurationSeconds (jobDurationSeconds w ++ [Since t start]) w) in
  let* _ := modify (fun w =>
              set_jobResultsTotal (Inc "processed" (jobResultsTotal w)) w) in
  let* _ := storeAdd record in
  let* _ := timeNow in
  ret tt.

(** How a run of the worker loop ends: parked in the receive on an empty
    queue, or unwound by a panic of the job it was processing.  Nothing
    in [worker] or [processJob] recovers a panic, so the panic leaves
    [worker] and ends the goroutine. *)
Inductive workerEnd : Type :=
| Parked
| Unwound (msg : string)
| OutOfFuel.

(** [server.worker]: iterations of [for job := range s.queue]. *)
Fixpoint workerLoop (fuel : nat) (s : server.t) (id : Z) (w : World)
    : workerEnd * World :=
  match fuel with
  | O => (OutOfFuel, w)
  | S fuel' =>
      match Chan.receive (queue w) with
      | (None, q) => (Parked, set_queue q w)
      | (Some job, q) =>
          let w1 := set_queueDepthGauge (queueDepthGauge w - 1) (set_queue q w) in
          match processJob s id job w1 with
          | Return _ w2 => workerLoop fuel' s id w2
          | Panic msg w2 => (Unwound msg, w2)
          end
      end
  end.

(** Jobs the worker can receive without parking. *)
Definition pending (w : World) : nat :=
  length (Chan.handed (queue w)) + length (Chan.buf (queue w)).

(** One run of [server.worker] until it parks or unwinds. *)
Definition worker (s : server.t) (id : Z) (w : World) : workerEnd * World :=
  workerLoop (S (pending w)) s id w.

(** [server.handleGrafanaWebhook]. *)
Definition handleGrafanaWebhook (s : server.t) (r : Request.t) : M Response :=
  if negb (String.eqb (Request.Method r) "POST") then
    ret (HttpError StatusMethodNotAllowed "method not allowed")
  else
    match decodePayload E (Request.Body r) with
    | Err _ => ret (HttpError StatusBadRequest "invalid json body")
    | Ok payload =>
        let* _ := modify (fun w =>
                    set_alertsReceivedTotal
                      (Inc (GrafanaWebhookPayload.Status payload)
                         (alertsReceivedTotal w)) w) in
        let* t1 := timeNow in
        let* t2 := timeNow in
        let job :=
          {| analysisJob.ID :=
               itoa (UnixNano (wall t1)) +:+ "-"
               +:+ sanitizeID (GrafanaWebhookPayload.GroupKey payload);
             analysisJob.ReceivedAt := wall t2;
             analysisJob.Payload := payload |} in
        fun w =>
          match Chan.trySend job (queue w) with
          | Some q =>
              Return
                (Queued StatusAccepted (analysisJob.ID job)
                   (Z.of_nat (length (GrafanaWebhookPayload.Alerts payload)))
                   (providerNames (server.providers s)))
                (set_queueDepthGauge (queueDepthGauge w + 1) (set_queue q w))
          | None =>
              Return (HttpError StatusServiceUnavailable "queue full")
                (set_jobResultsTotal (Inc "queue_full" (jobResultsTotal w)) w)
          end
    end.

(** [server.handleLatestAnalyses]. *)
Definition handleLatestAnalyses (s : server.t) : M Response :=
  fun w => Return (Items StatusOK (analysisStore.list_ (store w))) w.

(** [server.handleHealthz]. *)
Definition handleHealthz (s : server.t) : M Response :=
  fun w =>
    Return
      (Health StatusOK (providerNames (server.providers s))
         (Config.PrometheusURL (server.cfg s))
         (Chan.len (queue w))
         (Config.WorkerCount (server.cfg s))
         (Z.of_nat (length (analysisStore.list_ (store w)))))
      w.

(** The server and the initial state that [main] builds from a loaded
    configuration, before any worker has reached its receive.  [main]
    exits when an adapter cannot be built, and [make] panics on a
    negative queue size; neither yields a server. *)
Definition newServer (cfg : Config.t) : result (server.t * World) :=
  match buildProviders E (Config.Backends cfg) with
  | Err m => Err m
  | Ok providers =>
      if (Config.JobQueueSize cfg <? 0)%Z then Err "makechan: size out of range"
      else
      Ok ({| server.cfg := cfg;
             server.prom :=
               NewPrometheusClient (Config.PrometheusURL cfg)
                 (Config.PrometheusTimeout cfg);
             server.providers := providers |},
          {| ticks := 0;
             alertsReceivedTotal := ∅;
             queueDepthGauge := 0;
             jobResultsTotal := ∅;
             jobDurationSeconds := [];
             providerRequestsTotal := ∅;
             prometheusQueriesTotal := ∅;
             queue := Chan.make (Config.JobQueueSize cfg);
             store := analysisStore.newAnalysisStore (Config.MaxStoredAnalyses cfg) |})
  end.

(** The process: running in some state, or ended by a panic that no
    goroutine recovered (the runtime prints the panic and exits with
    status 2), with the state the panic left. *)
Inductive Process : Type :=
| Running (w : World)
| Crashed (msg : string) (w : World).

(** What happens next in the process: a request is served, or the
    worker with the given identifier runs until it parks. *)
Inductive Event : Type :=
| Webhook (r : Request.t)
| LatestAnalyses
| Healthz
| WorkerRuns (id : Z).

(** A handler runs in a goroutine of [net/http], which recovers a panic
    of the handler and closes the connection without a response. *)
Definition serveRequest (handler : M Response) (w : World)
    : option Response * Process :=
  match handler w with
  | Return resp w' => (Some resp, Running w')
  | Panic _ w' => (None, Running w')
  end.

(** One event.  The goroutines that [main] starts with [go srv.worker]
    have no [recover]: a panic that unwinds a worker ends the process,
    and a process that has ended serves no request and runs no worker. *)
Definition step (s : server.t) (e : Event) (p : Process)
    : option Response * Process :=
  match p with
  | Crashed msg w => (None, Crashed msg w)
  | Running w =>
      match e with
      | Webhook r => serveRequest (handleGrafanaWebhook s r) w
      | LatestAnalyses => serveRequest (handleLatestAnalyses s) w
      | Healthz => serveRequest (handleHealthz s) w
      | WorkerRuns id =>
          match worker s id w with
          | (Unwound msg, w') => (None, Crashed msg w')
          | (_, w') => (None, Running w')
          end
      end
  end.

(** A run of events and the responses to them. *)
Fixpoint serve (s : server.t) (events : list Event) (p : Process)
    : list (option Response) * Process :=
  match events with
  | [] => ([], p)
  | e :: rest =>
      let (resp, p') := step s e p in
      let (resps, p'') := serve s rest p' in
      (resp :: resps, p'')
  end.

End Pipeline.

(** [main] up to the point where it serves: load the configuration, build
    the adapters, the queue and the store. *)
Definition startup (E : Env) (P : Parsers) : result (server.t * World) :=
  match loadConfig E P with
  | Err m => Err m
  | Ok cfg => newServer E cfg
  end.

(** The query time in the words of the specification: the least
    non-zero [StartsAt] of the job's alerts, or the job's arrival time
    when there is none, plus the lookback, and no later than [nowT].
    It is compared with [anchorQueryTime] below. *)
Definition specQueryTime (job : analysisJob.t) (lookback : Duration) (nowT : Time) : Time :=
  let starts :=
    filter (fun t => t <> 0%Z)
      (map GrafanaAlert.StartsAt
         (GrafanaWebhookPayload.Alerts (analysisJob.Payload job))) in
  let earliest :=
    match starts with
    | [] => analysisJob.ReceivedAt job
    | t :: rest => foldr Z.min t rest
    end in
  Z.min (earliest + lookback) nowT.

(** What [collectMetrics] records for one query at a given moment and
    query time. *)
Definition snapshotFor (E : Env) (s : server.t) (moment : nat) (queryTime : Time)
    (query : MetricQuery.t) : MetricSnapshot.t :=
  match InstantQuery E (server.prom s) moment query queryTime with
  | Ok snapshot => snapshot
  | Err m => errorSnapshot query m
  end.

(** The parts of the process state that enrichment and fan-out leave
    alone: they read the clock and bump the query and provider counters
    only. *)
Definition frame (w w' : World) : Prop :=
  queue w' = queue w /\
  store w' = store w /\
  jobResultsTotal w' = jobResultsTotal w /\
  alertsReceivedTotal w' = alertsReceivedTotal w /\
  queueDepthGauge w' = queueDepthGauge w /\
  jobDurationSeconds w' = jobDurationSeconds w.

(* ===================================================================== *)
(** ** A concrete deployment *)
(* ===================================================================== *)

(** An environment, a server and a few jobs on which the definitions
    above can be evaluated. *)
Module Scenario.

(** 2025-12-07T05:20:00Z, in nanoseconds since the zero time. *)
Definition base : Time := (63900681600 * second)%Z.

(** A clock that advances one second per reading. *)
Definition tickingClock (k : nat) : Instant :=
  {| wall := (base + Z.of_nat k * second)%Z; mono := (Z.of_nat k * second)%Z |}.

(** A clock whose first two readings are taken on arrival of a webhook
    and whose later readings are taken an hour later, when a worker gets
    to the job. *)
Definition lateClock (k : nat) : Instant :=
  if (k <? 2)%nat
  then {| wall := base; mono := 0 |}
  else {| wall := (base + hour)%Z; mono := hour |}.

Definition lowerByte (c : ascii) : ascii :=
  let n := byte_of c in
  if ((65 <=? n) && (n <=? 90))%N then ascii_of_N (n + 32) else c.

(** The first instant of the year 10000, which [time.Time.MarshalJSON]
    refuses. *)
Definition year10000 : Time := (315537897600 * second)%Z.

Definition bracesSummary (s : string) : result StructuredAnalysis.t :=
  match s with
  | String "{" rest =>
      match Strings.rev rest with
      | String "}" r =>
          Ok {| StructuredAnalysis.Summary := Strings.rev r;
                StructuredAnalysis.LikelyIssue := "";
                StructuredAnalysis.Confidence := 0%float;
                StructuredAnalysis.Evidence := [];
                StructuredAnalysis.PotentialFix := [];
                StructuredAnalysis.NextChecks := [] |}
      | _ => Err "unexpected end of JSON input"
      end
  | _ => Err "invalid character looking for beginning of value"
  end.

Definition firingAlert (startsAt : Time) : GrafanaAlert.t :=
  {| GrafanaAlert.Status := "firing";
     GrafanaAlert.Labels := {[ "alertname" := "GatewayDown" ]};
     GrafanaAlert.Annotations := ∅;
     GrafanaAlert.StartsAt := startsAt;
     GrafanaAlert.EndsAt := 0%Z;
     GrafanaAlert.GeneratorURL := "";
     GrafanaAlert.Fingerprint := "";
     GrafanaAlert.SilenceURL := "";
     GrafanaAlert.DashboardURL := "";
     GrafanaAlert.PanelURL := "" |}.

Definition payloadOf (groupKey : string) (alerts : list GrafanaAlert.t)
    : GrafanaWebhookPayload.t :=
  {| GrafanaWebhookPayload.Receiver := "edge";
     GrafanaWebhookPayload.Status := "firing";
     GrafanaWebhookPayload.Alerts := alerts;
     GrafanaWebhookPayload.GroupLabels := ∅;
     GrafanaWebhookPayload.CommonLabels := ∅;
     GrafanaWebhookPayload.CommonAnnotations := ∅;
     GrafanaWebhookPayload.ExternalURL := "";
     GrafanaWebhookPayload.Version := "1";
     GrafanaWebhookPayload.GroupKey := groupKey;
     GrafanaWebhookPayload.TruncatedAlerts := 0 |}.

Definition env (clock : nat -> Instant) (order : nat -> list nat) : Env :=
  {| now := clock;
     environ := ∅;
     ToLower := map_bytes lowerByte;
     Quote := fun s => dq +:+ s +:+ dq;
     SprintDuration := fun d => itoa (d ÷ second) +:+ "s";
     unmarshalBackends := fun _ => Ok [];
     unmarshalMetricQueries := fun _ => Err "unexpected end of JSON input";
     decodePayload := fun body =>
       if is_empty body then Err "EOF"
       else Ok (payloadOf body [firingAlert 0%Z]);
     marshalPrompt := fun p =>
       if (PromptPayload.received_at p <? year10000)%Z
       then Ok (PromptPayload.group_key p)
       else Err "Time.MarshalJSON: year outside of range [0,9999]";
     unmarshalAnalysis := bracesSummary;
     promRoundTrip := fun _ _ expr _ =>
       if String.eqb expr "down" then PromDoFailed "connection refused"
       else PromResponse 200 "1";
     unmarshalApiResp := fun body =>
       Ok {| apiResp.Status := "success"; apiResp.ResultType := "scalar";
             apiResp.Result := body; apiResp.ErrorType := "";
             apiResp.Error := "" |};
     unmarshalScalar := fun r => Ok ["1765084800"; r];
     unmarshalVector := fun _ => Ok [];
     Complete := fun _ _ provider _ =>
       if String.eqb (Name provider) "slow"
       then {| Call.elapsed := (30 * second)%Z;
               Call.returned := Err "context deadline exceeded" |}
       else if String.eqb (Name provider) "chatty"
       then {| Call.elapsed := (2 * second)%Z;
               Call.returned := Ok "the gateway looks unreachable" |}
       else {| Call.elapsed := (1200 * 1000000)%Z;
               Call.returned := Ok "{gateway unreachable}" |};
     completionOrder := fun _ n => order n |}.

Definition parsers : Parsers :=
  {| Atoi := fun _ => Err "invalid syntax";
     ParseDuration := fun _ => Err "invalid duration" |}.

(** Goroutines finish in the reverse of the order they were started in. *)
Definition E0 : Env := env tickingClock (fun n => reverse (seq 0 n)).

Definition E_late : Env := env lateClock (fun n => seq 0 n).

Definition backend (name : string) (maxTokens : Z) : BackendConfig.t :=
  {| BackendConfig.Name := name;
     BackendConfig.Type_ := "ollama";
     BackendConfig.Model := "llama3";
     BackendConfig.BaseURL := "";
     BackendConfig.APIKeyEnv := "";
     BackendConfig.Region := "";
     BackendConfig.SystemPrompt := "";
     BackendConfig.MaxTokens := maxTokens;
     BackendConfig.Temperature := 0%float |}.

Definition queries : list MetricQuery.t :=
  [ mkQuery "gateway" "gateway reachability" "up";
    mkQuery "wan" "wan reachability" "down";
    mkQuery "dns" "dns timeouts" "dns" ].

Definition config (url : string) (queueSize maxStored : Z)
    (backends : list BackendConfig.t) : Config.t :=
  {| Config.Port := 9094;
     Config.PrometheusURL := url;
     Config.PrometheusLookback := (30 * minute)%Z;
     Config.PrometheusTimeout := (10 * second)%Z;
     Config.LLMTimeout := (30 * second)%Z;
     Config.JobQueueSize := queueSize;
     Config.WorkerCount := 2;
     Config.MaxStoredAnalyses := maxStored;
     Config.Backends := backends;
     Config.MetricQueries := queries |}.

Definition threeBackends : list BackendConfig.t :=
  [backend "fast" 0; backend "slow" 512; backend "chatty" 0].

(** The server and initial state for a configuration; adapter
    construction succeeds for the configurations used here. *)
Definition boot (E : Env) (cfg : Config.t) : server.t * World :=
  match newServer E cfg with
  | Ok sw => sw
  | Err _ =>
      ({| server.cfg := cfg;
          server.prom := NewPrometheusClient "" 0%Z;
          server.providers := [] |},
       {| ticks := 0; alertsReceivedTotal := ∅; queueDepthGauge := 0;
          jobResultsTotal := ∅; jobDurationSeconds := [];
          providerRequestsTotal := ∅; prometheusQueriesTotal := ∅;
          queue := Chan.make 0; store := analysisStore.newAnalysisStore 0 |})
  end.

Definition jobAt (id : string) (received : Time) (alerts : list GrafanaAlert.t)
    : analysisJob.t :=
  {| analysisJob.ID := id;
     analysisJob.ReceivedAt := received;
     analysisJob.Payload := payloadOf id alerts |}.

Definition recordOf (id : string) : analysisRecord.t :=
  initialRecord (jobAt id base []).

(** Three backends behind a queue of four and a store of five. *)
Definition cfg3 : Config.t := config "http://prometheus:9090" 4 5 threeBackends.
Definition s3 : server.t := fst (boot E0 cfg3).
Definition w3 : World := snd (boot E0 cfg3).

(** One group with an alert that started two hours before [base] and one
    that carries no start time. *)
Definition job1 : analysisJob.t :=
  jobAt "grp" base [firingAlert (base - 2 * hour)%Z; firingAlert 0%Z].

(** A job whose arrival time cannot be marshalled. *)
Definition job_unmarshallable : analysisJob.t :=
  jobAt "late" year10000 [firingAlert base].

Definition request1 : LLMRequest.t :=
  match buildLLMRequest E0 job1 None (30 * minute)%Z with
  | Ok r => r
  | Err _ => LLMRequest.zero
  end.

(** A job that arrived at [base] with no alert start time, and the state
    in which a worker gets to it after the two clock readings of the
    webhook handler. *)
Definition job_queued : analysisJob.t := jobAt "grp" base [firingAlert 0%Z].
Definition w_late : World := set_ticks 2 w3.

(** The configuration [loadConfig] yields in this environment, and the
    server built from it. *)
Definition cfg_loaded : Config.t :=
  match loadConfig E0 parsers with
  | Ok cfg => cfg
  | Err _ => cfg3
  end.
Definition s_loaded : server.t := fst (boot E0 cfg_loaded).
Definition w_loaded : World := snd (boot E0 cfg_loaded).

(** The same deployment as [cfg3] with a blank Prometheus URL. *)
Definition cfg_blank : Config.t := config "  " 4 5 threeBackends.
Definition s_blank : server.t := fst (boot E0 cfg_blank).

(** The deployment of [cfg3] behind a queue of one. *)
Definition cfg_q1 : Config.t := config "http://prometheus:9090" 1 5 threeBackends.
Definition s_q1 : server.t := fst (boot E0 cfg_q1).
Definition w_q1 : World := snd (boot E0 cfg_q1).

(** The deployment of [cfg3] with [MAX_STORED_ANALYSES=-1], and a state
    in which two jobs wait in the queue. *)
Definition cfg_neg : Config.t := config "http://prometheus:9090" 4 (-1) threeBackends.
Definition s_neg : server.t := fst (boot E0 cfg_neg).
Definition job2 : analysisJob.t := jobAt "grp2" base [firingAlert base].
Definition w_neg : World :=
  set_queue {| Chan.cap := 4; Chan.buf := [job1; job2]; Chan.recvq := 0;
               Chan.handed := [] |}
    (snd (boot E0 cfg_neg)).

Definition post (body : string) : Request.t :=
  {| Request.Method := "POST"; Request.Body := body |}.

(** The state after a first webhook was admitted into the queue of one. *)
Definition w_q1_full : World :=
  world_of (handleGrafanaWebhook E0 s_q1 (post "first") w_q1).

End Scenario.

(* ===================================================================== *)
(** ** Further notions *)
(* ===================================================================== *)

(** The bytes that the replacer of [sanitizeID] rewrites. *)
Definition replacedBytes : list ascii := ["/"; ":"; " "; "010"; "009"]%char.

(** The jobs a worker can receive without parking, in the order in which
    [Chan.receive] yields them. *)
Definition pendingJobs (w : World) : list analysisJob.t :=
  Chan.handed (queue w) ++ Chan.buf (queue w).

(** An environment that differs from [E] in the process environment
    only. *)
Definition withEnviron (vars : gmap string string) (E : Env) : Env :=
  {| now := now E;
     environ := vars;
     ToLower := ToLower E;
     Quote := Quote E;
     SprintDuration := SprintDuration E;
     unmarshalBackends := unmarshalBackends E;
     unmarshalMetricQueries := unmarshalMetricQueries E;
     decodePayload := decodePayload E;
     marshalPrompt := marshalPrompt E;
     unmarshalAnalysis := unmarshalAnalysis E;
     promRoundTrip := promRoundTrip E;
     unmarshalApiResp := unmarshalApiResp E;
     unmarshalScalar := unmarshalScalar E;
     unmarshalVector := unmarshalVector E;
     Complete := Complete E;
     completionOrder := completionOrder E |}.

(** The deployment of [Scenario] started with [MAX_STORED_ANALYSES=-1]. *)
Module Misconfigured.

Definition E_neg : Env :=
  withEnviron {[ "MAX_STORED_ANALYSES" := "-1" ]} Scenario.E0.

Definition parsers : Parsers :=
  {| Atoi := fun v => if String.eqb v "-1" then Ok (-1)%Z else Err "invalid syntax";
     ParseDuration := fun _ => Err "invalid duration" |}.

Definition started : server.t * World :=
  match startup E_neg parsers with
  | Ok sw => sw
  | Err _ => (Scenario.s3, Scenario.w3)
  end.

End Misconfigured.

(** What identifies a job in the store: its identifier, its arrival time
    and the status of its alert group, read off a job and off a record. *)
Definition jobKey (job : analysisJob.t) : string * Time * string :=
  (analysisJob.ID job, analysisJob.ReceivedAt job,
   GrafanaWebhookPayload.Status (analysisJob.Payload job)).

Definition recordKey (record : analysisRecord.t) : string * Time * string :=
  (analysisRecord.ID record, analysisRecord.ReceivedAt record,
   analysisRecord.AlertStatus record).

(** The deployment of [Scenario.cfg3] with [WORKER_CONCURRENCY=1], and a
    state of it in which two jobs wait in the queue. *)
Module SingleWorker.

Definition cfg : Config.t :=
  {| Config.Port := Config.Port Scenario.cfg3;
     Config.PrometheusURL := Config.PrometheusURL Scenario.cfg3;
     Config.PrometheusLookback := Config.PrometheusLookback Scenario.cfg3;
     Config.PrometheusTimeout := Config.PrometheusTimeout Scenario.cfg3;
     Config.LLMTimeout := Config.LLMTimeout Scenario.cfg3;
     Config.JobQueueSize := Config.JobQueueSize Scenario.cfg3;
     Config.WorkerCount := 1;
     Config.MaxStoredAnalyses := Config.MaxStoredAnalyses Scenario.cfg3;
     Config.Backends := Config.Backends Scenario.cfg3;
     Config.MetricQueries := Config.MetricQueries Scenario.cfg3 |}.

Definition s : server.t := fst (Scenario.boot Scenario.E0 cfg).

Definition w_two_waiting : World :=
  set_queue {| Chan.cap := 4; Chan.buf := [Scenario.job1; Scenario.job2];
               Chan.recvq := 0; Chan.handed := [] |}
    (snd (Scenario.boot Scenario.E0 cfg)).

End SingleWorker.

(* ===================================================================== *)
(** ** The [Complete] methods of the adapters *)
(* ===================================================================== *)

(** One HTTP POST as a [Complete] method observes it. *)
Inductive PostReply : Type :=
| PostBuildFailed (msg : string)     (* http.NewRequestWithContext *)
| PostDoFailed (msg : string)        (* httpClient.Do *)
| PostReadFailed (msg : string)      (* io.ReadAll *)
| PostResponse (status : Z) (body : string).

(** The [map[string]any] each adapter hands to [json.Marshal].  A field
    that the adapter leaves out of the map is [None]. *)
Inductive ChatPayload : Type :=
| OpenAIPayload (model system user : string) (max_tokens : Z) (temperature : float)
| OllamaPayload (model system user : string) (temperature : float) (num_predict : Z)
| BedrockPayload (user : string) (max_tokens : Z) (system : option string)
    (temperature : option float).

(** One element of the [content] array of a Bedrock answer. *)
Module contentBlock.
Record t := {
  Type_ : string;
  Text : string;
}.
End contentBlock.

(** What the [Complete] methods reach outside the process. *)
Record Backends := {
  (* json.Marshal of the request payload *)
  marshalChat : ChatPayload -> result string;
  (* the POST: URL, headers in the order they are set, body *)
  httpPost : string -> list (string * string) -> string -> PostReply;
  (* json.Unmarshal of an OpenAI answer: choices[i].message.content *)
  unmarshalChoices : string -> result (list string);
  (* json.Unmarshal of an Ollama answer: message.content *)
  unmarshalMessage : string -> result string;
  (* awsconfig.LoadDefaultConfig for a region *)
  loadAWSConfig : string -> result unit;
  (* client.InvokeModel: region, model, body; the body of the output *)
  invokeModel : string -> string -> string -> result string;
  (* json.Unmarshal of a Bedrock answer: the content blocks *)
  unmarshalBlocks : string -> result (list contentBlock.t);
}.

Section CompleteMethods.
Context (B : Backends).

(** [Complete] of [openAIProvider]. *)
Definition openAIComplete (p : openAIProvider.t) (req : LLMRequest.t) : result string :=
  match marshalChat B
          (OpenAIPayload (openAIProvider.model p) (LLMRequest.SystemPrompt req)
             (LLMRequest.UserPrompt req) (LLMRequest.MaxTokens req)
             (LLMRequest.Temperature req)) with
  | Err m => Err (wrapErr "marshal openai request" m)
  | Ok body =>
      match httpPost B (openAIProvider.baseURL p +:+ "/chat/completions")
              [("Authorization", "Bearer " +:+ openAIProvider.apiKey p);
               ("Content-Type", "application/json")] body with
      | PostBuildFailed m => Err (wrapErr "build openai request" m)
      | PostDoFailed m => Err (wrapErr "openai request failed" m)
      | PostReadFailed m => Err (wrapErr "read openai response" m)
      | PostResponse status respBody =>
          if (300 <=? status)%Z then
            Err ("openai status " +:+ itoa status +:+ ": " +:+ TrimSpace respBody)
          else
            match unmarshalChoices B respBody with
            | Err m => Err (wrapErr "decode openai response" m)
            | Ok [] => Err "openai returned no choices"
            | Ok (content :: _) => Ok (TrimSpace content)
            end
      end
  end.

(** [Complete] of [ollamaProvider]. *)
Definition ollamaComplete (p : ollamaProvider.t) (req : LLMRequest.t) : result string :=
  match marshalChat B
          (OllamaPayload (ollamaProvider.model p) (LLMRequest.SystemPrompt req)
             (LLMRequest.UserPrompt req) (LLMRequest.Temperature req)
             (LLMRequest.MaxTokens req)) with
  | Err m => Err (wrapErr "marshal ollama request" m)
  | Ok body =>
      match httpPost B (ollamaProvider.baseURL p +:+ "/api/chat")
              [("Content-Type", "application/json")] body with
      | PostBuildFailed m => Err (wrapErr "build ollama request" m)
      | PostDoFailed m => Err (wrapErr "ollama request failed" m)
      | PostReadFailed m => Err (wrapErr "read ollama response" m)
      | PostResponse status respBody =>
          if (300 <=? status)%Z then
            Err ("ollama status " +:+ itoa status +:+ ": " +:+ TrimSpace respBody)
          else
            match unmarshalMessage B respBody with
            | Err m => Err (wrapErr "decode ollama response" m)
            | Ok content => Ok (TrimSpace content)
            end
      end
  end.

(** The text blocks [Complete] keeps: those with a non-empty text, in
    order. *)
Definition textParts (blocks : list contentBlock.t) : list string :=
  filter (fun text => text <> "") (map contentBlock.Text blocks).

(** [Complete] of [bedrockProvider]. *)
Definition bedrockComplete (p : bedrockProvider.t) (req : LLMRequest.t) : result string :=
  match loadAWSConfig B (bedrockProvider.region p) with
  | Err m => Err (wrapErr "load AWS config" m)
  | Ok _ =>
      let payload :=
        BedrockPayload (LLMRequest.UserPrompt req) (LLMRequest.MaxTokens req)
          (if negb (is_empty (LLMRequest.SystemPrompt req))
           then Some (LLMRequest.SystemPrompt req) else None)
          (if PrimFloat.ltb 0 (LLMRequest.Temperature req)
           then Some (LLMRequest.Temperature req) else None) in
      match marshalChat B payload with
      | Err m => Err (wrapErr "marshal bedrock request" m)
      | Ok body =>
          match invokeModel B (bedrockProvider.region p) (bedrockProvider.model p) body with
          | Err m => Err (wrapErr "bedrock invoke failed" m)
          | Ok output =>
              match unmarshalBlocks B output with
              | Err _ => Ok (TrimSpace output)
              | Ok blocks =>
                  let parts := textParts blocks in
                  if (length parts =? 0)%nat then Ok (TrimSpace output)
                  else Ok (TrimSpace (Join parts nl))
              end
          end
      end
  end.

(** [Complete] through the interface. *)
Definition completeWith (p : LLMProvider) (req : LLMRequest.t) : result string :=
  match p with
  | OpenAI q => openAIComplete q req
  | Ollama q => ollamaComplete q req
  | Bedrock q => bedrockComplete q req
  end.

End CompleteMethods.

(** Backends that answer every call the way a healthy deployment would. *)
Module Healthy.

Definition backends : Backends :=
  {| marshalChat := fun _ => Ok "{}";
     httpPost := fun url _ _ =>
       if String.eqb url "http://ollama:11434/api/chat"
       then PostResponse 200 " pong "
       else PostResponse 503 "upstream unavailable";
     unmarshalChoices := fun body => Ok [body];
     unmarshalMessage := fun body => Ok body;
     loadAWSConfig := fun _ => Ok tt;
     invokeModel := fun _ _ _ => Ok " raw answer ";
     unmarshalBlocks := fun _ =>
       Ok [ {| contentBlock.Type_ := "text"; contentBlock.Text := "first" |};
            {| contentBlock.Type_ := "text"; contentBlock.Text := "" |};
            {| contentBlock.Type_ := "text"; contentBlock.Text := "second " |} ] |}.

Definition bedrock : bedrockProvider.t :=
  {| bedrockProvider.name := "claude";
     bedrockProvider.model := "anthropic.claude-3";
     bedrockProvider.region := "eu-west-1";
     bedrockProvider.systemPrompt := "";
     bedrockProvider.maxTokens := 900;
     bedrockProvider.temperature := 0%float |}.

Definition ollama : ollamaProvider.t :=
  {| ollamaProvider.name := "local";
     ollamaProvider.model := "llama3";
     ollamaProvider.baseURL := "http://ollama:11434";
     ollamaProvider.systemPrompt := "";
     ollamaProvider.maxTokens := 900;
     ollamaProvider.temperature := 0%float;
     ollamaProvider.httpClient := sixtySeconds |}.

End Healthy.

(* ===================================================================== *)
(** ** The sample window of the jitter probe *)
(* ===================================================================== *)

Module Window.

(** The ring buffer of latency samples. *)
Record t := {
  data : list float;
  pos : Z;
  count : Z;
  cap : Z;
}.

(** [NewWindow]; [make] panics on a negative length. *)
Definition NewWindow (capacity : Z) : outcome t :=
  if (capacity <? 0)%Z then Panicked "makeslice: len out of range"
  else Done {| data := replicate (Z.to_nat capacity) 0%float;
               pos := 0; count := 0; cap := capacity |}.

(** [Add]: the store into [data] panics on an index outside the slice,
    and the remainder panics on a zero capacity. *)
Definition Add (latencyMs : float) (w : t) : outcome t :=
  if (pos w <? 0)%Z || (Z.of_nat (length (data w)) <=? pos w)%Z
  then Panicked "index out of range"
  else if (cap w =? 0)%Z then Panicked "integer divide by zero"
  else
    Done {| data := <[Z.to_nat (pos w) := latencyMs]> (data w);
            pos := Z.rem (pos w + 1) (cap w);
            count := if (count w <? cap w)%Z then (count w + 1)%Z else count w;
            cap := cap w |}.

(** [Len]. *)
Definition Len (w : t) : Z := count w.

(** [values]: nil for an empty window, otherwise a copy of the samples,
    oldest first.  [make] panics on a negative length and the slice
    expressions on bounds outside the slice; [copy] stops at the shorter
    of its operands, leaving zeros behind. *)
Definition values (w : t) : outcome (option (list float)) :=
  if (count w =? 0)%Z then Done None
  else if (count w <? 0)%Z then Panicked "makeslice: len out of range"
  else
    let n := Z.to_nat (count w) in
    if (count w <? cap w)%Z then
      if (Z.of_nat (length (data w)) <? count w)%Z
      then Panicked "slice bounds out of range"
      else Done (Some (take n (data w)))
    else
      if (pos w <? 0)%Z || (Z.of_nat (length (data w)) <? pos w)%Z
      then Panicked "slice bounds out of range"
      else
        let p := Z.to_nat (pos w) in
        Done (Some (take n (drop p (data w) ++ take p (data w) ++ replicate n 0%float))).

(** A run of [Add]s, stopping at the first panic. *)
Fixpoint addAll (samples : list float) (w : t) : outcome t :=
  match samples with
  | [] => Done w
  | x :: rest =>
      match Add x w with
      | Done w' => addAll rest w'
      | Panicked m => Panicked m
      end
  end.

(** What the window stands for after the samples [xs] were added to a
    new window of capacity [c]: while it is filling up the samples sit at
    the front of [data]; once it is full, reading [data] from [pos]
    around gives the last [c] samples. *)
Definition holds (c : nat) (xs : list float) (w : t) : Prop :=
  cap w = Z.of_nat c /\
  length (data w) = c /\
  if decide (length xs < c) then
    data w = xs ++ replicate (c - length xs) 0%float /\
    pos w = Z.of_nat (length xs) /\
    count w = Z.of_nat (length xs)
  else
    count w = Z.of_nat c /\
    (0 <= pos w < Z.of_nat c)%Z /\
    drop (Z.to_nat (pos w)) (data w) ++ take (Z.to_nat (pos w)) (data w)
    = drop (length xs - c) xs.

End Window.

(* ===================================================================== *)
(** ** The probes *)
(* ===================================================================== *)

(** An environment that differs from [E] in the exchange with Prometheus
    and the decoding of its answers only. *)
Definition withPrometheus (roundTrip : nat -> string -> string -> Time -> PromReply)
    (decode : string -> result apiResp.t)
    (vector : string -> result (list vectorEntry.t)) (E : Env) : Env :=
  {| now := now E;
     environ := environ E;
     ToLower := ToLower E;
     Quote := Quote E;
     SprintDuration := SprintDuration E;
     unmarshalBackends := unmarshalBackends E;
     unmarshalMetricQueries := unmarshalMetricQueries E;
     decodePayload := decodePayload E;
     marshalPrompt := marshalPrompt E;
     unmarshalAnalysis := unmarshalAnalysis E;
     promRoundTrip := roundTrip;
     unmarshalApiResp := decode;
     unmarshalScalar := unmarshalScalar E;
     unmarshalVector := vector;
     Complete := Complete E;
     completionOrder := completionOrder E |}.

(** The deployment of [Scenario] while Prometheus refuses connections. *)
Module Outage.

Definition E_down : Env :=
  withPrometheus (fun _ _ _ _ => PromDoFailed "connection refused")
    (unmarshalApiResp Scenario.E0) (unmarshalVector Scenario.E0) Scenario.E0.

End Outage.

(** The deployment of [Scenario] against a Prometheus that refuses the
    connection for every [increase] query and answers the others. *)
Module Flaky.

Definition E_flaky : Env :=
  withPrometheus
    (fun _ _ expr _ =>
       if String.prefix "increase(" expr then PromDoFailed "connection refused"
       else PromResponse 200 "1")
    (unmarshalApiResp Scenario.E0) (unmarshalVector Scenario.E0) Scenario.E0.

End Flaky.

(** The deployment of [Scenario] against a Prometheus that answers every
    query with a vector of two entries, the second without a value. *)
Module VectorAnswer.

Definition entries : list vectorEntry.t :=
  [ {| vectorEntry.Metric := {[ "instance" := "gw" ]};
       vectorEntry.Value := ["1765084800"; "1"] |};
    {| vectorEntry.Metric := ∅; vectorEntry.Value := [] |} ].

Definition answer (body : string) : apiResp.t :=
  {| apiResp.Status := "success"; apiResp.ResultType := "vector";
     apiResp.Result := body; apiResp.ErrorType := "";
     apiResp.Error := "" |}.

Definition E_vec : Env :=
  withPrometheus (fun _ _ _ _ => PromResponse 200 "[]")
    (fun body => Ok (answer body)) (fun _ => Ok entries) Scenario.E0.

End VectorAnswer.

(** [strings.Split(s, sep)] for a separator of one byte, as the first
    piece and the pieces after it: a string without the separator is its
    own single piece. *)
Fixpoint SplitByte (sep : ascii) (s : string) : string * list string :=
  match s with
  | EmptyString => (EmptyString, [])
  | String c rest =>
      let (p, ps) := SplitByte sep rest in
      if Ascii.eqb c sep then (EmptyString, p :: ps) else (String c p, ps)
  end.

Definition Split (s : string) (sep : ascii) : list string :=
  let (p, ps) := SplitByte sep s in p :: ps.

(** [envList] of wifi-probe and dns-probe: the trimmed, non-empty pieces
    of a comma separated variable; [None] is the nil slice of a blank
    variable. *)
Definition envList (E : Env) (key : string) : option (list string) :=
  let v := TrimSpace (Getenv E key) in
  if is_empty v then None
  else Some (List.filter (fun t => negb (is_empty t)) (map TrimSpace (Split v ","))).

Module Dial.
(** What one [net.DialTimeout] gave: the time measured around it and its
    error, [None] for a connection. *)
Record t := {
  latency : Duration;
  err : option string;
}.
End Dial.

(** The network as a probe sees it: the outcome of its [i]-th dial, to a
    host and port under a timeout. *)
Definition Network : Type := nat -> string -> Z -> Duration -> Dial.t.

Module GatewayMonitor.

(** [envOrDefault]. *)
Definition envOrDefault (E : Env) (key fallback : string) : string :=
  if is_empty (Getenv E key) then fallback else Getenv E key.

(** [boolToFloat]. *)
Definition boolToFloat (b : bool) : float := if b then 1%float else 0%float.

(** The loop of [tcpProbe] from its [i]-th dial on. *)
Fixpoint tcpProbeFrom (net : Network) (host : string) (timeout : Duration)
    (i : nat) (ports : list Z) : bool * Duration * option string :=
  match ports with
  | [] => (false, 0%Z, Some ("no tcp ports reachable on " +:+ host))
  | port :: rest =>
      let d := net i host port timeout in
      match Dial.err d with
      | None => (true, Dial.latency d, None)
      | Some _ => tcpProbeFrom net host timeout (S i) rest
      end
  end.

(** [tcpProbe]: success, latency and error. *)
Definition tcpProbe (net : Network) (host : string) (ports : list Z)
    (timeout : Duration) : bool * Duration * option string :=
  tcpProbeFrom net host timeout 0 ports.

(** The gauges and the counter of the monitor. *)
Record Metrics := {
  gatewayReachable : float;
  wanReachable : float;
  failureDomainEventsTotal : gmap string nat;
}.

(** The variables of the probing goroutine. *)
Record Loop := {
  prevGatewayUp : bool;
  prevWanUp : bool;
  metrics : Metrics;
}.

Definition probePorts : list Z := [443; 80]%Z.
Definition probeTimeout : Duration := (2 * second)%Z.

(** The goroutine before its first tick, with nothing measured yet. *)
Definition initial : Loop :=
  {| prevGatewayUp := true;
     prevWanUp := true;
     metrics := {| gatewayReachable := 0%float;
                   wanReachable := 0%float;
                   failureDomainEventsTotal := ∅ |} |}.

(** One iteration of the probing loop of [main], given the network as
    the gateway probe and then the WAN probe meet it. *)
Definition iteration (gatewayIP wanTarget : string) (netGw netWan : Network)
    (st : Loop) : Loop :=
  let gwUp := fst (fst (tcpProbe netGw gatewayIP probePorts probeTimeout)) in
  let wUp := fst (fst (tcpProbe netWan wanTarget probePorts probeTimeout)) in
  let gwTransitionDown := prevGatewayUp st && negb gwUp in
  let wanTransitionDown := prevWanUp st && negb wUp in
  let events := failureDomainEventsTotal (metrics st) in
  let events' :=
    if gwTransitionDown && wanTransitionDown then Inc "full" events
    else if gwTransitionDown && negb wanTransitionDown then
      if wUp then Inc "lan" events else Inc "full" events
    else if wanTransitionDown && negb gwTransitionDown then
      if gwUp then Inc "wan" events else Inc "full" events
    else events in
  {| prevGatewayUp := gwUp;
     prevWanUp := wUp;
     metrics := {| gatewayReachable := boolToFloat gwUp;
                   wanReachable := boolToFloat wUp;
                   failureDomainEventsTotal := events' |} |}.

(** The loop over the ticks of a run, each with the network of its two
    probes. *)
Fixpoint run (gatewayIP wanTarget : string) (ticks : list (Network * Network))
    (st : Loop) : Loop :=
  match ticks with
  | [] => st
  | (netGw, netWan) :: rest =>
      run gatewayIP wanTarget rest (iteration gatewayIP wanTarget netGw netWan st)
  end.

(** A network on which every dial is refused, and one on which port 443
    is closed and port 80 answers within a millisecond. *)
Definition refused : Network :=
  fun _ _ _ _ => {| Dial.latency := 1000000%Z; Dial.err := Some "connection refused" |}.

Definition plainOnly : Network :=
  fun _ _ port _ =>
    {| Dial.latency := 1000000%Z;
       Dial.err := if (port =? 80)%Z then None else Some "connection refused" |}.

End GatewayMonitor.

(* ===================================================================== *)
(** * Properties *)
(* ===================================================================== *)

(** ** The record store *)

Lemma take_cons_take {A} (n : nat) (x : A) (l : list A) :
  take n (x :: take n l) = take n (x :: l).
Proof.
  destruct n as [|k]; simpl; [reflexivity|].
  f_equal. rewrite take_take. f_equal. lia.
Qed.

Lemma add_ok (r : analysisRecord.t) (s : analysisStore.t) :
  (0 <= analysisStore.max s)%Z ->
  analysisStore.add r s =
  Done {| analysisStore.max := analysisStore.max s;
          analysisStore.items :=
            take (Z.to_nat (analysisStore.max s)) (r :: analysisStore.items s) |}.
Proof.
  intros Hmax. unfold analysisStore.add.
  destruct (Z.ltb_spec (analysisStore.max s)
              (Z.of_nat (length (r :: analysisStore.items s)))) as [Hlt|Hge].
  - destruct (Z.ltb_spec (analysisStore.max s) 0); [lia|reflexivity].
  - rewrite take_ge; [reflexivity|lia].
Qed.

Lemma add_panics (r : analysisRecord.t) (s : analysisStore.t) :
  (analysisStore.max s < 0)%Z ->
  analysisStore.add r s = Panicked "slice bounds out of range".
Proof.
  intros Hneg. unfold analysisStore.add.
  destruct (Z.ltb_spec (analysisStore.max s)
              (Z.of_nat (length (r :: analysisStore.items s)))) as [_|Hge];
    [|lia].
  destruct (Z.ltb_spec (analysisStore.max s) 0); [reflexivity|lia].
Qed.

Lemma add_all_bounded (records : list analysisRecord.t) (s : analysisStore.t) :
  (0 <= analysisStore.max s)%Z ->
  length (analysisStore.items s) <= Z.to_nat (analysisStore.max s) ->
  analysisStore.add_all records s =
  Done {| analysisStore.max := analysisStore.max s;
          analysisStore.items :=
            take (Z.to_nat (analysisStore.max s))
                 (reverse records ++ analysisStore.items s) |}.
Proof.
  revert s. induction records as [|r rest IH]; intros s Hmax Hlen; simpl.
  - rewrite take_ge by lia. destruct s; reflexivity.
  - rewrite add_ok by assumption.
    rewrite IH; simpl; [|assumption|rewrite length_take; lia].
    do 2 f_equal.
    rewrite reverse_cons, <- app_assoc. simpl.
    set (n := Z.to_nat (analysisStore.max s)).
    destruct (decide (length (reverse rest) < n)) as [Hshort|Hlong].
    + rewrite !take_app_ge by lia.
      f_equal. rewrite take_take. f_equal. lia.
    + rewrite !take_app_le by lia. reflexivity.
Qed.

(** C4. A store of capacity [N >= 1] that received [M > N] records lists
    exactly [N] of them: the [N] most recently added, newest first.
    Every single [add] on a store holding at most [N] records succeeds,
    keeps the capacity, puts the new record in front of the old ones in
    their order, keeps at most [N] records, and drops at most one record,
    taken from the tail. *)
Theorem store_capacity_law (N : Z) (s : analysisStore.t)
    (records : list analysisRecord.t) :
  (1 <= N)%Z ->
  analysisStore.max s = N ->
  (N < Z.of_nat (length records))%Z ->
  (exists s',
      analysisStore.add_all records s = Done s' /\
      analysisStore.max s' = N /\
      length (analysisStore.list_ s') = Z.to_nat N /\
      analysisStore.list_ s' = take (Z.to_nat N) (reverse records)) /\
  (forall (r : analysisRecord.t) (s0 : analysisStore.t),
      analysisStore.max s0 = N ->
      length (analysisStore.items s0) <= Z.to_nat N ->
      exists s1,
        analysisStore.add r s0 = Done s1 /\
        analysisStore.max s1 = N /\
        length (analysisStore.items s1) <= Z.to_nat N /\
        analysisStore.items s1 = r :: take (Z.to_nat N - 1) (analysisStore.items s0) /\
        analysisStore.items s0 =
          take (Z.to_nat N - 1) (analysisStore.items s0)
          ++ drop (Z.to_nat N - 1) (analysisStore.items s0) /\
        length (drop (Z.to_nat N - 1) (analysisStore.items s0)) <= 1).
Proof.
  intros HN Hmax HM. split.
  - destruct records as [|r rest]; [simpl in HM; lia|].
    simpl. rewrite add_ok by lia.
    rewrite add_all_bounded; simpl; [|lia|rewrite length_take; lia].
    rewrite Hmax. eexists. split; [reflexivity|]. simpl.
    assert (Hrest : Z.to_nat N <= length (reverse rest)).
    { rewrite length_reverse. simpl in HM. lia. }
    split; [reflexivity|].
    rewrite reverse_cons.
    rewrite !take_app_le by lia.
    split; [|reflexivity].
    rewrite length_take. lia.
  - intros r s0 Hmax0 Hlen0.
    rewrite add_ok by lia. rewrite Hmax0.
    eexists. split; [reflexivity|]. simpl.
    split; [reflexivity|].
    split; [rewrite length_take; simpl; lia|].
    split.
    + destruct (Z.to_nat N) as [|k] eqn:Hk; [lia|].
      simpl. do 2 f_equal. lia.
    + split; [symmetry; apply take_drop|].
      rewrite length_drop. lia.
Qed.

Lemma store_capacity_law_witness :
  exists s',
    analysisStore.add_all
      [Scenario.recordOf "a"; Scenario.recordOf "b"; Scenario.recordOf "c"]
      (analysisStore.newAnalysisStore 2) = Done s' /\
    analysisStore.list_ s' = [Scenario.recordOf "c"; Scenario.recordOf "b"].
Proof.
  destruct (store_capacity_law 2 (analysisStore.newAnalysisStore 2)
              [Scenario.recordOf "a"; Scenario.recordOf "b"; Scenario.recordOf "c"])
    as [(s' & Hrun & _ & _ & Hlist) _].
  - lia.
  - reflexivity.
  - simpl. lia.
  - exists s'. split; [exact Hrun|exact Hlist].
Defined.

(** ** White space *)

Section DropRunes.
Context (p1 : ascii -> bool) (p2 : ascii -> ascii -> bool)
        (p3 : ascii -> ascii -> ascii -> bool).

Lemma dropRunes_step (l : list ascii) :
  (startsWithRune p1 p2 p3 l = false /\ dropRunes p1 p2 p3 l = l) \/
  (exists k rest,
      l = k ++ rest /\ 0 < length k /\
      dropRunes p1 p2 p3 l = dropRunes p1 p2 p3 rest).
Proof.
  destruct l as [|a [|b [|c r]]]; simpl.
  - left. auto.
  - destruct (p1 a); [right; exists [a], []; simpl; auto with lia|left; auto].
  - destruct (p1 a); [right; exists [a], [b]; simpl; auto with lia|].
    destruct (p2 a b); [right; exists [a; b], []; simpl; auto with lia|left; auto].
  - destruct (p1 a); [right; exists [a], (b :: c :: r); simpl; auto with lia|].
    destruct (p2 a b); [right; exists [a; b], (c :: r); simpl; auto with lia|].
    destruct (p3 a b c); [right; exists [a; b; c], r; simpl; auto with lia|left; auto].
Qed.

Lemma dropRunes_result (n : nat) :
  forall l,
    length l <= n ->
    startsWithRune p1 p2 p3 (dropRunes p1 p2 p3 l) = false /\
    exists k, l = k ++ dropRunes p1 p2 p3 l.
Proof.
  induction n as [|n IH]; intros l Hlen.
  - destruct l; [|simpl in Hlen; lia]. simpl. split; [reflexivity|exists []; reflexivity].
  - destruct (dropRunes_step l) as [[Hs Hd]|(k & rest & Hl & Hk & Hd)].
    + rewrite Hd. split; [exact Hs|exists []; reflexivity].
    + rewrite Hd. destruct (IH rest) as [Hs (k' & Hrest)].
      { subst l. rewrite length_app in Hlen. lia. }
      split; [exact Hs|].
      exists (k ++ k'). rewrite <- app_assoc, <- Hrest. exact Hl.
Qed.

Lemma dropRunes_fixed (l : list ascii) :
  startsWithRune p1 p2 p3 l = false -> dropRunes p1 p2 p3 l = l.
Proof.
  destruct l as [|a [|b [|c r]]]; simpl; try reflexivity.
  - destruct (p1 a); [discriminate|reflexivity].
  - destruct (p1 a); [discriminate|]. destruct (p2 a b); [discriminate|reflexivity].
  - destruct (p1 a); [discriminate|]. destruct (p2 a b); [discriminate|].
    destruct (p3 a b c); [discriminate|reflexivity].
Qed.

Lemma startsWithRune_prefix (p q : list ascii) :
  startsWithRune p1 p2 p3 (p ++ q) = false -> startsWithRune p1 p2 p3 p = false.
Proof.
  destruct p as [|a [|b [|c r]]]; simpl; try reflexivity.
  - destruct (p1 a); simpl; [|reflexivity]. destruct q; discriminate.
  - destruct (p1 a); simpl; [discriminate|].
    destruct (p2 a b); simpl; [|reflexivity]. destruct q; discriminate.
  - auto.
Qed.

End DropRunes.

Lemma trimSpace_idempotent (l : list ascii) : trimSpace (trimSpace l) = trimSpace l.
Proof.
  unfold trimSpace, trimRightSpace, trimLeftSpace, trimLeftSpaceRev.
  set (q2 := fun a b => space2 b a). set (q3 := fun a b c => space3 c b a).
  set (u := dropRunes asciiSpace space2 space3 l).
  destruct (dropRunes_result asciiSpace space2 space3 (length l) l (le_n _))
    as [Hu _]. fold u in Hu.
  destruct (dropRunes_result asciiSpace q2 q3 (length (reverse u)) (reverse u) (le_n _))
    as [Hr (k & Hk)].
  set (r := dropRunes asciiSpace q2 q3 (reverse u)) in *.
  assert (Hprefix : u = reverse r ++ reverse k).
  { rewrite <- reverse_app, <- Hk. symmetry. apply reverse_involutive. }
  assert (Hclean : startsWithRune asciiSpace space2 space3 (reverse r) = false).
  { apply (startsWithRune_prefix _ _ _ _ (reverse k)). rewrite <- Hprefix. exact Hu. }
  rewrite (dropRunes_fixed _ _ _ _ Hclean).
  rewrite reverse_involutive.
  rewrite (dropRunes_fixed _ _ _ _ Hr). reflexivity.
Qed.

Lemma TrimSpace_idempotent (s : string) : TrimSpace (TrimSpace s) = TrimSpace s.
Proof.
  unfold TrimSpace.
  rewrite list_ascii_of_string_of_list_ascii, trimSpace_idempotent. reflexivity.
Qed.

Lemma envString_not_blank (E : Env) (key defaultVal : string) :
  TrimSpace defaultVal <> "" ->
  TrimSpace (envString E key defaultVal) <> "".
Proof.
  intros Hdef. unfold envString.
  destruct (is_empty (TrimSpace (Getenv E key))) eqn:Hempty; simpl; [exact Hdef|].
  rewrite TrimSpace_idempotent. intros H.
  rewrite H in Hempty. discriminate.
Qed.

(** A loaded configuration never has a blank Prometheus URL: a blank
    [PROMETHEUS_URL] is replaced by the default. *)
Lemma loadConfig_url_not_blank (E : Env) (P : Parsers) (cfg : Config.t) :
  loadConfig E P = Ok cfg ->
  TrimSpace (Config.PrometheusURL cfg) <> "".
Proof.
  unfold loadConfig.
  destruct (parseBackends E _) as [backends|m]; [|discriminate].
  destruct (if negb _ then _ else _) as [queries|m]; [|discriminate].
  intros [= <-]. simpl.
  apply envString_not_blank. discriminate.
Qed.

Lemma startup_url_not_blank (E : Env) (P : Parsers) (s : server.t) (w : World) :
  startup E P = Ok (s, w) ->
  TrimSpace (Config.PrometheusURL (server.cfg s)) <> "" /\
  loadConfig E P = Ok (server.cfg s).
Proof.
  unfold startup, newServer.
  destruct (loadConfig E P) as [cfg|m] eqn:Hload; [|discriminate].
  destruct (buildProviders E _) as [providers|m]; [|discriminate].
  destruct (Config.JobQueueSize cfg <? 0)%Z; [discriminate|].
  intros [= <- <-]. simpl. split; [|reflexivity].
  eapply loadConfig_url_not_blank; eassumption.
Qed.

(** ** Adapter overrides *)

Lemma TrimSpace_empty : TrimSpace "" = "".
Proof. reflexivity. Qed.

Lemma is_empty_true (s : string) : is_empty s = true <-> s = "".
Proof. destruct s; simpl; split; congruence. Qed.

Lemma float_positive_nonzero (t : float) :
  PrimFloat.ltb 0 t = true -> t <> 0%float /\ t <> (-0)%float.
Proof.
  intros H. split; intros ->; vm_compute in H; discriminate.
Qed.

Lemma overrides_spec (req : LLMRequest.t) (sp : string) (mt : Z) (te : float) :
  let req' := applyProviderOverrides req sp mt te in
  LLMRequest.UserPrompt req' = LLMRequest.UserPrompt req /\
  LLMRequest.SystemPrompt req' =
    (if negb (is_empty (TrimSpace sp)) then sp else LLMRequest.SystemPrompt req) /\
  LLMRequest.MaxTokens req' =
    (if (0 <? mt)%Z then mt else LLMRequest.MaxTokens req) /\
  LLMRequest.Temperature req' =
    (if PrimFloat.ltb 0 te then te else LLMRequest.Temperature req).
Proof.
  unfold applyProviderOverrides.
  destruct (negb (is_empty (TrimSpace sp))), (0 <? mt)%Z, (PrimFloat.ltb 0 te);
    simpl; auto.
Qed.

Lemma PrepareRequest_unfold (p : LLMProvider) (req : LLMRequest.t) :
  PrepareRequest p req =
  applyProviderOverrides req (configuredSystemPrompt p)
    (configuredMaxTokens p) (configuredTemperature p).
Proof. destruct p; reflexivity. Qed.

(** C5. For an adapter built from a backend configuration, [PrepareRequest]
    changes the system prompt, the token limit or the temperature of the
    caller's request only when the adapter's configured value for that
    field is not the default (empty, or zero), and then to that value;
    with an empty or zero configured value the caller's field comes back
    unchanged; a caller's non-empty or non-zero field never comes back
    empty or zero; the user prompt is never touched. *)
Theorem customize_overrides_only_non_default (E : Env) (cfg : BackendConfig.t)
    (p : LLMProvider) (req : LLMRequest.t) :
  buildProvider E cfg = Ok p ->
  let req' := PrepareRequest p req in
  (LLMRequest.SystemPrompt req' <> LLMRequest.SystemPrompt req ->
     configuredSystemPrompt p <> "" /\
     LLMRequest.SystemPrompt req' = configuredSystemPrompt p) /\
  (LLMRequest.MaxTokens req' <> LLMRequest.MaxTokens req ->
     configuredMaxTokens p <> 0%Z /\
     LLMRequest.MaxTokens req' = configuredMaxTokens p) /\
  (LLMRequest.Temperature req' <> LLMRequest.Temperature req ->
     configuredTemperature p <> 0%float /\
     configuredTemperature p <> (-0)%float /\
     LLMRequest.Temperature req' = configuredTemperature p) /\
  (configuredSystemPrompt p = "" ->
     LLMRequest.SystemPrompt req' = LLMRequest.SystemPrompt req) /\
  (configuredMaxTokens p = 0%Z ->
     LLMRequest.MaxTokens req' = LLMRequest.MaxTokens req) /\
  (configuredTemperature p = 0%float \/ configuredTemperature p = (-0)%float ->
     LLMRequest.Temperature req' = LLMRequest.Temperature req) /\
  (LLMRequest.SystemPrompt req <> "" -> LLMRequest.SystemPrompt req' <> "") /\
  (LLMRequest.MaxTokens req <> 0%Z -> LLMRequest.MaxTokens req' <> 0%Z) /\
  (LLMRequest.Temperature req <> 0%float ->
     LLMRequest.Temperature req' <> 0%float) /\
  LLMRequest.UserPrompt req' = LLMRequest.UserPrompt req /\
  configuredSystemPrompt p = BackendConfig.SystemPrompt cfg /\
  configuredMaxTokens p = BackendConfig.MaxTokens cfg /\
  configuredTemperature p = BackendConfig.Temperature cfg.
Proof.
  intros Hbuild req'. subst req'.
  rewrite PrepareRequest_unfold.
  destruct (overrides_spec req (configuredSystemPrompt p)
              (configuredMaxTokens p) (configuredTemperature p))
    as (Hu & Hs & Hm & Ht).
  rewrite Hs, Hm, Ht, Hu.
  assert (Hblank : forall s, negb (is_empty (TrimSpace s)) = true -> s <> "").
  { intros s H ->. rewrite TrimSpace_empty in H. discriminate. }
  repeat split.
  - destruct (negb (is_empty _)) eqn:Hc; [auto|congruence].
  - destruct (negb (is_empty _)) eqn:Hc; [auto|congruence].
  - destruct (Z.ltb_spec 0 (configuredMaxTokens p)); [lia|congruence].
  - destruct (Z.ltb_spec 0 (configuredMaxTokens p)); [auto|congruence].
  - destruct (PrimFloat.ltb 0 _) eqn:Hc; [|congruence].
    apply float_positive_nonzero in Hc. tauto.
  - destruct (PrimFloat.ltb 0 _) eqn:Hc; [|congruence].
    apply float_positive_nonzero in Hc. tauto.
  - destruct (PrimFloat.ltb 0 _) eqn:Hc; [auto|congruence].
  - intros ->. reflexivity.
  - intros ->. reflexivity.
  - intros [-> | ->]; reflexivity.
  - destruct (negb (is_empty _)) eqn:Hc; [auto|auto].
  - destruct (Z.ltb_spec 0 (configuredMaxTokens p)); [lia|auto].
  - destruct (PrimFloat.ltb 0 _) eqn:Hc; [|auto].
    intros _. apply float_positive_nonzero in Hc. tauto.
  - revert Hbuild. unfold buildProvider, newOpenAIProvider, newOllamaProvider,
      newBedrockProvider.
    repeat match goal with |- context [if ?b then _ else _] => destruct b end;
      intros [= <-]; reflexivity.
  - revert Hbuild. unfold buildProvider, newOpenAIProvider, newOllamaProvider,
      newBedrockProvider.
    repeat match goal with |- context [if ?b then _ else _] => destruct b end;
      intros [= <-]; reflexivity.
  - revert Hbuild. unfold buildProvider, newOpenAIProvider, newOllamaProvider,
      newBedrockProvider.
    repeat match goal with |- context [if ?b then _ else _] => destruct b end;
      intros [= <-]; reflexivity.
Qed.

Lemma customize_overrides_only_non_default_witness :
  exists p,
    buildProvider Scenario.E0 (Scenario.backend "slow" 512) = Ok p /\
    forall req,
      LLMRequest.MaxTokens req <> 512%Z ->
      LLMRequest.MaxTokens (PrepareRequest p req) = 512%Z /\
      LLMRequest.SystemPrompt (PrepareRequest p req) = LLMRequest.SystemPrompt req /\
      LLMRequest.Temperature (PrepareRequest p req) = LLMRequest.Temperature req.
Proof.
  eexists. split; [reflexivity|].
  intros req Hne.
  match goal with
  | |- context [PrepareRequest ?p req] =>
      destruct (customize_overrides_only_non_default Scenario.E0
                  (Scenario.backend "slow" 512) p req eq_refl)
        as (_ & _ & _ & Hs & _ & Ht & _)
  end.
  split; [reflexivity|].
  split; [apply Hs; reflexivity|apply Ht; left; reflexivity].
Defined.

(** ** The fan-out *)

Section FanOut.
Context (E : Env).

Lemma fanOut_length moment providers request order :
  forall results w,
    length (fst (fanOut E moment providers request order results w)) = length results.
Proof.
  induction order as [|idx rest IH]; intros results w; simpl; [reflexivity|].
  destruct (providers !! idx) as [provider|]; [|apply IH].
  destruct (providerCall E moment idx provider request) as [result outcome].
  rewrite IH. apply length_insert.
Qed.

(** A slot whose goroutine has finished holds that goroutine's result,
    whatever finished before or after it; a slot whose goroutine has not
    finished is untouched. *)
Lemma fanOut_slots moment providers request order :
  forall results w i provider,
    length results = length providers ->
    providers !! i = Some provider ->
    (i ∈ order ->
       fst (fanOut E moment providers request order results w) !! i
       = Some (fst (providerCall E moment i provider request))) /\
    (i ∉ order ->
       fst (fanOut E moment providers request order results w) !! i
       = results !! i).
Proof.
  induction order as [|idx rest IH]; intros results w i provider Hlen Hi; simpl.
  - split; [intros H; inversion H|reflexivity].
  - destruct (providers !! idx) as [q|] eqn:Hidx.
    + destruct (providerCall E moment idx q request) as [result outcome] eqn:Hcall.
      set (w1 := set_providerRequestsTotal _ w).
      destruct (IH (<[idx:=result]> results) w1 i provider) as [Hin Hout];
        [rewrite length_insert; exact Hlen|exact Hi|].
      assert (Hidx_lt : idx < length results).
      { rewrite Hlen. eapply lookup_lt_Some; eassumption. }
      split.
      * intros Hmem. destruct (decide (i ∈ rest)) as [Hr|Hr]; [auto|].
        rewrite Hout by assumption.
        apply elem_of_cons in Hmem as [->|Hmem]; [|contradiction].
        rewrite list_lookup_insert_eq by assumption.
        rewrite Hidx in Hi. injection Hi as <-. rewrite Hcall. reflexivity.
      * intros Hmem. apply not_elem_of_cons in Hmem as [Hne Hr].
        rewrite Hout by assumption.
        apply list_lookup_insert_ne. congruence.
    + destruct (IH results w i provider Hlen Hi) as [Hin Hout].
      split.
      * intros Hmem. apply elem_of_cons in Hmem as [->|Hmem]; [congruence|auto].
      * intros Hmem. apply not_elem_of_cons in Hmem as [_ Hr]. auto.
Qed.

Lemma runProviders_slots (s : server.t) (job : analysisJob.t)
    (metrics : option (list MetricSnapshot.t)) (w : World) (request : LLMRequest.t) :
  buildLLMRequest E job metrics (Config.PrometheusLookback (server.cfg s)) = Ok request ->
  Permutation (completionOrder E (ticks w) (length (server.providers s)))
              (seq 0 (length (server.providers s))) ->
  exists results w',
    runProviders E s job metrics w = Return results w' /\
    length results = length (server.providers s) /\
    forall i provider,
      server.providers s !! i = Some provider ->
      results !! i = Some (fst (providerCall E (ticks w) i provider request)).
Proof.
  intros Hreq Hperm. unfold runProviders. rewrite Hreq.
  set (n := length (server.providers s)) in *.
  set (order := completionOrder E (ticks w) n) in *.
  destruct (fanOut E (ticks w) (server.providers s) request order
              (replicate n ProviderResult.zero) w) as [results w'] eqn:Hfan.
  exists results, w'. split; [reflexivity|].
  assert (Hres : results = fst (fanOut E (ticks w) (server.providers s) request order
                                 (replicate n ProviderResult.zero) w))
    by (rewrite Hfan; reflexivity).
  split.
  - rewrite Hres, fanOut_length. apply length_replicate.
  - intros i provider Hi. rewrite Hres.
    apply (fanOut_slots (ticks w) (server.providers s) request order
             (replicate n ProviderResult.zero) w i provider).
    + apply length_replicate.
    + exact Hi.
    + rewrite Hperm. apply elem_of_seq. split; [lia|].
      simpl. eapply lookup_lt_Some; eassumption.
Qed.

Lemma providerCall_identity moment idx provider request :
  let r := fst (providerCall E moment idx provider request) in
  ProviderResult.Provider r = Name provider /\
  ProviderResult.Type_ r = Type_ provider /\
  ProviderResult.Model r = Model provider.
Proof.
  unfold providerCall.
  destruct (Call.returned _); simpl; auto.
Qed.

(** C2. For a backend whose call returned a response text, the result in
    that backend's slot stores the text, and it carries a parsed analysis
    exactly when the text unmarshals as a [StructuredAnalysis] whose
    summary is not empty; otherwise the parsed field is absent. *)
Theorem parsed_attached_iff_summary_present (s : server.t) (job : analysisJob.t)
    (metrics : option (list MetricSnapshot.t)) (w : World) (request : LLMRequest.t)
    (i : nat) (provider : LLMProvider) (response : string) :
  buildLLMRequest E job metrics (Config.PrometheusLookback (server.cfg s)) = Ok request ->
  Permutation (completionOrder E (ticks w) (length (server.providers s)))
              (seq 0 (length (server.providers s))) ->
  server.providers s !! i = Some provider ->
  Call.returned (Complete E (ticks w) i provider (PrepareRequest provider request))
    = Ok response ->
  exists results w' r,
    runProviders E s job metrics w = Return results w' /\
    results !! i = Some r /\
    ProviderResult.Response r = response /\
    ProviderResult.Error r = "" /\
    (forall parsed,
        ProviderResult.Parsed r = Some parsed <->
        unmarshalAnalysis E response = Ok parsed /\
        StructuredAnalysis.Summary parsed <> "") /\
    (ProviderResult.Parsed r = None <->
     forall parsed,
       unmarshalAnalysis E response = Ok parsed ->
       StructuredAnalysis.Summary parsed = "").
Proof.
  intros Hreq Hperm Hi Hcall.
  destruct (runProviders_slots s job metrics w request Hreq Hperm)
    as (results & w' & Hrun & _ & Hslots).
  exists results, w'. eexists. split; [exact Hrun|].
  split; [apply Hslots; exact Hi|].
  unfold providerCall. rewrite Hcall. simpl.
  split; [reflexivity|]. split; [reflexivity|].
  destruct (unmarshalAnalysis E response) as [parsed0|msg].
  - destruct (is_empty (StructuredAnalysis.Summary parsed0)) eqn:Hempty; simpl.
    + apply is_empty_true in Hempty. split.
      * intros parsed. split; [discriminate|].
        intros [[= <-] Hne]. contradiction.
      * split; [|reflexivity]. intros _ parsed [= <-]. exact Hempty.
    + assert (Hne : StructuredAnalysis.Summary parsed0 <> "").
      { intros Hs. apply is_empty_true in Hs. congruence. }
      split.
      * intros parsed. split.
        -- intros [= <-]. split; [reflexivity|exact Hne].
        -- intros [[= <-] _]. reflexivity.
      * split; [discriminate|]. intros H. exfalso. apply Hne, H. reflexivity.
  - split.
    + intros parsed. split; [discriminate|]. intros [H _]. discriminate.
    + split; [|reflexivity]. intros _ parsed H. discriminate.
Qed.

End FanOut.

Lemma parsed_attached_iff_summary_present_witness :
  exists results w' r,
    runProviders Scenario.E0 Scenario.s3 Scenario.job1 None Scenario.w3
      = Return results w' /\
    results !! 2 = Some r /\
    ProviderResult.Response r = "the gateway looks unreachable" /\
    ProviderResult.Error r = "" /\
    (forall parsed,
        ProviderResult.Parsed r = Some parsed <->
        unmarshalAnalysis Scenario.E0 "the gateway looks unreachable" = Ok parsed /\
        StructuredAnalysis.Summary parsed <> "") /\
    (ProviderResult.Parsed r = None <->
     forall parsed,
       unmarshalAnalysis Scenario.E0 "the gateway looks unreachable" = Ok parsed ->
       StructuredAnalysis.Summary parsed = "").
Proof.
  eapply (parsed_attached_iff_summary_present Scenario.E0 Scenario.s3 Scenario.job1
            None Scenario.w3 Scenario.request1 2).
  - reflexivity.
  - apply reverse_Permutation.
  - reflexivity.
  - reflexivity.
Defined.

(** ** Evidence collection *)

Lemma frame_refl (w : World) : frame w w.
Proof. repeat split. Qed.

Lemma frame_trans (w1 w2 w3 : World) : frame w1 w2 -> frame w2 w3 -> frame w1 w3.
Proof.
  unfold frame. intros (a1 & a2 & a3 & a4 & a5 & a6) (b1 & b2 & b3 & b4 & b5 & b6).
  repeat split; congruence.
Qed.

Lemma frame_set_ticks (n : nat) (w : World) : frame w (set_ticks n w).
Proof. repeat split. Qed.

Lemma foldr_min_init (a acc : Z) (l : list Z) :
  foldr Z.min (Z.min a acc) l = Z.min a (foldr Z.min acc l).
Proof.
  induction l as [|x l IH]; simpl; [reflexivity|].
  rewrite IH. lia.
Qed.

(** [earliestAlertTime] is the least of the fallback and the non-zero
    start times. *)
Lemma earliestAlertTime_min (payload : GrafanaWebhookPayload.t) (fallback : Time) :
  earliestAlertTime payload fallback =
  foldr Z.min fallback
    (filter (fun t => t <> 0%Z)
       (map GrafanaAlert.StartsAt (GrafanaWebhookPayload.Alerts payload))).
Proof.
  unfold earliestAlertTime.
  generalize (GrafanaWebhookPayload.Alerts payload) as alerts.
  intros alerts. revert fallback.
  induction alerts as [|a alerts IH]; intros fallback; simpl; [reflexivity|].
  rewrite IH. unfold IsZero, Before.
  destruct (Z.eqb_spec (GrafanaAlert.StartsAt a) 0) as [Hz|Hnz].
  - rewrite filter_cons_False by (intros H; apply H; exact Hz). reflexivity.
  - rewrite filter_cons_True by exact Hnz.
    cbn [negb andb foldr]. rewrite <- foldr_min_init.
    destruct (Z.ltb_spec (GrafanaAlert.StartsAt a) fallback) as [Hlt|Hge];
      f_equal; lia.
Qed.

Section Enrichment.
Context (E : Env).

Lemma anchorQueryTime_unfold (s : server.t) (job : analysisJob.t) (w : World) :
  anchorQueryTime E s job w =
  let t0 := wall (now E (ticks w)) in
  if (0 <? length (GrafanaWebhookPayload.Alerts (analysisJob.Payload job)))%nat then
    let anchor :=
      Add (earliestAlertTime (analysisJob.Payload job) t0)
          (Config.PrometheusLookback (server.cfg s)) in
    if After anchor (wall (now E (S (ticks w))))
    then Return (wall (now E (S (S (ticks w))))) (set_ticks (S (S (S (ticks w)))) w)
    else Return anchor (set_ticks (S (S (ticks w))) w)
  else Return t0 (set_ticks (S (ticks w)) w).
Proof.
  unfold anchorQueryTime, bind, timeNow, ret. simpl.
  destruct (0 <? _)%nat; [|reflexivity].
  destruct (After _ _); reflexivity.
Qed.

Lemma anchorQueryTime_total (s : server.t) (job : analysisJob.t) (w : World) :
  exists queryTime w',
    anchorQueryTime E s job w = Return queryTime w' /\
    frame w w' /\
    providerRequestsTotal w' = providerRequestsTotal w /\
    prometheusQueriesTotal w' = prometheusQueriesTotal w.
Proof.
  rewrite anchorQueryTime_unfold. simpl.
  destruct (0 <? _)%nat; [destruct (After _ _)|];
    eexists; eexists; (split; [reflexivity|]); repeat split.
Qed.

Lemma collectLoop_spec (s : server.t) (queryTime : Time) (queries : list MetricQuery.t) :
  forall (snapshots : list MetricSnapshot.t) (w : World),
  exists w',
    collectLoop E s queryTime queries snapshots w =
      Return (snapshots ++ map (snapshotFor E s (ticks w) queryTime) queries) w' /\
    ticks w' = ticks w /\
    frame w w' /\
    providerRequestsTotal w' = providerRequestsTotal w.
Proof.
  induction queries as [|query rest IH]; intros snapshots w; simpl.
  - exists w. rewrite app_nil_r. repeat split.
  - unfold bind, collectOne, snapshotFor at 1.
    destruct (InstantQuery E (server.prom s) (ticks w) query queryTime) as [snapshot|m].
    + match goal with |- context [collectLoop _ _ _ _ _ ?w1] =>
        destruct (IH (snapshots ++ [snapshot]) w1) as (w' & Hrun & Ht & Hf & Hp) end.
      exists w'. rewrite Hrun. simpl in *. rewrite <- app_assoc.
      split; [reflexivity|]. split; [exact Ht|]. split; [|exact Hp].
      eapply frame_trans; [|exact Hf]. repeat split.
    + match goal with |- context [collectLoop _ _ _ _ _ ?w1] =>
        destruct (IH (snapshots ++ [errorSnapshot query m]) w1)
          as (w' & Hrun & Ht & Hf & Hp) end.
      exists w'. rewrite Hrun. simpl in *. rewrite <- app_assoc.
      split; [reflexivity|]. split; [exact Ht|]. split; [|exact Hp].
      eapply frame_trans; [|exact Hf]. repeat split.
Qed.

(** [collectMetrics] always returns, with a nil error.  With a blank URL
    it returns a nil list and touches nothing; otherwise it returns one
    snapshot per configured query, in order, all taken at the anchored
    query time. *)
Lemma collectMetrics_spec (s : server.t) (job : analysisJob.t) (w : World) :
  exists metrics w',
    collectMetrics E s job w = Return (metrics, None) w' /\
    frame w w' /\
    providerRequestsTotal w' = providerRequestsTotal w /\
    (TrimSpace (Config.PrometheusURL (server.cfg s)) = "" ->
       metrics = None /\ w' = w) /\
    (TrimSpace (Config.PrometheusURL (server.cfg s)) <> "" ->
       exists queryTime w1,
         anchorQueryTime E s job w = Return queryTime w1 /\
         metrics =
           Some (map (snapshotFor E s (ticks w1) queryTime)
                   (Config.MetricQueries (server.cfg s)))).
Proof.
  unfold collectMetrics.
  destruct (is_empty (TrimSpace (Config.PrometheusURL (server.cfg s)))) eqn:Hblank.
  - exists None, w. split; [reflexivity|]. split; [apply frame_refl|].
    split; [reflexivity|]. split; [auto|].
    intros Hne. apply is_empty_true in Hblank. contradiction.
  - destruct (anchorQueryTime_total s job w) as (queryTime & w1 & Hanchor & Hf1 & Hp1 & _).
    destruct (collectLoop_spec s queryTime (Config.MetricQueries (server.cfg s)) [] w1)
      as (w' & Hloop & Ht & Hf2 & Hp2).
    eexists. exists w'. unfold bind. rewrite Hanchor, Hloop. simpl.
    split; [reflexivity|]. split; [eapply frame_trans; eassumption|].
    split; [congruence|]. split.
    + intros Hb. apply is_empty_true in Hb. congruence.
    + intros _. exists queryTime, w1. split; reflexivity.
Qed.

Lemma InstantQuery_identity (p : PrometheusClient.t) (moment : nat)
    (query : MetricQuery.t) (queryTime : Time) (snapshot : MetricSnapshot.t) :
  InstantQuery E p moment query queryTime = Ok snapshot ->
  MetricSnapshot.Name snapshot = MetricQuery.Name query /\
  MetricSnapshot.Description snapshot = MetricQuery.Description query /\
  MetricSnapshot.Query snapshot = MetricQuery.Query query /\
  MetricSnapshot.Error snapshot = "".
Proof.
  unfold InstantQuery.
  destruct (promRoundTrip E moment _ _ queryTime) as [m|m|m|status body];
    try discriminate.
  destruct (300 <=? status)%Z; [discriminate|].
  destruct (unmarshalApiResp E body) as [resp|m]; [|discriminate].
  destruct (negb _); [discriminate|].
  destruct (String.eqb (apiResp.ResultType resp) "scalar").
  - destruct (unmarshalScalar E _) as [raw|m]; [|discriminate].
    destruct raw as [|a [|b [|c raw]]]; intros [= <-]; simpl; auto.
  - destruct (String.eqb (apiResp.ResultType resp) "vector").
    + destruct (unmarshalVector E _) as [entries|m]; [|discriminate].
      intros [= <-]; simpl; auto.
    + intros [= <-]; simpl; auto.
Qed.

Lemma snapshotFor_identity (s : server.t) (moment : nat) (queryTime : Time)
    (query : MetricQuery.t) :
  let snapshot := snapshotFor E s moment queryTime query in
  MetricSnapshot.Name snapshot = MetricQuery.Name query /\
  MetricSnapshot.Description snapshot = MetricQuery.Description query /\
  MetricSnapshot.Query snapshot = MetricQuery.Query query.
Proof.
  unfold snapshotFor.
  destruct (InstantQuery E (server.prom s) moment query queryTime) as [snapshot|m] eqn:Hq.
  - apply InstantQuery_identity in Hq. tauto.
  - simpl. auto.
Qed.

End Enrichment.

Section QueryTime.
Context (E : Env).

(** C3, as the code has it.  For a job with at least one alert, the
    evidence query time is the least of the clock reading taken when
    collection starts and the non-zero start times of the alerts, plus the
    lookback; when that lies after the next clock reading, the query time
    is the clock reading taken after that one.  So the fallback, when no
    alert carries a non-zero start time, is the time of collection, the
    query time never exceeds the later of the two readings it is compared
    with and replaced by, and with a non-blank Prometheus URL every
    configured query is evaluated at that time. *)
Theorem query_time_anchored_at_collection (s : server.t) (job : analysisJob.t) (w : World) :
  GrafanaWebhookPayload.Alerts (analysisJob.Payload job) <> [] ->
  let t0 := wall (now E (ticks w)) in
  let t1 := wall (now E (S (ticks w))) in
  let t2 := wall (now E (S (S (ticks w)))) in
  let starts :=
    filter (fun t => t <> 0%Z)
      (map GrafanaAlert.StartsAt
         (GrafanaWebhookPayload.Alerts (analysisJob.Payload job))) in
  let anchor := (foldr Z.min t0 starts + Config.PrometheusLookback (server.cfg s))%Z in
  let queryTime := if (t1 <? anchor)%Z then t2 else anchor in
  (exists w1,
      anchorQueryTime E s job w = Return queryTime w1 /\
      (TrimSpace (Config.PrometheusURL (server.cfg s)) <> "" ->
       exists w',
         collectMetrics E s job w =
           Return (Some (map (snapshotFor E s (ticks w1) queryTime)
                           (Config.MetricQueries (server.cfg s))), None) w')) /\
  (starts = [] -> anchor = (t0 + Config.PrometheusLookback (server.cfg s))%Z) /\
  (queryTime <= Z.max t1 t2)%Z /\
  ((t1 <= t2)%Z -> (queryTime <= t2)%Z).
Proof.
  intros Halerts t0 t1 t2 starts anchor queryTime.
  assert (Hanchor : exists w1, anchorQueryTime E s job w = Return queryTime w1).
  { rewrite anchorQueryTime_unfold. cbv zeta.
    destruct (GrafanaWebhookPayload.Alerts (analysisJob.Payload job)) as [|a l] eqn:Ha;
      [contradiction|].
    cbn [length Nat.ltb Nat.leb].
    rewrite earliestAlertTime_min, Ha.
    unfold After, Add. fold t0 t1 t2.
    subst queryTime anchor starts. cbv zeta.
    destruct (Z.ltb_spec t1
                (foldr Z.min t0
                   (filter (fun t => t <> 0%Z) (map GrafanaAlert.StartsAt (a :: l)))
                 + Config.PrometheusLookback (server.cfg s))%Z);
      eexists; reflexivity. }
  destruct Hanchor as [w1 Hw1].
  split; [|split; [|split]].
  - exists w1. split; [exact Hw1|].
    intros Hurl.
    destruct (collectMetrics_spec E s job w) as (metrics & w' & Hrun & _ & _ & _ & Hnb).
    destruct (Hnb Hurl) as (qt & w1' & Hanchor' & Hmetrics).
    rewrite Hw1 in Hanchor'. injection Hanchor' as <- <-.
    exists w'. rewrite Hrun, Hmetrics. reflexivity.
  - intros Hs. subst anchor. rewrite Hs. reflexivity.
  - subst queryTime. destruct (Z.ltb_spec t1 anchor); lia.
  - intros Hmono. subst queryTime. destruct (Z.ltb_spec t1 anchor); lia.
Qed.

End QueryTime.

Lemma query_time_anchored_at_collection_witness :
  exists w1,
    anchorQueryTime Scenario.E0 Scenario.s3 Scenario.job1 Scenario.w3
      = Return (Scenario.base - 2 * hour + 30 * minute)%Z w1.
Proof.
  destruct (query_time_anchored_at_collection Scenario.E0 Scenario.s3 Scenario.job1
              Scenario.w3) as [(w1 & Hrun & _) _].
  - discriminate.
  - exists w1. exact Hrun.
Defined.

(** C3, as the specification words it, fails: a job that arrived at
    [base] without any alert start time and is collected an hour later,
    with the default lookback of thirty minutes, is queried at the time of
    collection, not at arrival plus thirty minutes. *)
Lemma query_time_ignores_arrival_time :
  exists w1,
    anchorQueryTime Scenario.E_late Scenario.s3 Scenario.job_queued Scenario.w_late
      = Return (Scenario.base + hour)%Z w1 /\
    specQueryTime Scenario.job_queued (30 * minute)%Z (Scenario.base + hour)%Z
      = (Scenario.base + 30 * minute)%Z /\
    (Scenario.base + hour)%Z
      <> specQueryTime Scenario.job_queued (30 * minute)%Z (Scenario.base + hour)%Z.
Proof.
  eexists. split; [vm_compute; reflexivity|]. split; [vm_compute; reflexivity|].
  vm_compute. discriminate.
Qed.

(** ** Processing a job *)

Section ProcessJob.
Context (E : Env).

Lemma fanOut_frame moment providers request order :
  forall results w,
    let w' := snd (fanOut E moment providers request order results w) in
    frame w w' /\ ticks w' = ticks w /\
    prometheusQueriesTotal w' = prometheusQueriesTotal w.
Proof.
  induction order as [|idx rest IH]; intros results w; simpl.
  - split; [apply frame_refl|auto].
  - destruct (providers !! idx) as [provider|]; [|apply IH].
    destruct (providerCall E moment idx provider request) as [result outcome].
    match goal with |- context [fanOut _ _ _ _ _ ?r ?w1] =>
      destruct (IH r w1) as (Hf & Ht & Hq) end.
    split; [|split; [exact Ht|exact Hq]].
    eapply frame_trans; [|exact Hf]. repeat split.
Qed.

(** [runProviders] always returns; when the prompt cannot be built it
    returns the single synthetic entry and leaves the state as it was. *)
Lemma runProviders_total (s : server.t) (job : analysisJob.t)
    (metrics : option (list MetricSnapshot.t)) (w : World) :
  exists results w',
    runProviders E s job metrics w = Return results w' /\
    frame w w' /\ ticks w' = ticks w /\
    (forall msg,
        buildLLMRequest E job metrics (Config.PrometheusLookback (server.cfg s)) = Err msg ->
        results = [promptBuilderResult msg] /\ w' = w).
Proof.
  unfold runProviders.
  destruct (buildLLMRequest E job metrics _) as [request|m].
  - destruct (fanOut E (ticks w) (server.providers s) request
                (completionOrder E (ticks w) (length (server.providers s)))
                (replicate (length (server.providers s)) ProviderResult.zero) w)
      as [results w'] eqn:Hfan.
    destruct (fanOut_frame (ticks w) (server.providers s) request
                (completionOrder E (ticks w) (length (server.providers s)))
                (replicate (length (server.providers s)) ProviderResult.zero) w)
      as (Hf & Ht & _).
    rewrite Hfan in Hf, Ht. simpl in Hf, Ht.
    exists results, w'. split; [reflexivity|]. split; [exact Hf|]. split; [exact Ht|].
    intros msg H. discriminate.
  - exists [promptBuilderResult m], w. split; [reflexivity|].
    split; [apply frame_refl|]. split; [reflexivity|].
    intros msg [= <-]. auto.
Qed.

(** The record a job is turned into: built from the job, the snapshots
    of [collectMetrics] and the results of the fan-out (or the synthetic
    entry when no backend is configured), and stamped with the next clock
    reading. *)
Lemma assembleRecord_spec (s : server.t) (job : analysisJob.t) (w : World) :
  exists metrics wm results wp,
    collectMetrics E s job (set_ticks (S (ticks w)) w) = Return (metrics, None) wm /\
    (if (length (server.providers s) =? 0)%nat
     then ret [noBackendResult]
     else runProviders E s job metrics) wm = Return results wp /\
    assembleRecord E s job w =
      Return (set_CompletedAt (wall (now E (ticks wp)))
                (set_Providers results (set_Metrics metrics (initialRecord job))),
              now E (ticks w))
             (set_ticks (S (ticks wp)) wp) /\
    frame w wp.
Proof.
  destruct (collectMetrics_spec E s job (set_ticks (S (ticks w)) w))
    as (metrics & wm & Hcollect & Hf1 & _).
  assert (Hprov : exists results wp,
             (if (length (server.providers s) =? 0)%nat
              then ret [noBackendResult]
              else runProviders E s job metrics) wm = Return results wp /\
             frame wm wp).
  { destruct (length (server.providers s) =? 0)%nat.
    - exists [noBackendResult], wm. split; [reflexivity|apply frame_refl].
    - destruct (runProviders_total s job metrics wm) as (results & wp & Hrun & Hf & _).
      exists results, wp. auto. }
  destruct Hprov as (results & wp & Hrun & Hf2).
  exists metrics, wm, results, wp.
  split; [exact Hcollect|]. split; [exact Hrun|]. split.
  - unfold assembleRecord, bind, timeNow at 1. simpl.
    rewrite Hcollect. simpl. rewrite Hrun. reflexivity.
  - eapply frame_trans; [|exact Hf2].
    eapply frame_trans; [|exact Hf1]. apply frame_set_ticks.
Qed.

(** [processJob] assembles the record and hands it to the store: it
    returns when [add] returns and panics when [add] panics. *)
Lemma processJob_spec (s : server.t) (id : Z) (job : analysisJob.t) (w : World) :
  exists record start w1,
    assembleRecord E s job w = Return (record, start) w1 /\
    frame w w1 /\
    match analysisStore.add record (store w) with
    | Done st =>
        exists w',
          processJob E s id job w = Return tt w' /\
          store w' = st /\
          queue w' = queue w /\
          queueDepthGauge w' = queueDepthGauge w /\
          alertsReceivedTotal w' = alertsReceivedTotal w /\
          jobResultsTotal w' = Inc "processed" (jobResultsTotal w) /\
          providerRequestsTotal w' = providerRequestsTotal w1
    | Panicked msg =>
        exists w',
          processJob E s id job w = Panic msg w' /\
          store w' = analysisStore.prepend record (store w) /\
          queue w' = queue w /\
          jobResultsTotal w' = Inc "processed" (jobResultsTotal w) /\
          providerRequestsTotal w' = providerRequestsTotal w1
    end.
Proof.
  destruct (assembleRecord_spec s job w)
    as (metrics & wm & results & wp & _ & _ & Hasm & Hf).
  eexists. eexists. eexists. split; [exact Hasm|].
  destruct Hf as (Hq & Hs & Hj & Ha & Hg & Hd).
  split; [repeat split; assumption|].
  unfold processJob, bind. rewrite Hasm.
  unfold timeNow, modify, storeAdd. simpl. rewrite Hs.
  destruct (analysisStore.add _ (store w)) as [st|msg].
  - eexists. split; [reflexivity|]. simpl.
    repeat split; try assumption. rewrite Hj. reflexivity.
  - eexists. split; [reflexivity|]. simpl. rewrite Hj. auto.
Qed.

Lemma assembled_error_empty (s : server.t) (job : analysisJob.t) (w : World)
    (record : analysisRecord.t) (start : Instant) (w1 : World) :
  assembleRecord E s job w = Return (record, start) w1 ->
  analysisRecord.Error record = "".
Proof.
  destruct (assembleRecord_spec s job w)
    as (metrics & wm & results & wp & _ & _ & Hasm & _).
  rewrite Hasm. intros [= <- _ _]. reflexivity.
Qed.

End ProcessJob.

Lemma wrapErr_not_empty (prefix msg : string) :
  prefix <> "" -> wrapErr prefix msg <> "".
Proof. destruct prefix; [contradiction|discriminate]. Qed.

Lemma InstantQuery_error_not_empty (E : Env) (p : PrometheusClient.t) (moment : nat)
    (query : MetricQuery.t) (queryTime : Time) (m : string) :
  InstantQuery E p moment query queryTime = Err m -> m <> "".
Proof.
  unfold InstantQuery.
  destruct (promRoundTrip E moment _ _ queryTime) as [e|e|e|status body];
    try (intros [= <-]; apply wrapErr_not_empty; discriminate).
  destruct (300 <=? status)%Z; [intros [= <-]; discriminate|].
  destruct (unmarshalApiResp E body) as [resp|e];
    [|intros [= <-]; apply wrapErr_not_empty; discriminate].
  destruct (negb _); [intros [= <-]; discriminate|].
  destruct (String.eqb (apiResp.ResultType resp) "scalar").
  - destruct (unmarshalScalar E _) as [raw|e];
      [|intros [= <-]; apply wrapErr_not_empty; discriminate].
    destruct raw as [|a [|b [|c raw]]]; discriminate.
  - destruct (String.eqb (apiResp.ResultType resp) "vector"); [|discriminate].
    destruct (unmarshalVector E _) as [entries|e];
      [discriminate|intros [= <-]; apply wrapErr_not_empty; discriminate].
Qed.

Lemma InstantQuery_ok_no_error (E : Env) (p : PrometheusClient.t) (moment : nat)
    (query : MetricQuery.t) (queryTime : Time) (ok : MetricSnapshot.t) :
  InstantQuery E p moment query queryTime = Ok ok -> MetricSnapshot.Error ok = "".
Proof.
  unfold InstantQuery.
  destruct (promRoundTrip E moment _ _ queryTime) as [e|e|e|status body];
    try discriminate.
  destruct (300 <=? status)%Z; [discriminate|].
  destruct (unmarshalApiResp E body) as [resp|e]; [|discriminate].
  destruct (negb _); [discriminate|].
  destruct (String.eqb (apiResp.ResultType resp) "scalar").
  - destruct (unmarshalScalar E _) as [raw|e]; [|discriminate].
    destruct raw as [|a [|b [|c raw]]]; intros [= <-]; reflexivity.
  - destruct (String.eqb (apiResp.ResultType resp) "vector").
    + destruct (unmarshalVector E _) as [entries|e]; [|discriminate].
      intros [= <-]. reflexivity.
    + intros [= <-]. reflexivity.
Qed.

Section Records.
Context (E : Env).

(** C1. When fan-out runs for a job (some backend is configured and the
    prompt was built from the job and its collected snapshots), then for
    every order in which the goroutines finish, the provider list of the
    job's record is the list [runProviders] returned, it is as long as the
    list of configured adapters, and its entry at index [i] is the result
    computed for the adapter at configuration index [i], carrying that
    adapter's name, type and model. *)
Theorem fan_out_keeps_configuration_order (s : server.t) (job : analysisJob.t)
    (w : World) (metrics : option (list MetricSnapshot.t)) (wm : World)
    (request : LLMRequest.t) :
  server.providers s <> [] ->
  collectMetrics E s job (set_ticks (S (ticks w)) w) = Return (metrics, None) wm ->
  buildLLMRequest E job metrics (Config.PrometheusLookback (server.cfg s)) = Ok request ->
  Permutation (completionOrder E (ticks wm) (length (server.providers s)))
              (seq 0 (length (server.providers s))) ->
  exists results wp record start w1,
    runProviders E s job metrics wm = Return results wp /\
    assembleRecord E s job w = Return (record, start) w1 /\
    analysisRecord.Providers record = results /\
    length results = length (server.providers s) /\
    forall i provider,
      server.providers s !! i = Some provider ->
      exists r,
        results !! i = Some r /\
        r = fst (providerCall E (ticks wm) i provider request) /\
        ProviderResult.Provider r = Name provider /\
        ProviderResult.Type_ r = Type_ provider /\
        ProviderResult.Model r = Model provider.
Proof.
  intros Hprov Hcollect Hreq Hperm.
  destruct (runProviders_slots E s job metrics wm request Hreq Hperm)
    as (results & wp & Hrun & Hlen & Hslots).
  destruct (assembleRecord_spec E s job w)
    as (metrics' & wm' & results' & wp' & Hcollect' & Hrun' & Hasm & _).
  rewrite Hcollect in Hcollect'. injection Hcollect' as <- <-.
  assert (Hsome : (length (server.providers s) =? 0)%nat = false).
  { destruct (server.providers s); [contradiction|reflexivity]. }
  rewrite Hsome, Hrun in Hrun'. injection Hrun' as <- <-.
  exists results, wp. eexists. eexists. eexists.
  split; [exact Hrun|]. split; [exact Hasm|]. split; [reflexivity|].
  split; [exact Hlen|].
  intros i provider Hi. eexists. split; [apply Hslots; exact Hi|].
  split; [reflexivity|]. apply providerCall_identity.
Qed.

(** C7. When at least one backend is configured and building the prompt
    from the job and its collected snapshots fails, no backend is called
    and the provider list of the job's record is one synthetic entry:
    provider [prompt-builder], type [internal], no model, duration,
    response or parsed analysis, and as its error the serialization
    error, which starts with [marshal prompt payload: ].  The record is
    otherwise complete, and [processJob] hands it to the store: it is the
    newest stored record whenever the store has room for at least one,
    and it is put in front of the stored records even when [add] then
    panics. *)
Theorem prompt_failure_still_records (s : server.t) (id : Z) (job : analysisJob.t)
    (w : World) (metrics : option (list MetricSnapshot.t)) (wm : World) (msg : string) :
  server.providers s <> [] ->
  collectMetrics E s job (set_ticks (S (ticks w)) w) = Return (metrics, None) wm ->
  buildLLMRequest E job metrics (Config.PrometheusLookback (server.cfg s)) = Err msg ->
  exists record start w1,
    assembleRecord E s job w = Return (record, start) w1 /\
    analysisRecord.Providers record
      = [{| ProviderResult.Provider := "prompt-builder";
            ProviderResult.Type_ := "internal";
            ProviderResult.Model := "";
            ProviderResult.DurationMS := 0;
            ProviderResult.Response := "";
            ProviderResult.Parsed := None;
            ProviderResult.Error := msg |}] /\
    (exists cause, msg = "marshal prompt payload: " +:+ cause) /\
    analysisRecord.ID record = analysisJob.ID job /\
    analysisRecord.ReceivedAt record = analysisJob.ReceivedAt job /\
    analysisRecord.CompletedAt record = wall (now E (ticks wm)) /\
    analysisRecord.AlertStatus record = GrafanaWebhookPayload.Status (analysisJob.Payload job) /\
    analysisRecord.Receiver record = GrafanaWebhookPayload.Receiver (analysisJob.Payload job) /\
    analysisRecord.GroupKey record = GrafanaWebhookPayload.GroupKey (analysisJob.Payload job) /\
    analysisRecord.AlertSummaries record
      = summarizeAlerts (GrafanaWebhookPayload.Alerts (analysisJob.Payload job)) /\
    analysisRecord.Metrics record = metrics /\
    providerRequestsTotal w1 = providerRequestsTotal w /\
    match analysisStore.add record (store w) with
    | Done st => exists w', processJob E s id job w = Return tt w' /\ store w' = st
    | Panicked m =>
        exists w',
          processJob E s id job w = Panic m w' /\
          analysisStore.items (store w') = record :: analysisStore.items (store w)
    end /\
    ((1 <= analysisStore.max (store w))%Z ->
     exists w',
       processJob E s id job w = Return tt w' /\
       analysisStore.list_ (store w')
       = record :: take (Z.to_nat (analysisStore.max (store w)) - 1)
                     (analysisStore.list_ (store w)) /\
       jobResultsTotal w' = Inc "processed" (jobResultsTotal w)).
Proof.
  intros Hprov Hcollect Hbuild.
  destruct (assembleRecord_spec E s job w)
    as (metrics' & wm' & results & wp & Hcollect' & Hrun & Hasm & Hf).
  rewrite Hcollect in Hcollect'. injection Hcollect' as <- <-.
  assert (Hlen : (length (server.providers s) =? 0)%nat = false).
  { destruct (server.providers s); [contradiction|reflexivity]. }
  rewrite Hlen in Hrun.
  destruct (runProviders_total E s job metrics wm) as (results' & wp' & Hrun' & _ & _ & Herr).
  rewrite Hrun in Hrun'. injection Hrun' as <- <-.
  destruct (Herr msg Hbuild) as [-> ->].
  destruct (collectMetrics_spec E s job (set_ticks (S (ticks w)) w))
    as (m2 & w2 & Hc2 & _ & Hp2 & _).
  rewrite Hcollect in Hc2. injection Hc2 as <- <-.
  destruct (processJob_spec E s id job w) as (record & start & w1 & Hasm' & _ & Hadd).
  rewrite Hasm in Hasm'. injection Hasm' as <- <- <-.
  eexists. eexists. eexists. split; [exact Hasm|].
  split; [reflexivity|]. split.
  { revert Hbuild. unfold buildLLMRequest.
    destruct (marshalPrompt E _) as [body|cause]; [discriminate|].
    intros [= <-]. exists cause. reflexivity. }
  do 8 (split; [reflexivity|]).
  split; [exact Hp2|]. split.
  - destruct (analysisStore.add _ (store w)) as [st|m].
    + destruct Hadd as (w' & Hrun' & Hst & _). exists w'. auto.
    + destruct Hadd as (w' & Hrun' & Hst & _). exists w'.
      split; [exact Hrun'|]. rewrite Hst. reflexivity.
  - intros Hcap. rewrite add_ok in Hadd by lia.
    destruct Hadd as (w' & Hrun' & Hst & _ & _ & _ & Hj & _).
    exists w'. split; [exact Hrun'|]. split; [|exact Hj].
    unfold analysisStore.list_. rewrite Hst. simpl.
    destruct (Z.to_nat (analysisStore.max (store w))) as [|k] eqn:Hk; [lia|].
    simpl. do 2 f_equal. lia.
Qed.

(** C8. For a server whose configuration was loaded by [loadConfig],
    evidence collection returns one snapshot per configured query, in
    configuration order, every query evaluated at the same query time.
    The snapshot of a query that failed carries the query's name,
    description and expression, the error message of [InstantQuery],
    which is not empty, and nothing else: no result type, summary or
    series.  The snapshot of a query that succeeded is the one
    [InstantQuery] returned, and carries no error. *)
Theorem one_snapshot_per_query (P : Parsers) (s : server.t) (job : analysisJob.t)
    (w : World) :
  loadConfig E P = Ok (server.cfg s) ->
  exists queryTime w1 snapshots w',
    anchorQueryTime E s job w = Return queryTime w1 /\
    collectMetrics E s job w = Return (Some snapshots, None) w' /\
    length snapshots = length (Config.MetricQueries (server.cfg s)) /\
    forall i query,
      Config.MetricQueries (server.cfg s) !! i = Some query ->
      exists snapshot,
        snapshots !! i = Some snapshot /\
        MetricSnapshot.Name snapshot = MetricQuery.Name query /\
        MetricSnapshot.Description snapshot = MetricQuery.Description query /\
        MetricSnapshot.Query snapshot = MetricQuery.Query query /\
        (forall m,
            InstantQuery E (server.prom s) (ticks w1) query queryTime = Err m ->
            m <> "" /\
            snapshot = {| MetricSnapshot.Name := MetricQuery.Name query;
                          MetricSnapshot.Description := MetricQuery.Description query;
                          MetricSnapshot.Query := MetricQuery.Query query;
                          MetricSnapshot.ResultType := "";
                          MetricSnapshot.Summary := "";
                          MetricSnapshot.Series := [];
                          MetricSnapshot.Error := m |}) /\
        (forall ok,
            InstantQuery E (server.prom s) (ticks w1) query queryTime = Ok ok ->
            snapshot = ok /\ MetricSnapshot.Error snapshot = "").
Proof.
  intros Hload.
  apply loadConfig_url_not_blank in Hload.
  destruct (collectMetrics_spec E s job w) as (metrics & w' & Hrun & _ & _ & _ & Hnb).
  destruct (Hnb Hload) as (queryTime & w1 & Hanchor & ->).
  exists queryTime, w1. eexists. exists w'.
  split; [exact Hanchor|]. split; [exact Hrun|].
  split; [apply length_map|].
  intros i query Hi.
  exists (snapshotFor E s (ticks w1) queryTime query).
  split; [rewrite list_lookup_fmap, Hi; reflexivity|].
  destruct (snapshotFor_identity E s (ticks w1) queryTime query) as (Hn & Hd & Hq).
  split; [exact Hn|]. split; [exact Hd|]. split; [exact Hq|].
  unfold snapshotFor. split.
  - intros m Hm. rewrite Hm.
    split; [exact (InstantQuery_error_not_empty E _ _ _ _ _ Hm)|reflexivity].
  - intros ok Hok. rewrite Hok.
    split; [reflexivity|exact (InstantQuery_ok_no_error E _ _ _ _ _ Hok)].
Qed.

(** C10. [collectMetrics] returns a nil error for every job, and with a
    blank Prometheus URL a nil list; the record assembled for the job,
    which is the one handed to the store, has an empty top-level error
    and, with a blank URL, no metrics at all. *)
Theorem enrichment_never_sets_error (s : server.t) (id : Z) (job : analysisJob.t)
    (w : World) :
  (exists metrics w',
      collectMetrics E s job w = Return (metrics, None) w' /\
      (TrimSpace (Config.PrometheusURL (server.cfg s)) = "" ->
       metrics = None /\ w' = w)) /\
  (exists record start w1,
      assembleRecord E s job w = Return (record, start) w1 /\
      analysisRecord.Error record = "" /\
      (TrimSpace (Config.PrometheusURL (server.cfg s)) = "" ->
       analysisRecord.Metrics record = None /\
       slice_len (analysisRecord.Metrics record) = 0) /\
      match analysisStore.add record (store w) with
      | Done st => exists w', processJob E s id job w = Return tt w' /\ store w' = st
      | Panicked m => exists w', processJob E s id job w = Panic m w'
      end).
Proof.
  split.
  - destruct (collectMetrics_spec E s job w) as (metrics & w' & Hrun & _ & _ & Hb & _).
    exists metrics, w'. auto.
  - destruct (processJob_spec E s id job w) as (record & start & w1 & Hasm & _ & Hadd).
    exists record, start, w1. split; [exact Hasm|].
    split; [eapply assembled_error_empty; eassumption|]. split.
    + intros Hblank.
      destruct (assembleRecord_spec E s job w)
        as (metrics & wm & results & wp & Hcollect & _ & Hasm' & _).
      destruct (collectMetrics_spec E s job (set_ticks (S (ticks w)) w))
        as (m2 & w2 & Hc2 & _ & _ & Hb & _).
      rewrite Hcollect in Hc2. injection Hc2 as <- <-.
      destruct (Hb Hblank) as [-> _].
      rewrite Hasm in Hasm'. injection Hasm' as -> _ _. auto.
    + destruct (analysisStore.add record (store w)) as [st|m].
      * destruct Hadd as (w' & Hrun & Hst & _). exists w'. auto.
      * destruct Hadd as (w' & Hrun & _). exists w'. exact Hrun.
Qed.

End Records.

Lemma fan_out_keeps_configuration_order_witness :
  exists results record start w1,
    assembleRecord Scenario.E0 Scenario.s3 Scenario.job1 Scenario.w3
      = Return (record, start) w1 /\
    analysisRecord.Providers record = results /\
    length results = 3 /\
    forall i provider,
      server.providers Scenario.s3 !! i = Some provider ->
      exists r,
        results !! i = Some r /\
        ProviderResult.Provider r = Name provider.
Proof.
  destruct (collectMetrics_spec Scenario.E0 Scenario.s3 Scenario.job1
              (set_ticks (S (ticks Scenario.w3)) Scenario.w3))
    as (metrics & wm & Hcollect & _ & _ & _ & Hnb).
  destruct (Hnb ltac:(discriminate)) as (qt & wq & _ & Hmetrics).
  assert (Hreq : exists request,
             buildLLMRequest Scenario.E0 Scenario.job1 metrics
               (Config.PrometheusLookback (server.cfg Scenario.s3)) = Ok request).
  { rewrite Hmetrics. eexists. reflexivity. }
  destruct Hreq as (request & Hreq).
  destruct (fan_out_keeps_configuration_order Scenario.E0 Scenario.s3 Scenario.job1
              Scenario.w3 metrics wm request)
    as (results & wp & record & start & w1 & _ & Hasm & Hrec & Hlen & Hslots).
  - discriminate.
  - exact Hcollect.
  - exact Hreq.
  - apply reverse_Permutation.
  - exists results, record, start, w1.
    split; [exact Hasm|]. split; [exact Hrec|]. split; [exact Hlen|].
    intros i provider Hi.
    destruct (Hslots i provider Hi) as (r & Hr & _ & Hname & _).
    exists r. split; [exact Hr|exact Hname].
Defined.

Lemma prompt_failure_still_records_witness :
  exists record start w1,
    assembleRecord Scenario.E0 Scenario.s3 Scenario.job_unmarshallable Scenario.w3
      = Return (record, start) w1 /\
    analysisRecord.Providers record
      = [{| ProviderResult.Provider := "prompt-builder";
            ProviderResult.Type_ := "internal";
            ProviderResult.Model := "";
            ProviderResult.DurationMS := 0;
            ProviderResult.Response := "";
            ProviderResult.Parsed := None;
            ProviderResult.Error :=
              "marshal prompt payload: Time.MarshalJSON: year outside of range [0,9999]" |}] /\
    exists w',
      processJob Scenario.E0 Scenario.s3 1 Scenario.job_unmarshallable Scenario.w3
        = Return tt w' /\
      analysisStore.list_ (store w') = [record].
Proof.
  destruct (collectMetrics_spec Scenario.E0 Scenario.s3 Scenario.job_unmarshallable
              (set_ticks (S (ticks Scenario.w3)) Scenario.w3))
    as (metrics & wm & Hcollect & _ & _ & _ & Hnb).
  destruct (Hnb ltac:(discriminate)) as (qt & wq & _ & Hmetrics).
  destruct (prompt_failure_still_records Scenario.E0 Scenario.s3 1
              Scenario.job_unmarshallable Scenario.w3 metrics wm
              "marshal prompt payload: Time.MarshalJSON: year outside of range [0,9999]")
    as (record & start & w1 & Hasm & Hprov & _ & _ & _ & _ & _ & _ & _ & _ & _ & _ & _ & Hstored).
  - discriminate.
  - exact Hcollect.
  - rewrite Hmetrics. reflexivity.
  - exists record, start, w1. split; [exact Hasm|]. split; [exact Hprov|].
    destruct Hstored as (w' & Hrun & Hlist & _); [simpl; lia|].
    exists w'. split; [exact Hrun|]. exact Hlist.
Defined.

Lemma one_snapshot_per_query_witness :
  exists snapshots w' failed answered,
    collectMetrics Flaky.E_flaky Scenario.s_loaded Scenario.job1 Scenario.w_loaded
      = Return (Some snapshots, None) w' /\
    length snapshots = 21 /\
    snapshots !! 2 = Some answered /\
    MetricSnapshot.Name answered = "wifi_probe_up_avg" /\
    MetricSnapshot.Error answered = "" /\
    snapshots !! 3 = Some failed /\
    MetricSnapshot.Name failed = "wifi_probe_errors" /\
    MetricSnapshot.ResultType failed = "" /\
    MetricSnapshot.Summary failed = "" /\
    MetricSnapshot.Series failed = [] /\
    MetricSnapshot.Error failed = "query Prometheus: connection refused" /\
    snapshots !! 4 <> None.
Proof.
  destruct (one_snapshot_per_query Flaky.E_flaky Scenario.parsers Scenario.s_loaded
              Scenario.job1 Scenario.w_loaded)
    as (queryTime & w1 & snapshots & w' & Hanchor & Hrun & Hlen & Hall).
  - vm_compute. reflexivity.
  - destruct (Hall 2 _ eq_refl) as (answered & Hanswered & Hname2 & _ & _ & _ & Hok).
    destruct (Hall 3 _ eq_refl) as (failed & Hfailed & Hname3 & _ & _ & Herr & _).
    destruct (Hall 4 _ eq_refl) as (next & Hnext & _).
    destruct (Herr "query Prometheus: connection refused" eq_refl) as [_ Hshape].
    destruct (Hok _ eq_refl) as [_ Hnone].
    exists snapshots, w', failed, answered.
    split; [exact Hrun|]. split; [exact Hlen|].
    split; [exact Hanswered|]. split; [exact Hname2|]. split; [exact Hnone|].
    split; [exact Hfailed|]. split; [exact Hname3|].
    rewrite Hshape. simpl.
    do 4 (split; [reflexivity|]). rewrite Hnext. discriminate.
Defined.

(** ** Admission *)

Lemma count_Inc `{Countable K} (k : K) (m : gmap K nat) :
  count k (Inc k m) = S (count k m).
Proof. unfold count, Inc. rewrite lookup_insert_eq. reflexivity. Qed.

Lemma count_Inc_ne `{Countable K} (k k' : K) (m : gmap K nat) :
  k <> k' -> count k' (Inc k m) = count k' m.
Proof. intros Hne. unfold count, Inc. rewrite lookup_insert_ne by exact Hne. reflexivity. Qed.

Lemma trySend_full (job : analysisJob.t) (c : Chan.t) :
  Chan.trySend job c = None <->
  Chan.recvq c = 0 /\ (Chan.cap c <= Chan.len c)%Z.
Proof.
  unfold Chan.trySend. destruct (Chan.recvq c) as [|k].
  - destruct (Z.ltb_spec (Chan.len c) (Chan.cap c)); split.
    + discriminate.
    + intros [_ Hle]. lia.
    + auto.
    + reflexivity.
  - split; [discriminate|]. intros [H _]. discriminate.
Qed.

Section Admission.
Context (E : Env).

(** C6, as the code has it.  The webhook handler always returns at once:
    the send on the queue either proceeds immediately or the default
    case runs.  A request that is not a POST, or whose body does not
    decode, is answered 405 or 400 and changes nothing.  For a decoded
    payload the received counter of the payload's status goes up by one
    before the admission decision, whatever that decision is.  The send
    fails exactly when no receiver is parked and the buffer is at
    capacity; then the answer is 503 [queue full], the [queue_full]
    counter goes up by one and the queue is unchanged.  Otherwise the job
    is enqueued, the queue depth gauge goes up by one and the answer is
    202. *)
Theorem admission_decides_at_once (s : server.t) (r : Request.t) (w : World) :
  exists response w',
    handleGrafanaWebhook E s r w = Return response w' /\
    (Request.Method r <> "POST" ->
       response = HttpError StatusMethodNotAllowed "method not allowed" /\ w' = w) /\
    (Request.Method r = "POST" ->
       forall m,
         decodePayload E (Request.Body r) = Err m ->
         response = HttpError StatusBadRequest "invalid json body" /\ w' = w) /\
    (Request.Method r = "POST" ->
       forall payload,
         decodePayload E (Request.Body r) = Ok payload ->
         let job :=
           {| analysisJob.ID :=
                itoa (UnixNano (wall (now E (ticks w)))) +:+ "-"
                +:+ sanitizeID (GrafanaWebhookPayload.GroupKey payload);
              analysisJob.ReceivedAt := wall (now E (S (ticks w)));
              analysisJob.Payload := payload |} in
         alertsReceivedTotal w'
           = Inc (GrafanaWebhookPayload.Status payload) (alertsReceivedTotal w) /\
         count (GrafanaWebhookPayload.Status payload) (alertsReceivedTotal w')
           = S (count (GrafanaWebhookPayload.Status payload) (alertsReceivedTotal w)) /\
         store w' = store w /\
         (Chan.trySend job (queue w) = None <->
          Chan.recvq (queue w) = 0 /\ (Chan.cap (queue w) <= Chan.len (queue w))%Z) /\
         match Chan.trySend job (queue w) with
         | Some q =>
             response =
               Queued StatusAccepted (analysisJob.ID job)
                 (Z.of_nat (length (GrafanaWebhookPayload.Alerts payload)))
                 (providerNames (server.providers s)) /\
             queue w' = q /\
             queueDepthGauge w' = (queueDepthGauge w + 1)%Z /\
             jobResultsTotal w' = jobResultsTotal w
         | None =>
             response = HttpError StatusServiceUnavailable "queue full" /\
             queue w' = queue w /\
             queueDepthGauge w' = queueDepthGauge w /\
             jobResultsTotal w' = Inc "queue_full" (jobResultsTotal w) /\
             count "queue_full" (jobResultsTotal w')
               = S (count "queue_full" (jobResultsTotal w))
         end).
Proof.
  unfold handleGrafanaWebhook.
  destruct (String.eqb_spec (Request.Method r) "POST") as [Hpost|Hother]; simpl.
  - destruct (decodePayload E (Request.Body r)) as [payload|m] eqn:Hdecode.
    + unfold bind, modify, timeNow. simpl.
      match goal with |- context [Chan.trySend ?j (queue w)] => set (job := j) end.
      destruct (Chan.trySend job (queue w)) as [q|] eqn:Hsend.
      * eexists. eexists. split; [reflexivity|].
        split; [intros H; contradiction|]. split; [intros _ m H; discriminate|].
        intros _ payload' [= <-]. cbv zeta. fold job.
        split; [reflexivity|]. split; [apply count_Inc|]. split; [reflexivity|].
        split; [apply trySend_full|].
        rewrite Hsend. simpl. auto.
      * eexists. eexists. split; [reflexivity|].
        split; [intros H; contradiction|]. split; [intros _ m H; discriminate|].
        intros _ payload' [= <-]. cbv zeta. fold job.
        split; [reflexivity|]. split; [apply count_Inc|]. split; [reflexivity|].
        split; [apply trySend_full|].
        rewrite Hsend. simpl.
        split; [reflexivity|]. split; [reflexivity|]. split; [reflexivity|].
        split; [reflexivity|apply count_Inc].
    + exists (HttpError StatusBadRequest "invalid json body"), w.
      split; [reflexivity|]. split; [intros H; contradiction|].
      split; [auto|]. intros _ payload H. discriminate.
  - exists (HttpError StatusMethodNotAllowed "method not allowed"), w.
    split; [reflexivity|]. split; [auto|].
    split; intros H; contradiction.
Qed.

End Admission.

(** C6, as the specification words it, fails: with a queue of one that
    already holds a job and no parked receiver, a further webhook is
    answered 503 [queue full] and nothing is enqueued, yet the received
    counter of its status has gone up. *)
Lemma received_counted_on_rejection :
  exists w',
    handleGrafanaWebhook Scenario.E0 Scenario.s_q1 (Scenario.post "second")
      Scenario.w_q1_full
    = Return (HttpError StatusServiceUnavailable "queue full") w' /\
    queue w' = queue Scenario.w_q1_full /\
    count "firing" (alertsReceivedTotal Scenario.w_q1_full) = 1 /\
    count "firing" (alertsReceivedTotal w') = 2 /\
    count "queue_full" (jobResultsTotal w') = 1.
Proof.
  eexists. split; [vm_compute; reflexivity|].
  repeat split; vm_compute; reflexivity.
Qed.

Lemma admission_decides_at_once_witness :
  exists w',
    handleGrafanaWebhook Scenario.E0 Scenario.s_q1 (Scenario.post "first") Scenario.w_q1
    = Return (Queued StatusAccepted "1765084800000000000-first" 1
                ["chatty"; "fast"; "slow"]) w' /\
    count "firing" (alertsReceivedTotal w') = 1 /\
    Chan.len (queue w') = 1%Z.
Proof.
  destruct (admission_decides_at_once Scenario.E0 Scenario.s_q1 (Scenario.post "first")
              Scenario.w_q1) as (response & w' & Hrun & _ & _ & Hok).
  destruct (Hok eq_refl (Scenario.payloadOf "first" [Scenario.firingAlert 0%Z]) eq_refl)
    as (_ & Hcount & _ & _ & Hsend).
  exists w'.
  destruct (Chan.trySend _ (queue Scenario.w_q1)) as [q|] eqn:Hq in Hsend.
  - destruct Hsend as (Hresp & Hqueue & _).
    split; [rewrite Hrun, Hresp; reflexivity|]. split; [exact Hcount|].
    rewrite Hqueue. vm_compute in Hq. injection Hq as <-. reflexivity.
  - vm_compute in Hq. discriminate.
Defined.

(** ** The worker loop *)

Lemma receive_some (w : World) :
  0 < pending w ->
  exists job q,
    Chan.receive (queue w) = (Some job, q) /\
    length (Chan.handed q) + length (Chan.buf q) = pending w - 1 /\
    Chan.recvq q = Chan.recvq (queue w).
Proof.
  unfold pending, Chan.receive.
  destruct (Chan.handed (queue w)) as [|j h]; simpl.
  - destruct (Chan.buf (queue w)) as [|j b]; simpl; [lia|].
    intros _. exists j. eexists. split; [reflexivity|]. simpl. split; [lia|reflexivity].
  - intros _. exists j. eexists. split; [reflexivity|]. simpl. split; [lia|reflexivity].
Qed.

Lemma receive_none (w : World) :
  pending w = 0 ->
  exists q,
    Chan.receive (queue w) = (None, q) /\
    length (Chan.handed q) + length (Chan.buf q) = 0 /\
    Chan.recvq q = S (Chan.recvq (queue w)).
Proof.
  unfold pending, Chan.receive.
  destruct (Chan.handed (queue w)) as [|j h]; simpl; [|lia].
  destruct (Chan.buf (queue w)) as [|j b]; simpl; [|lia].
  intros _. eexists. split; [reflexivity|]. simpl. auto.
Qed.

Section Worker.
Context (E : Env).

(** With a store of non-negative capacity no job panics: the loop
    processes every pending job and parks. *)
Lemma workerLoop_drains (s : server.t) (id : Z) (fuel : nat) :
  forall w,
    (0 <= analysisStore.max (store w))%Z ->
    pending w < fuel ->
    exists w',
      workerLoop E fuel s id w = (Parked, w') /\
      pending w' = 0 /\
      Chan.recvq (queue w') = S (Chan.recvq (queue w)) /\
      count "processed" (jobResultsTotal w')
        = count "processed" (jobResultsTotal w) + pending w /\
      analysisStore.max (store w') = analysisStore.max (store w).
Proof.
  induction fuel as [|fuel IH]; intros w Hmax Hfuel; [lia|].
  simpl. destruct (decide (pending w = 0)) as [Hzero|Hpos].
  - destruct (receive_none w Hzero) as (q & -> & Hq & Hrecv).
    eexists. split; [reflexivity|]. simpl.
    split; [exact Hq|]. split; [exact Hrecv|]. rewrite Hzero.
    split; [lia|reflexivity].
  - destruct (receive_some w ltac:(lia)) as (job & q & -> & Hq & Hrecv).
    set (w1 := set_queueDepthGauge (queueDepthGauge w - 1) (set_queue q w)).
    destruct (processJob_spec E s id job w1) as (record & start & wa & _ & _ & Hadd).
    rewrite add_ok in Hadd by exact Hmax.
    destruct Hadd as (w2 & -> & Hst & Hqueue & _ & _ & Hj & _).
    destruct (IH w2) as (w' & Hloop & Hp & Hr & Hc & Hm).
    { rewrite Hst. exact Hmax. }
    { unfold pending. rewrite Hqueue. simpl. lia. }
    exists w'. split; [exact Hloop|]. split; [exact Hp|].
    split; [rewrite Hr, Hqueue; simpl; congruence|].
    split.
    + rewrite Hc, Hj. simpl. rewrite count_Inc.
      unfold pending at 1. rewrite Hqueue. simpl. lia.
    + rewrite Hm, Hst. reflexivity.
Qed.

Lemma serve_crashed (s : server.t) (msg : string) (w : World) (events : list Event) :
  serve E s events (Crashed msg w) = (map (fun _ => None) events, Crashed msg w).
Proof.
  induction events as [|e rest IH]; simpl; [reflexivity|].
  rewrite IH. reflexivity.
Qed.

(** C9, as the code has it.  Nothing recovers a panic of [processJob]:
    when the job a worker received panics, the worker loop is left at
    that job with the queue as the receive left it, and the process
    ends: whatever is asked of it afterwards, no request is answered and
    no worker runs, so the jobs behind the one that panicked are never
    pulled.  A worker keeps pulling jobs as long as processing returns:
    with a store capacity of zero or more no job panics, the worker
    processes every pending job and parks, and the process keeps
    running; with a negative store capacity the first job it receives
    panics in [add], which has put the record of that job in front of
    the stored ones by then. *)
Theorem worker_does_not_recover (s : server.t) (id : Z) (w : World) :
  (forall job q msg w2,
      Chan.receive (queue w) = (Some job, q) ->
      processJob E s id job
        (set_queueDepthGauge (queueDepthGauge w - 1) (set_queue q w)) = Panic msg w2 ->
      worker E s id w = (Unwound msg, w2) /\ queue w2 = q /\
      step E s (WorkerRuns id) (Running w) = (None, Crashed msg w2) /\
      forall events,
        serve E s events (Crashed msg w2)
        = (map (fun _ => None) events, Crashed msg w2)) /\
  ((0 <= analysisStore.max (store w))%Z ->
   exists w',
     worker E s id w = (Parked, w') /\
     pending w' = 0 /\
     Chan.recvq (queue w') = S (Chan.recvq (queue w)) /\
     count "processed" (jobResultsTotal w')
       = count "processed" (jobResultsTotal w) + pending w /\
     step E s (WorkerRuns id) (Running w) = (None, Running w')) /\
  ((analysisStore.max (store w) < 0)%Z ->
   forall job q,
     Chan.receive (queue w) = (Some job, q) ->
     exists record start w1 w',
       assembleRecord E s job
         (set_queueDepthGauge (queueDepthGauge w - 1) (set_queue q w))
         = Return (record, start) w1 /\
       worker E s id w = (Unwound "slice bounds out of range", w') /\
       queue w' = q /\
       analysisStore.max (store w') = analysisStore.max (store w) /\
       analysisStore.items (store w') = record :: analysisStore.items (store w) /\
       step E s (WorkerRuns id) (Running w)
       = (None, Crashed "slice bounds out of range" w')).
Proof.
  split; [|split].
  - intros job q msg w2 Hrecv Hpanic.
    assert (Hworker : worker E s id w = (Unwound msg, w2))
      by (unfold worker; simpl; rewrite Hrecv, Hpanic; reflexivity).
    split; [exact Hworker|]. split.
    + set (w1 := set_queueDepthGauge (queueDepthGauge w - 1) (set_queue q w)) in *.
      destruct (processJob_spec E s id job w1) as (record & start & wa & _ & _ & Hadd).
      destruct (analysisStore.add record (store w1)) as [st|m].
      * destruct Hadd as (w' & Hrun & _). congruence.
      * destruct Hadd as (w' & Hrun & _ & Hqueue & _).
        rewrite Hpanic in Hrun. injection Hrun as _ <-. exact Hqueue.
    + split; [|intros events; apply serve_crashed].
      unfold step. rewrite Hworker. reflexivity.
  - intros Hmax.
    destruct (workerLoop_drains s id (S (pending w)) w Hmax ltac:(lia))
      as (w' & Hloop & Hp & Hr & Hc & _).
    exists w'. split; [exact Hloop|]. split; [exact Hp|]. split; [exact Hr|].
    split; [exact Hc|].
    unfold step, worker. rewrite Hloop. reflexivity.
  - intros Hneg job q Hrecv.
    set (w1 := set_queueDepthGauge (queueDepthGauge w - 1) (set_queue q w)).
    destruct (processJob_spec E s id job w1) as (record & start & wa & Hasm & _ & Hadd).
    assert (Hpanic : analysisStore.add record (store w1)
                     = Panicked "slice bounds out of range")
      by (apply add_panics; exact Hneg).
    rewrite Hpanic in Hadd. destruct Hadd as (w' & Hrun & Hst & Hqueue & _).
    assert (Hworker : worker E s id w = (Unwound "slice bounds out of range", w'))
      by (unfold worker; simpl; rewrite Hrecv; fold w1; rewrite Hrun; reflexivity).
    exists record, start, wa, w'.
    split; [exact Hasm|]. split; [exact Hworker|]. split; [exact Hqueue|].
    rewrite Hst. split; [reflexivity|]. split; [reflexivity|].
    unfold step. rewrite Hworker. reflexivity.
Qed.

End Worker.

(** C9, as the specification words it, fails: with
    [MAX_STORED_ANALYSES=-1] and two jobs in the queue, the worker
    unwinds on the first job, whose record [add] has put into the store
    by then, and the process ends with the second job still in the
    queue: no later run of this or of the other worker pulls it, and a
    later request for the latest analyses is not answered. *)
Lemma worker_lost_to_panic :
  exists w',
    worker Scenario.E0 Scenario.s_neg 1 Scenario.w_neg
      = (Unwound "slice bounds out of range", w') /\
    Chan.buf (queue w') = [Scenario.job2] /\
    map analysisRecord.ID (analysisStore.items (store w')) = ["grp"] /\
    count "processed" (jobResultsTotal w') = 1 /\
    serve Scenario.E0 Scenario.s_neg [WorkerRuns 1; WorkerRuns 2; LatestAnalyses]
      (Running Scenario.w_neg)
    = ([None; None; None], Crashed "slice bounds out of range" w').
Proof.
  eexists. split; [vm_compute; reflexivity|].
  repeat split; vm_compute; reflexivity.
Qed.

Lemma worker_does_not_recover_witness :
  exists record w',
    worker Scenario.E0 Scenario.s_neg 1 Scenario.w_neg
      = (Unwound "slice bounds out of range", w') /\
    analysisStore.items (store w') = [record] /\
    step Scenario.E0 Scenario.s_neg (WorkerRuns 1) (Running Scenario.w_neg)
    = (None, Crashed "slice bounds out of range" w').
Proof.
  destruct (worker_does_not_recover Scenario.E0 Scenario.s_neg 1 Scenario.w_neg)
    as (_ & _ & Hneg).
  destruct (Hneg ltac:(simpl; lia) Scenario.job1 _ eq_refl)
    as (record & start & w1 & w' & _ & Hrun & _ & _ & Hitems & Hstep).
  exists record, w'. split; [exact Hrun|]. split; [exact Hitems|exact Hstep].
Defined.

Lemma enrichment_never_sets_error_witness :
  exists record start w1,
    assembleRecord Scenario.E0 Scenario.s_blank Scenario.job1 Scenario.w3
      = Return (record, start) w1 /\
    analysisRecord.Error record = "" /\
    analysisRecord.Metrics record = None.
Proof.
  destruct (enrichment_never_sets_error Scenario.E0 Scenario.s_blank 1 Scenario.job1
              Scenario.w3) as (_ & record & start & w1 & Hasm & Herr & Hblank & _).
  exists record, start, w1. split; [exact Hasm|]. split; [exact Herr|].
  apply Hblank. reflexivity.
Defined.

(* ===================================================================== *)
(** * Further properties *)
(* ===================================================================== *)

(** ** The record store below and at its limits *)

(** X1. A new store of capacity [N >= 0] that received at most [N]
    records evicts none: it lists all of them, newest first. *)
Theorem store_keeps_all_under_capacity (N : Z) (records : list analysisRecord.t) :
  (0 <= N)%Z ->
  length records <= Z.to_nat N ->
  analysisStore.add_all records (analysisStore.newAnalysisStore N)
  = Done {| analysisStore.max := N; analysisStore.items := reverse records |}.
Proof.
  intros HN Hlen.
  rewrite add_all_bounded; simpl; [|exact HN|lia].
  rewrite app_nil_r, take_ge; [reflexivity|].
  rewrite length_reverse. exact Hlen.
Qed.

Lemma store_keeps_all_under_capacity_witness :
  analysisStore.add_all [Scenario.recordOf "a"; Scenario.recordOf "b"]
    (analysisStore.newAnalysisStore 5)
  = Done {| analysisStore.max := 5;
            analysisStore.items := [Scenario.recordOf "b"; Scenario.recordOf "a"] |}.
Proof.
  apply (store_keeps_all_under_capacity 5 [Scenario.recordOf "a"; Scenario.recordOf "b"]).
  - lia.
  - simpl. lia.
Defined.

(** A store of capacity zero accepts every record and stays empty;
    a store of negative capacity panics on every [add], whatever it
    holds, so no run of adds that contains a record gets through. *)
Lemma store_degenerate_capacity (r : analysisRecord.t) (s : analysisStore.t) :
  (analysisStore.max s = 0%Z ->
     analysisStore.add r s
     = Done {| analysisStore.max := 0; analysisStore.items := [] |}) /\
  ((analysisStore.max s < 0)%Z ->
     forall rest,
       analysisStore.add_all (r :: rest) s = Panicked "slice bounds out of range").
Proof.
  split.
  - intros Hzero. rewrite add_ok by lia. rewrite Hzero. reflexivity.
  - intros Hneg rest. simpl.
    unfold analysisStore.add.
    destruct (Z.ltb_spec (analysisStore.max s)
                (Z.of_nat (length (r :: analysisStore.items s)))) as [_|Hge]; [|lia].
    destruct (Z.ltb_spec (analysisStore.max s) 0); [reflexivity|lia].
Qed.

(** ** Job identifiers *)

Lemma list_ascii_of_map_bytes (f : ascii -> ascii) (s : string) :
  list_ascii_of_string (map_bytes f s) = map f (list_ascii_of_string s).
Proof. induction s as [|a s IH]; simpl; [reflexivity|]. rewrite IH. reflexivity. Qed.

Lemma sanitizeByte_clean (c : ascii) : sanitizeByte c ∉ replacedBytes.
Proof.
  unfold sanitizeByte, replacedBytes.
  destruct (Ascii.eqb_spec c "/"); simpl;
    [intros H; repeat (apply elem_of_cons in H as [H|H]; [discriminate|]); inversion H|].
  destruct (Ascii.eqb_spec c ":"); simpl;
    [intros H; repeat (apply elem_of_cons in H as [H|H]; [discriminate|]); inversion H|].
  destruct (Ascii.eqb_spec c " "); simpl;
    [intros H; repeat (apply elem_of_cons in H as [H|H]; [discriminate|]); inversion H|].
  destruct (Ascii.eqb_spec c "010"); simpl;
    [intros H; repeat (apply elem_of_cons in H as [H|H]; [discriminate|]); inversion H|].
  destruct (Ascii.eqb_spec c "009"); simpl;
    [intros H; repeat (apply elem_of_cons in H as [H|H]; [discriminate|]); inversion H|].
  intros H. repeat (apply elem_of_cons in H as [H|H]; [congruence|]). inversion H.
Qed.

(** X2. [sanitizeID] never returns the empty string, and its result
    contains no slash, colon, space, line feed or tab. *)
Theorem sanitizeID_is_safe (v : string) :
  sanitizeID v <> "" /\
  forall c, c ∈ list_ascii_of_string (sanitizeID v) -> c ∉ replacedBytes.
Proof.
  unfold sanitizeID.
  destruct (is_empty (map_bytes sanitizeByte (TrimSpace v))) eqn:Hempty.
  - split; [discriminate|].
    intros c Hc. simpl in Hc. unfold replacedBytes.
    repeat (apply elem_of_cons in Hc as [->|Hc];
            [intros H; repeat (apply elem_of_cons in H as [H|H]; [discriminate|]);
             inversion H|]).
    inversion Hc.
  - split.
    + intros H. rewrite H in Hempty. discriminate.
    + intros c Hc. rewrite list_ascii_of_map_bytes in Hc.
      apply list_elem_of_fmap in Hc as (c0 & -> & _). apply sanitizeByte_clean.
Qed.

(** ** The earliest alert time *)

Lemma foldr_min_le_init (init : Z) (l : list Z) : (foldr Z.min init l <= init)%Z.
Proof. induction l as [|x l IH]; simpl; lia. Qed.

Lemma foldr_min_le_elem (init : Z) (l : list Z) (x : Z) :
  x ∈ l -> (foldr Z.min init l <= x)%Z.
Proof.
  induction l as [|y l IH]; intros Hx; [inversion Hx|].
  apply elem_of_cons in Hx as [->|Hx]; simpl; [lia|].
  specialize (IH Hx). lia.
Qed.

Lemma foldr_min_attained (init : Z) (l : list Z) :
  foldr Z.min init l = init \/
  (foldr Z.min init l ∈ l /\ (foldr Z.min init l < init)%Z).
Proof.
  induction l as [|y l IH]; simpl; [left; reflexivity|].
  destruct IH as [Heq|[Hin Hlt]].
  - rewrite Heq. destruct (Z.min_spec y init) as [[Hlt ->]|[Hge ->]].
    + right. split; [left|exact Hlt].
    + left. reflexivity.
  - destruct (Z.min_spec y (foldr Z.min init l)) as [[Hlt' ->]|[Hge ->]].
    + right. split; [left|lia].
    + right. split; [right; exact Hin|exact Hlt].
Qed.

(** X3. [earliestAlertTime] is never later than the fallback nor than any
    non-zero start time among the alerts, and it is the fallback itself
    or the non-zero start time of one of the alerts that lies before the
    fallback. *)
Theorem earliestAlertTime_bounds (payload : GrafanaWebhookPayload.t) (fallback : Time) :
  let earliest := earliestAlertTime payload fallback in
  (earliest <= fallback)%Z /\
  (forall alert,
      alert ∈ GrafanaWebhookPayload.Alerts payload ->
      GrafanaAlert.StartsAt alert <> 0%Z ->
      (earliest <= GrafanaAlert.StartsAt alert)%Z) /\
  (earliest = fallback \/
   exists alert,
     alert ∈ GrafanaWebhookPayload.Alerts payload /\
     GrafanaAlert.StartsAt alert = earliest /\
     earliest <> 0%Z /\
     (earliest < fallback)%Z).
Proof.
  cbv zeta. rewrite earliestAlertTime_min.
  set (starts := filter (fun t => t <> 0%Z)
                   (map GrafanaAlert.StartsAt (GrafanaWebhookPayload.Alerts payload))).
  split; [apply foldr_min_le_init|]. split.
  - intros alert Hin Hnz. apply foldr_min_le_elem.
    subst starts. apply list_elem_of_filter. split; [exact Hnz|].
    apply list_elem_of_fmap. exists alert. auto.
  - destruct (foldr_min_attained fallback starts) as [Heq|[Hin Hlt]]; [left; exact Heq|].
    right. subst starts.
    apply list_elem_of_filter in Hin as [Hnz Hin].
    apply list_elem_of_fmap in Hin as (alert & Heq & Halert).
    exists alert. auto.
Qed.

(** X4. The earliest alert time does not depend on the order of the
    alerts in the payload. *)
Theorem earliestAlertTime_order_independent
    (p q : GrafanaWebhookPayload.t) (fallback : Time) :
  Permutation (GrafanaWebhookPayload.Alerts p) (GrafanaWebhookPayload.Alerts q) ->
  earliestAlertTime p fallback = earliestAlertTime q fallback.
Proof.
  intros Hperm. rewrite !earliestAlertTime_min.
  apply (foldr_permutation (=) Z.min fallback).
  - intros a b c. lia.
  - apply filter_Permutation, fmap_Permutation, Hperm.
Qed.

Lemma earliestAlertTime_order_independent_witness :
  earliestAlertTime
    (Scenario.payloadOf "g" [Scenario.firingAlert 7%Z; Scenario.firingAlert 0%Z; Scenario.firingAlert 3%Z])
    10%Z
  = earliestAlertTime
    (Scenario.payloadOf "g" [Scenario.firingAlert 3%Z; Scenario.firingAlert 7%Z; Scenario.firingAlert 0%Z])
    10%Z.
Proof.
  apply earliestAlertTime_order_independent. simpl.
  symmetry.
  apply (Permutation_cons_append [Scenario.firingAlert 7%Z; Scenario.firingAlert 0%Z]).
Defined.

(** X5. For a job without alerts and a non-blank Prometheus URL, every
    configured query is evaluated at the clock reading taken when
    collection starts: the lookback is not applied and the clock is read
    once. *)
Theorem query_time_without_alerts (E : Env) (s : server.t) (job : analysisJob.t) (w : World) :
  GrafanaWebhookPayload.Alerts (analysisJob.Payload job) = [] ->
  TrimSpace (Config.PrometheusURL (server.cfg s)) <> "" ->
  anchorQueryTime E s job w
    = Return (wall (now E (ticks w))) (set_ticks (S (ticks w)) w) /\
  exists w',
    collectMetrics E s job w
    = Return (Some (map (snapshotFor E s (S (ticks w)) (wall (now E (ticks w))))
                      (Config.MetricQueries (server.cfg s))), None) w' /\
    ticks w' = S (ticks w).
Proof.
  intros Hnone Hurl.
  assert (Hanchor : anchorQueryTime E s job w
                    = Return (wall (now E (ticks w))) (set_ticks (S (ticks w)) w)).
  { rewrite anchorQueryTime_unfold, Hnone. reflexivity. }
  split; [exact Hanchor|].
  unfold collectMetrics.
  destruct (is_empty (TrimSpace (Config.PrometheusURL (server.cfg s)))) eqn:Hblank.
  { apply is_empty_true in Hblank. contradiction. }
  unfold bind. rewrite Hanchor.
  destruct (collectLoop_spec E s (wall (now E (ticks w)))
              (Config.MetricQueries (server.cfg s)) [] (set_ticks (S (ticks w)) w))
    as (w' & Hloop & Ht & _).
  rewrite Hloop. exists w'. split; [reflexivity|exact Ht].
Qed.

Lemma query_time_without_alerts_witness :
  anchorQueryTime Scenario.E0 Scenario.s3 (Scenario.jobAt "quiet" Scenario.base [])
    Scenario.w3
  = Return Scenario.base (set_ticks 1 Scenario.w3).
Proof.
  apply (query_time_without_alerts Scenario.E0 Scenario.s3
           (Scenario.jobAt "quiet" Scenario.base []) Scenario.w3).
  - reflexivity.
  - discriminate.
Defined.

(** ** Building the adapters *)

Lemma is_empty_false (s : string) : is_empty s = false <-> s <> "".
Proof. destruct s; simpl; split; congruence. Qed.

Ltac case_empty s H :=
  destruct (is_empty s) eqn:H;
  [apply is_empty_true in H|apply is_empty_false in H].

Lemma newOpenAIProvider_iff (E : Env) (cfg : BackendConfig.t) :
  (exists p, newOpenAIProvider E cfg = Ok p) <->
  BackendConfig.Model cfg <> "" /\
  BackendConfig.APIKeyEnv cfg <> "" /\
  TrimSpace (Getenv E (BackendConfig.APIKeyEnv cfg)) <> "".
Proof.
  unfold newOpenAIProvider.
  case_empty (BackendConfig.Model cfg) Hm.
  { split; [intros [p H]; discriminate|intros [H _]; contradiction]. }
  case_empty (BackendConfig.APIKeyEnv cfg) Hk; simpl.
  { split; [intros [p H]; discriminate|intros (_ & H & _); contradiction]. }
  case_empty (TrimSpace (Getenv E (BackendConfig.APIKeyEnv cfg))) Hv.
  { split; [intros [p H]; discriminate|intros (_ & _ & H); contradiction]. }
  split; [auto|eauto].
Qed.

Lemma newOllamaProvider_iff (E : Env) (cfg : BackendConfig.t) :
  (exists p, newOllamaProvider E cfg = Ok p) <-> BackendConfig.Model cfg <> "".
Proof.
  unfold newOllamaProvider.
  case_empty (BackendConfig.Model cfg) Hm.
  - split; [intros [p H]; discriminate|contradiction].
  - split; [auto|eauto].
Qed.

Lemma newBedrockProvider_iff (E : Env) (cfg : BackendConfig.t) :
  (exists p, newBedrockProvider E cfg = Ok p) <->
  BackendConfig.Model cfg <> "" /\
  (BackendConfig.Region cfg <> "" \/ TrimSpace (Getenv E "AWS_REGION") <> "").
Proof.
  unfold newBedrockProvider.
  case_empty (BackendConfig.Model cfg) Hm.
  { split; [intros [p H]; discriminate|intros [H _]; contradiction]. }
  case_empty (BackendConfig.Region cfg) Hr.
  - case_empty (TrimSpace (Getenv E "AWS_REGION")) Ha.
    + split; [intros [p H]; discriminate|intros (_ & [H|H]); contradiction].
    + split; [auto|eauto].
  - apply is_empty_false in Hr. rewrite Hr. apply is_empty_false in Hr.
    split; [auto|eauto].
Qed.

(** X6. [buildProvider] succeeds exactly when the model is set and the
    type is one of the three families with what that family needs: for
    [openai] (or an empty type) a key variable whose value is not blank,
    for [bedrock] a region in the configuration or in [AWS_REGION];
    [ollama] needs nothing more. *)
Theorem buildProvider_succeeds_iff (E : Env) (cfg : BackendConfig.t) :
  (exists p, buildProvider E cfg = Ok p) <->
  BackendConfig.Model cfg <> "" /\
  (((BackendConfig.Type_ cfg = "" \/ BackendConfig.Type_ cfg = "openai") /\
    BackendConfig.APIKeyEnv cfg <> "" /\
    TrimSpace (Getenv E (BackendConfig.APIKeyEnv cfg)) <> "") \/
   BackendConfig.Type_ cfg = "ollama" \/
   (BackendConfig.Type_ cfg = "bedrock" /\
    (BackendConfig.Region cfg <> "" \/ TrimSpace (Getenv E "AWS_REGION") <> ""))).
Proof.
  unfold buildProvider.
  destruct (String.eqb_spec (BackendConfig.Type_ cfg) "") as [Ht0|Ht0];
  destruct (String.eqb_spec (BackendConfig.Type_ cfg) "openai") as [Ht1|Ht1];
  destruct (String.eqb_spec (BackendConfig.Type_ cfg) "ollama") as [Ht2|Ht2];
  destruct (String.eqb_spec (BackendConfig.Type_ cfg) "bedrock") as [Ht3|Ht3];
  try congruence; simpl.
  - rewrite newOpenAIProvider_iff. intuition congruence.
  - rewrite newOpenAIProvider_iff. intuition congruence.
  - rewrite newOllamaProvider_iff. intuition congruence.
  - rewrite newBedrockProvider_iff. intuition congruence.
  - split; [intros [p H]; discriminate|intuition congruence].
Qed.

Lemma buildProvider_identity_aux (E : Env) (cfg : BackendConfig.t) (p : LLMProvider) :
  buildProvider E cfg = Ok p -> Name p = BackendConfig.Name cfg.
Proof.
  unfold buildProvider, newOpenAIProvider, newOllamaProvider, newBedrockProvider.
  repeat match goal with |- context [if ?b then _ else _] => destruct b end;
    intros [= <-]; reflexivity.
Qed.

(** X7. An adapter that was built carries the name and the model of its
    configuration, a non-empty model, and the family the type names; an
    [openai] adapter holds the trimmed, non-empty value of its key
    variable and a [bedrock] adapter a non-empty region. *)
Theorem buildProvider_identity (E : Env) (cfg : BackendConfig.t) (p : LLMProvider) :
  buildProvider E cfg = Ok p ->
  Name p = BackendConfig.Name cfg /\
  Model p = BackendConfig.Model cfg /\
  Model p <> "" /\
  match p with
  | OpenAI q =>
      (BackendConfig.Type_ cfg = "" \/ BackendConfig.Type_ cfg = "openai") /\
      Type_ p = "openai" /\
      openAIProvider.apiKey q = TrimSpace (Getenv E (BackendConfig.APIKeyEnv cfg)) /\
      openAIProvider.apiKey q <> ""
  | Ollama q => BackendConfig.Type_ cfg = "ollama" /\ Type_ p = "ollama"
  | Bedrock q =>
      BackendConfig.Type_ cfg = "bedrock" /\ Type_ p = "bedrock" /\
      bedrockProvider.region q <> ""
  end.
Proof.
  unfold buildProvider, newOpenAIProvider, newOllamaProvider, newBedrockProvider.
  destruct (String.eqb_spec (BackendConfig.Type_ cfg) "") as [Ht0|Ht0];
  destruct (String.eqb_spec (BackendConfig.Type_ cfg) "openai") as [Ht1|Ht1];
  destruct (String.eqb_spec (BackendConfig.Type_ cfg) "ollama") as [Ht2|Ht2];
  destruct (String.eqb_spec (BackendConfig.Type_ cfg) "bedrock") as [Ht3|Ht3];
  try congruence; simpl;
  (case_empty (BackendConfig.Model cfg) Hm; [discriminate|]); try discriminate.
  - case_empty (BackendConfig.APIKeyEnv cfg) Hk; simpl; [discriminate|].
    case_empty (TrimSpace (Getenv E (BackendConfig.APIKeyEnv cfg))) Hv; [discriminate|].
    intros [= <-]. simpl. auto 10.
  - case_empty (BackendConfig.APIKeyEnv cfg) Hk; simpl; [discriminate|].
    case_empty (TrimSpace (Getenv E (BackendConfig.APIKeyEnv cfg))) Hv; [discriminate|].
    intros [= <-]. simpl. auto 10.
  - intros [= <-]. simpl. auto.
  - case_empty (BackendConfig.Region cfg) Hr.
    + case_empty (TrimSpace (Getenv E "AWS_REGION")) Ha; [discriminate|].
      intros [= <-]. simpl. auto 10.
    + apply is_empty_false in Hr. rewrite Hr. apply is_empty_false in Hr.
      intros [= <-]. simpl. auto 10.
Qed.

Lemma buildProvider_identity_witness :
  exists p,
    buildProvider Scenario.E0 (Scenario.backend "fast" 0) = Ok p /\
    Name p = "fast" /\ Type_ p = "ollama" /\ Model p = "llama3".
Proof.
  eexists. split; [reflexivity|].
  match goal with
  | |- Name ?p = _ /\ _ =>
      destruct (buildProvider_identity Scenario.E0 (Scenario.backend "fast" 0) p eq_refl)
        as (Hn & Hm & _ & _ & Ht)
  end.
  split; [exact Hn|]. split; [exact Ht|exact Hm].
Defined.

(** X8. [buildProviders] is all or nothing and keeps the configuration
    order: when it succeeds there is one adapter per backend, the adapter
    at index [i] is the one built from the backend at index [i], and the
    names are those of the configuration in order; when any backend
    cannot be built it fails. *)
Theorem buildProviders_keeps_order (E : Env) (backends : list BackendConfig.t) :
  (forall providers,
      buildProviders E backends = Ok providers ->
      length providers = length backends /\
      map Name providers = map BackendConfig.Name backends /\
      forall i backend,
        backends !! i = Some backend ->
        exists p, providers !! i = Some p /\ buildProvider E backend = Ok p) /\
  (forall i backend m,
      backends !! i = Some backend ->
      buildProvider E backend = Err m ->
      exists m', buildProviders E backends = Err m').
Proof.
  induction backends as [|b rest [IHok IHerr]]; simpl.
  - split.
    + intros providers [= <-]. repeat split. intros i backend H. discriminate.
    + intros i backend m H. discriminate.
  - split.
    + intros providers.
      destruct (buildProvider E b) as [p|m] eqn:Hb; [|discriminate].
      destruct (buildProviders E rest) as [ps|m]; [|discriminate].
      intros [= <-]. destruct (IHok ps eq_refl) as (Hlen & Hnames & Hslots).
      split; [simpl; congruence|]. split.
      * simpl. f_equal; [|exact Hnames].
        apply buildProvider_identity_aux in Hb. exact Hb.
      * intros [|i] backend Hi; simpl in *.
        -- injection Hi as <-. exists p. auto.
        -- apply Hslots. exact Hi.
    + intros [|i] backend m Hi Hfail; simpl in Hi.
      * injection Hi as <-. rewrite Hfail. eauto.
      * destruct (buildProvider E b) as [p|m0]; [|eauto].
        destruct (IHerr i backend m Hi Hfail) as [m' ->]. eauto.
Qed.

(** ** Adapter overrides, again *)

(** X9. Customising a request twice with the same adapter is the same as
    customising it once. *)
Theorem PrepareRequest_idempotent (p : LLMProvider) (req : LLMRequest.t) :
  PrepareRequest p (PrepareRequest p req) = PrepareRequest p req.
Proof.
  rewrite !PrepareRequest_unfold.
  unfold applyProviderOverrides.
  destruct (negb (is_empty (TrimSpace (configuredSystemPrompt p)))),
           (0 <? configuredMaxTokens p)%Z,
           (PrimFloat.ltb 0 (configuredTemperature p));
    destruct req; reflexivity.
Qed.

(** After the normalisation of [parseBackends] a backend has a
    non-empty type and name, a token limit other than zero and a
    temperature that does not compare equal to zero; a name, token limit
    or temperature that was set is kept, and so are the remaining
    fields. *)
Lemma normalizeBackend_fills_defaults (E : Env) (b : BackendConfig.t) :
  let b' := normalizeBackend E b in
  BackendConfig.Type_ b' <> "" /\
  BackendConfig.Name b' <> "" /\
  BackendConfig.MaxTokens b' <> 0%Z /\
  PrimFloat.eqb (BackendConfig.Temperature b') 0 = false /\
  (ToLower E (TrimSpace (BackendConfig.Type_ b)) = "" -> BackendConfig.Type_ b' = "openai") /\
  (BackendConfig.Name b = "" -> BackendConfig.Name b' = BackendConfig.Type_ b') /\
  (BackendConfig.Name b <> "" -> BackendConfig.Name b' = BackendConfig.Name b) /\
  (BackendConfig.MaxTokens b = 0%Z -> BackendConfig.MaxTokens b' = 900%Z) /\
  (BackendConfig.MaxTokens b <> 0%Z -> BackendConfig.MaxTokens b' = BackendConfig.MaxTokens b) /\
  (PrimFloat.eqb (BackendConfig.Temperature b) 0 = true ->
     BackendConfig.Temperature b' = float_0_2) /\
  (PrimFloat.eqb (BackendConfig.Temperature b) 0 = false ->
     BackendConfig.Temperature b' = BackendConfig.Temperature b) /\
  BackendConfig.Model b' = BackendConfig.Model b /\
  BackendConfig.BaseURL b' = BackendConfig.BaseURL b /\
  BackendConfig.APIKeyEnv b' = BackendConfig.APIKeyEnv b /\
  BackendConfig.Region b' = BackendConfig.Region b /\
  BackendConfig.SystemPrompt b' = BackendConfig.SystemPrompt b.
Proof.
  cbv zeta. unfold normalizeBackend. simpl.
  set (ty := ToLower E (TrimSpace (BackendConfig.Type_ b))).
  assert (Hty : (if is_empty ty then "openai" else ty) <> "").
  { case_empty ty Hty; [discriminate|exact Hty]. }
  split; [exact Hty|]. split.
  { case_empty (BackendConfig.Name b) Hn; [exact Hty|exact Hn]. }
  split.
  { destruct (Z.eqb_spec (BackendConfig.MaxTokens b) 0); [discriminate|assumption]. }
  split.
  { destruct (PrimFloat.eqb (BackendConfig.Temperature b) 0) eqn:Ht;
      [vm_compute; reflexivity|exact Ht]. }
  split.
  { intros ->. reflexivity. }
  split.
  { intros ->. reflexivity. }
  split.
  { intros Hn. apply is_empty_false in Hn. rewrite Hn. reflexivity. }
  split.
  { intros ->. reflexivity. }
  split.
  { intros Hm. destruct (Z.eqb_spec (BackendConfig.MaxTokens b) 0); [contradiction|reflexivity]. }
  split.
  { intros ->. reflexivity. }
  split.
  { intros ->. reflexivity. }
  repeat split.
Qed.

(** X10. A backend whose configuration omits the token limit and the
    temperature does not inherit the caller's values: once normalised and
    built, its adapter sets the token limit of every request to 900 and
    the temperature to 0.2.  More generally a backend with a token limit
    of zero or more always imposes its own (or 900). *)
Theorem omitted_limits_are_not_inherited (E : Env) (b : BackendConfig.t)
    (p : LLMProvider) (req : LLMRequest.t) :
  buildProvider E (normalizeBackend E b) = Ok p ->
  (0 <= BackendConfig.MaxTokens b)%Z ->
  LLMRequest.MaxTokens (PrepareRequest p req)
    = (if (BackendConfig.MaxTokens b =? 0)%Z then 900%Z else BackendConfig.MaxTokens b) /\
  (PrimFloat.eqb (BackendConfig.Temperature b) 0 = true ->
   LLMRequest.Temperature (PrepareRequest p req) = float_0_2).
Proof.
  intros Hbuild Hnonneg.
  assert (Hcfg : configuredMaxTokens p = BackendConfig.MaxTokens (normalizeBackend E b) /\
                 configuredTemperature p = BackendConfig.Temperature (normalizeBackend E b)).
  { revert Hbuild. unfold buildProvider, newOpenAIProvider, newOllamaProvider,
      newBedrockProvider.
    repeat match goal with |- context [if ?c then _ else _] => destruct c end;
      intros [= <-]; split; reflexivity. }
  destruct Hcfg as [Hmax Htemp].
  rewrite PrepareRequest_unfold.
  destruct (overrides_spec req (configuredSystemPrompt p) (configuredMaxTokens p)
              (configuredTemperature p)) as (_ & _ & Hm & Ht).
  rewrite Hm, Ht, Hmax, Htemp. simpl.
  split.
  - destruct (Z.eqb_spec (BackendConfig.MaxTokens b) 0) as [Hz|Hnz]; [reflexivity|].
    destruct (Z.ltb_spec 0 (BackendConfig.MaxTokens b)); [reflexivity|lia].
  - intros ->. reflexivity.
Qed.

Lemma omitted_limits_are_not_inherited_witness :
  exists p,
    buildProvider Scenario.E0 (normalizeBackend Scenario.E0 (Scenario.backend "fast" 0)) = Ok p /\
    forall req,
      LLMRequest.MaxTokens (PrepareRequest p req) = 900%Z /\
      LLMRequest.Temperature (PrepareRequest p req) = float_0_2.
Proof.
  eexists. split; [reflexivity|]. intros req.
  match goal with
  | |- context [PrepareRequest ?p req] =>
      destruct (omitted_limits_are_not_inherited Scenario.E0 (Scenario.backend "fast" 0)
                  p req eq_refl) as [Hm Ht]; [simpl; lia|]
  end.
  split; [exact Hm|apply Ht; reflexivity].
Defined.

(** ** Trailing slashes *)

Lemma list_ascii_of_append (a b : string) :
  list_ascii_of_string (a +:+ b) = list_ascii_of_string a ++ list_ascii_of_string b.
Proof. induction a as [|c a IH]; simpl; [reflexivity|]. rewrite IH. reflexivity. Qed.

Lemma dropLeadingSlashes_spec (r : string) :
  exists k,
    list_ascii_of_string r = k ++ list_ascii_of_string (dropLeadingSlashes r) /\
    Forall (fun c => c = "/"%char) k /\
    forall rest, list_ascii_of_string (dropLeadingSlashes r) <> "/"%char :: rest.
Proof.
  induction r as [|c r (k & Hk & Hall & Hhead)]; simpl.
  - exists []. split; [reflexivity|]. split; [constructor|]. intros rest H. discriminate.
  - destruct (Ascii.eqb_spec c "/") as [->|Hne].
    + exists ("/"%char :: k). split; [simpl; rewrite Hk; reflexivity|].
      split; [constructor; [reflexivity|exact Hall]|exact Hhead].
    + exists []. split; [reflexivity|]. split; [constructor|].
      simpl. intros rest [= H _]. contradiction.
Qed.

(** X11. The base URL that [NewPrometheusClient] keeps never ends in a
    slash, and the URL it was given is that base URL followed by
    slashes only. *)
Theorem NewPrometheusClient_strips_slashes (url : string) (timeout : Duration) :
  let base := PrometheusClient.baseURL (NewPrometheusClient url timeout) in
  (forall t, base <> t +:+ "/") /\
  exists k,
    url = base +:+ k /\
    Forall (fun c => c = "/"%char) (list_ascii_of_string k).
Proof.
  cbv zeta. unfold NewPrometheusClient, TrimRightSlash, Strings.rev. simpl.
  set (r := string_of_list_ascii (reverse (list_ascii_of_string url))).
  destruct (dropLeadingSlashes_spec r) as (k & Hk & Hall & Hhead).
  set (d := dropLeadingSlashes r) in *.
  split.
  - intros t Heq. apply (f_equal list_ascii_of_string) in Heq.
    rewrite list_ascii_of_string_of_list_ascii, list_ascii_of_append in Heq.
    apply (f_equal reverse) in Heq.
    rewrite reverse_involutive, reverse_app in Heq. simpl in Heq.
    apply (Hhead _ Heq).
  - exists (string_of_list_ascii (reverse k)).
    rewrite list_ascii_of_string_of_list_ascii.
    split; [|apply Forall_reverse; exact Hall].
    subst r. rewrite list_ascii_of_string_of_list_ascii in Hk.
    apply (f_equal reverse) in Hk. rewrite reverse_involutive, reverse_app in Hk.
    rewrite <- (string_of_list_ascii_of_string url), Hk.
    rewrite <- (string_of_list_ascii_of_string
                  (string_of_list_ascii (reverse (list_ascii_of_string d))
                   +:+ string_of_list_ascii (reverse k))).
    rewrite list_ascii_of_append, !list_ascii_of_string_of_list_ascii. reflexivity.
Qed.

(** ** Loading the configuration *)

(** X12. The Prometheus URL of a loaded configuration is never blank and
    carries no surrounding white space; it is the default whenever
    [PROMETHEUS_URL] is unset or blank. *)
Theorem loaded_url_is_trimmed (E : Env) (P : Parsers) (cfg : Config.t) :
  loadConfig E P = Ok cfg ->
  Config.PrometheusURL cfg <> "" /\
  TrimSpace (Config.PrometheusURL cfg) = Config.PrometheusURL cfg /\
  (TrimSpace (Getenv E "PROMETHEUS_URL") = "" ->
   Config.PrometheusURL cfg = "http://host.k3d.internal:9090") /\
  (TrimSpace (Getenv E "PROMETHEUS_URL") <> "" ->
   Config.PrometheusURL cfg = TrimSpace (Getenv E "PROMETHEUS_URL")).
Proof.
  unfold loadConfig.
  destruct (parseBackends E _) as [backends|m]; [|discriminate].
  destruct (if negb _ then _ else _) as [queries|m]; [|discriminate].
  intros [= <-]. simpl. unfold envString.
  case_empty (TrimSpace (Getenv E "PROMETHEUS_URL")) Hv; simpl.
  - split; [discriminate|]. split; [reflexivity|]. split; [reflexivity|contradiction].
  - split; [exact Hv|]. split; [apply TrimSpace_idempotent|].
    split; [contradiction|reflexivity].
Qed.

Lemma loaded_url_is_trimmed_witness :
  Config.PrometheusURL Scenario.cfg_loaded = "http://host.k3d.internal:9090".
Proof.
  destruct (loaded_url_is_trimmed Scenario.E0 Scenario.parsers Scenario.cfg_loaded)
    as (_ & _ & Hdefault & _).
  - vm_compute. reflexivity.
  - apply Hdefault. reflexivity.
Defined.

(** [envInt] and [envDuration] never fail: a variable that is unset,
    blank or not parsable silently yields the default, and any other
    value is the parsed, trimmed text of the variable. *)
Lemma env_numbers_fall_back (E : Env) (P : Parsers) (key : string)
    (defaultInt : Z) (defaultDuration : Duration) :
  let v := TrimSpace (Getenv E key) in
  (v = "" ->
     envInt E P key defaultInt = defaultInt /\
     envDuration E P key defaultDuration = defaultDuration) /\
  (environ E !! key = None ->
     envInt E P key defaultInt = defaultInt /\
     envDuration E P key defaultDuration = defaultDuration) /\
  (forall m, Atoi P v = Err m -> envInt E P key defaultInt = defaultInt) /\
  (forall m, ParseDuration P v = Err m ->
     envDuration E P key defaultDuration = defaultDuration) /\
  (forall n, v <> "" -> Atoi P v = Ok n -> envInt E P key defaultInt = n) /\
  (forall d, v <> "" -> ParseDuration P v = Ok d ->
     envDuration E P key defaultDuration = d).
Proof.
  cbv zeta. unfold envInt, envDuration.
  split; [intros ->; auto|].
  split.
  { intros Hnone. unfold Getenv. rewrite Hnone. simpl. auto. }
  split.
  { intros m ->. destruct (negb _); reflexivity. }
  split.
  { intros m ->. destruct (negb _); reflexivity. }
  split.
  { intros n Hv ->. apply is_empty_false in Hv. rewrite Hv. reflexivity. }
  intros d Hv ->. apply is_empty_false in Hv. rewrite Hv. reflexivity.
Qed.

(** X13. [promDuration] renders whole hours as hours, otherwise whole
    minutes as minutes, otherwise whole seconds truncated toward zero: a
    positive lookback below one second is rendered as zero seconds and a
    lookback of zero as zero hours. *)
Theorem promDuration_units (d : Duration) :
  (forall k, d = (k * hour)%Z -> promDuration d = itoa k +:+ "h") /\
  (forall k, d = (k * minute)%Z -> Z.rem k 60 <> 0%Z -> promDuration d = itoa k +:+ "m") /\
  (Z.rem d minute <> 0%Z -> promDuration d = itoa (d ÷ second) +:+ "s") /\
  ((0 < d < second)%Z -> promDuration d = "0s") /\
  (d = 0%Z -> promDuration d = "0h").
Proof.
  unfold promDuration, hour, minute, second.
  split; [|split; [|split; [|split]]].
  - intros k ->. rewrite Z.rem_mul by lia. simpl.
    rewrite Z.quot_mul by lia. reflexivity.
  - intros k -> Hk.
    assert (Hh : Z.rem (k * (60 * 1000000000)) (60 * (60 * 1000000000)) <> 0%Z).
    { intros H. apply Hk.
      replace (60 * (60 * 1000000000))%Z with ((60 * 1000000000) * 60)%Z in H by lia.
      rewrite Z.mul_comm in H.
      rewrite Z.mul_rem_distr_l in H by lia. lia. }
    destruct (Z.eqb_spec (Z.rem (k * (60 * 1000000000)) (60 * (60 * 1000000000))) 0);
      [contradiction|].
    rewrite Z.rem_mul by lia. simpl. rewrite Z.quot_mul by lia. reflexivity.
  - intros Hm.
    assert (Hh : Z.rem d (60 * (60 * 1000000000)) <> 0%Z).
    { intros H. apply Hm.
      apply Z.rem_divide in H; [|lia]. apply Z.rem_divide; [lia|].
      destruct H as [q ->]. exists (q * 60)%Z. lia. }
    destruct (Z.eqb_spec (Z.rem d (60 * (60 * 1000000000))) 0); [contradiction|].
    destruct (Z.eqb_spec (Z.rem d (60 * 1000000000)) 0); [contradiction|reflexivity].
  - intros [Hpos Hlt].
    rewrite (Z.rem_small d (60 * (60 * 1000000000))) by lia.
    destruct (Z.eqb_spec d 0); [lia|].
    rewrite (Z.rem_small d (60 * 1000000000)) by lia.
    destruct (Z.eqb_spec d 0); [lia|].
    rewrite Z.quot_small by lia. reflexivity.
  - intros ->. reflexivity.
Qed.

(** X14. [loadConfig] does not check the range of [MAX_STORED_ANALYSES].
    When the variable parses to a negative number and the service
    starts, that number is the capacity of the store, which starts
    empty.  In every state whose store has that capacity [processJob]
    then runs enrichment and fan-out to their end, counts the job as
    processed, and panics in [add], which has put the record, with the
    snapshots and the backend results of the job, in front of the
    stored ones by then. *)
Theorem unchecked_store_capacity_panics (E : Env) (P : Parsers) (n : Z)
    (s : server.t) (w0 : World) (id : Z) (job : analysisJob.t) (w : World) :
  TrimSpace (Getenv E "MAX_STORED_ANALYSES") <> "" ->
  Atoi P (TrimSpace (Getenv E "MAX_STORED_ANALYSES")) = Ok n ->
  (n < 0)%Z ->
  startup E P = Ok (s, w0) ->
  analysisStore.max (store w) = analysisStore.max (store w0) ->
  Config.MaxStoredAnalyses (server.cfg s) = n /\
  analysisStore.max (store w0) = n /\
  analysisStore.items (store w0) = [] /\
  exists metrics wm results wp w' record,
    collectMetrics E s job (set_ticks (S (ticks w)) w) = Return (metrics, None) wm /\
    (if (length (server.providers s) =? 0)%nat
     then ret [noBackendResult]
     else runProviders E s job metrics) wm = Return results wp /\
    processJob E s id job w = Panic "slice bounds out of range" w' /\
    jobResultsTotal w' = Inc "processed" (jobResultsTotal w) /\
    providerRequestsTotal w' = providerRequestsTotal wp /\
    analysisStore.max (store w') = n /\
    analysisStore.items (store w') = record :: analysisStore.items (store w) /\
    analysisRecord.ID record = analysisJob.ID job /\
    analysisRecord.Metrics record = metrics /\
    analysisRecord.Providers record = results.
Proof.
  intros Hset Hparse Hneg Hstart Hsame.
  assert (Hcap : Config.MaxStoredAnalyses (server.cfg s) = n /\
                 analysisStore.max (store w0) = n /\
                 analysisStore.items (store w0) = []).
  { revert Hstart. unfold startup, newServer, loadConfig.
    destruct (parseBackends E _) as [backends|m]; [|discriminate].
    destruct (if negb _ then _ else _) as [queries|m]; [|discriminate].
    simpl. destruct (buildProviders E backends) as [providers|m]; [|discriminate].
    destruct (envInt E P "JOB_QUEUE_SIZE" 32 <? 0)%Z; [discriminate|].
    intros [= <- <-]. simpl.
    unfold envInt. apply is_empty_false in Hset. rewrite Hset, Hparse. auto. }
  destruct Hcap as (Hcfg & Hstore & Hempty).
  split; [exact Hcfg|]. split; [exact Hstore|]. split; [exact Hempty|].
  destruct (assembleRecord_spec E s job w)
    as (metrics & wm & results & wp & Hcollect & Hrun & Hasm & _).
  destruct (processJob_spec E s id job w) as (record & start & w1 & Hasm' & _ & Hadd).
  rewrite Hasm in Hasm'. injection Hasm' as <- <- <-.
  rewrite add_panics in Hadd by lia.
  destruct Hadd as (w' & Hpanic & Hst & _ & Hcount & Hreq).
  exists metrics, wm, results, wp, w'. eexists.
  split; [exact Hcollect|]. split; [exact Hrun|]. split; [exact Hpanic|].
  split; [exact Hcount|]. split; [exact Hreq|].
  rewrite Hst. simpl.
  split; [congruence|]. split; [reflexivity|].
  split; [reflexivity|]. split; reflexivity.
Qed.

Lemma unchecked_store_capacity_panics_witness :
  exists w' record,
    processJob Misconfigured.E_neg (fst Misconfigured.started) 1 Scenario.job1
      (snd Misconfigured.started)
    = Panic "slice bounds out of range" w' /\
    analysisStore.items (store w') = [record] /\
    analysisRecord.ID record = "grp" /\
    map ProviderResult.Error (analysisRecord.Providers record)
    = ["no LLM backends configured"].
Proof.
  destruct (unchecked_store_capacity_panics Misconfigured.E_neg Misconfigured.parsers
              (-1) (fst Misconfigured.started) (snd Misconfigured.started) 1
              Scenario.job1 (snd Misconfigured.started))
    as (_ & _ & _ & metrics & wm & results & wp & w' & record
        & _ & Hrun & Hpanic & _ & _ & _ & Hitems & Hid & _ & Hprov).
  - vm_compute. discriminate.
  - vm_compute. reflexivity.
  - lia.
  - vm_compute. reflexivity.
  - reflexivity.
  - exists w', record. split; [exact Hpanic|]. split; [exact Hitems|].
    split; [exact Hid|]. rewrite Hprov.
    vm_compute in Hrun. injection Hrun as <- _. reflexivity.
Defined.

(** ** Instant queries *)

(** X15. [InstantQuery] reports success only for an exchange that
    produced a response with a status below 300 whose body decodes to an
    answer with status [success]; the snapshot then carries the query's
    name, description and expression, the result type of the answer and
    no error. *)
Theorem InstantQuery_success_requires (E : Env) (p : PrometheusClient.t) (moment : nat)
    (query : MetricQuery.t) (queryTime : Time) (snapshot : MetricSnapshot.t) :
  InstantQuery E p moment query queryTime = Ok snapshot ->
  exists status body resp,
    promRoundTrip E moment (PrometheusClient.baseURL p) (MetricQuery.Query query) queryTime
      = PromResponse status body /\
    (status < 300)%Z /\
    unmarshalApiResp E body = Ok resp /\
    apiResp.Status resp = "success" /\
    MetricSnapshot.ResultType snapshot = apiResp.ResultType resp /\
    MetricSnapshot.Name snapshot = MetricQuery.Name query /\
    MetricSnapshot.Description snapshot = MetricQuery.Description query /\
    MetricSnapshot.Query snapshot = MetricQuery.Query query /\
    MetricSnapshot.Error snapshot = "".
Proof.
  unfold InstantQuery.
  destruct (promRoundTrip E moment _ _ queryTime) as [m|m|m|status body] eqn:Hrt;
    try discriminate.
  destruct (Z.leb_spec 300 status) as [|Hstatus]; [discriminate|].
  destruct (unmarshalApiResp E body) as [resp|m] eqn:Hresp; [|discriminate].
  destruct (String.eqb_spec (apiResp.Status resp) "success") as [Hok|]; [|discriminate].
  simpl. intros H. exists status, body, resp.
  split; [reflexivity|]. split; [exact Hstatus|]. split; [exact Hresp|].
  split; [exact Hok|].
  destruct (String.eqb (apiResp.ResultType resp) "scalar").
  - destruct (unmarshalScalar E _) as [raw|m]; [|discriminate].
    destruct raw as [|a [|b [|c raw]]]; injection H as <-; simpl; auto.
  - destruct (String.eqb (apiResp.ResultType resp) "vector").
    + destruct (unmarshalVector E _) as [entries|m]; [|discriminate].
      injection H as <-; simpl; auto.
    + injection H as <-; simpl; auto.
Qed.

Lemma InstantQuery_success_requires_witness :
  exists status body resp,
    promRoundTrip Scenario.E0 0 (PrometheusClient.baseURL (server.prom Scenario.s3))
      "up" Scenario.base = PromResponse status body /\
    (status < 300)%Z /\
    unmarshalApiResp Scenario.E0 body = Ok resp /\
    apiResp.Status resp = "success".
Proof.
  destruct (InstantQuery Scenario.E0 (server.prom Scenario.s3) 0
              (mkQuery "gateway" "gateway reachability" "up") Scenario.base)
    as [snapshot|m] eqn:Hq; [|vm_compute in Hq; discriminate].
  destruct (InstantQuery_success_requires _ _ _ _ _ _ Hq)
    as (status & body & resp & H1 & H2 & H3 & H4 & _).
  exists status, body, resp. auto.
Defined.

(** X16. What an accepted answer becomes.  A vector yields one series
    per entry, in order, with the entry's labels, an entry whose value is
    not a pair yields the empty value, and the summary is that of the
    series ([no series] for none); a vector that does not decode is an
    error.  A scalar that is not a pair yields a snapshot without series
    or summary.  Any other result type yields the raw result as the
    summary. *)
Theorem InstantQuery_shapes (E : Env) (p : PrometheusClient.t) (moment : nat)
    (query : MetricQuery.t) (queryTime : Time) (status : Z) (body : string)
    (resp : apiResp.t) :
  promRoundTrip E moment (PrometheusClient.baseURL p) (MetricQuery.Query query) queryTime
    = PromResponse status body ->
  (status < 300)%Z ->
  unmarshalApiResp E body = Ok resp ->
  apiResp.Status resp = "success" ->
  (apiResp.ResultType resp = "vector" ->
     (forall entries,
         unmarshalVector E (apiResp.Result resp) = Ok entries ->
         exists snapshot,
           InstantQuery E p moment query queryTime = Ok snapshot /\
           map MetricSeries.Labels (MetricSnapshot.Series snapshot)
             = map vectorEntry.Metric entries /\
           (forall i entry,
               entries !! i = Some entry ->
               length (vectorEntry.Value entry) <> 2 ->
               MetricSeries.Value <$> (MetricSnapshot.Series snapshot !! i) = Some "") /\
           MetricSnapshot.Summary snapshot
             = summarizeSeries (MetricSnapshot.Series snapshot) /\
           (entries = [] -> MetricSnapshot.Summary snapshot = "no series")) /\
     (forall m,
         unmarshalVector E (apiResp.Result resp) = Err m ->
         InstantQuery E p moment query queryTime = Err (wrapErr "decode vector result" m))) /\
  (apiResp.ResultType resp = "scalar" ->
     forall raw,
       unmarshalScalar E (apiResp.Result resp) = Ok raw ->
       length raw <> 2 ->
       exists snapshot,
         InstantQuery E p moment query queryTime = Ok snapshot /\
         MetricSnapshot.Series snapshot = [] /\
         MetricSnapshot.Summary snapshot = "") /\
  (apiResp.ResultType resp <> "vector" ->
   apiResp.ResultType resp <> "scalar" ->
     exists snapshot,
       InstantQuery E p moment query queryTime = Ok snapshot /\
       MetricSnapshot.Series snapshot = [] /\
       MetricSnapshot.Summary snapshot = apiResp.Result resp).
Proof.
  intros Hrt Hstatus Hresp Hok.
  unfold InstantQuery. rewrite Hrt.
  destruct (Z.leb_spec 300 status) as [|_]; [lia|].
  rewrite Hresp, Hok. simpl.
  split; [|split].
  - intros ->. simpl. split.
    + intros entries ->. eexists. split; [reflexivity|]. simpl.
      split; [rewrite <- list_fmap_compose; reflexivity|].
      split; [|split; [reflexivity|intros ->; reflexivity]].
      intros i entry Hi Hlen. rewrite list_lookup_fmap, Hi. simpl.
      destruct (vectorEntry.Value entry) as [|a [|b [|c l]]]; simpl in *;
        try reflexivity. lia.
    + intros m ->. reflexivity.
  - intros ->. simpl. intros raw -> Hlen. eexists.
    destruct raw as [|a [|b [|c raw]]]; simpl in Hlen; try lia;
      (split; [reflexivity|split; reflexivity]).
  - intros Hv Hs.
    destruct (String.eqb_spec (apiResp.ResultType resp) "scalar"); [contradiction|].
    destruct (String.eqb_spec (apiResp.ResultType resp) "vector"); [contradiction|].
    eexists. split; [reflexivity|split; reflexivity].
Qed.

Lemma InstantQuery_shapes_witness :
  exists snapshot,
    InstantQuery VectorAnswer.E_vec (server.prom Scenario.s3) 0
      (mkQuery "gateway" "gateway reachability" "up") Scenario.base = Ok snapshot /\
    map MetricSeries.Labels (MetricSnapshot.Series snapshot)
      = map vectorEntry.Metric VectorAnswer.entries /\
    MetricSeries.Value <$> (MetricSnapshot.Series snapshot !! 1) = Some "".
Proof.
  destruct (InstantQuery_shapes VectorAnswer.E_vec (server.prom Scenario.s3) 0
              (mkQuery "gateway" "gateway reachability" "up") Scenario.base
              200 "[]" (VectorAnswer.answer "[]")) as [Hvec _];
    [reflexivity|lia|reflexivity|reflexivity|].
  destruct (Hvec eq_refl) as [Hok _].
  destruct (Hok VectorAnswer.entries eq_refl) as (snapshot & Hrun & Hlabels & Hvalue & _).
  exists snapshot. split; [exact Hrun|]. split; [exact Hlabels|].
  apply (Hvalue 1 {| vectorEntry.Metric := ∅; vectorEntry.Value := [] |});
    [reflexivity|simpl; lia].
Defined.

(** X17. When the exchange with Prometheus fails for every query (the
    backend is unreachable), collection still returns one snapshot per
    configured query, in order.  Each carries the name, description and
    expression of its query, no result type, summary or series, and as
    its error the transport error behind [query Prometheus: ]; the
    collection itself returns no error. *)
Theorem unreachable_backend_recorded_per_query (E : Env) (s : server.t)
    (job : analysisJob.t) (w : World) (msg : string) :
  TrimSpace (Config.PrometheusURL (server.cfg s)) <> "" ->
  (forall moment base expr t, promRoundTrip E moment base expr t = PromDoFailed msg) ->
  exists w',
    collectMetrics E s job w
    = Return (Some (map (fun query =>
                           {| MetricSnapshot.Name := MetricQuery.Name query;
                              MetricSnapshot.Description := MetricQuery.Description query;
                              MetricSnapshot.Query := MetricQuery.Query query;
                              MetricSnapshot.ResultType := "";
                              MetricSnapshot.Summary := "";
                              MetricSnapshot.Series := [];
                              MetricSnapshot.Error := "query Prometheus: " +:+ msg |})
                      (Config.MetricQueries (server.cfg s))), None) w'.
Proof.
  intros Hurl Hdown.
  destruct (collectMetrics_spec E s job w) as (metrics & w' & Hrun & _ & _ & _ & Hnb).
  destruct (Hnb Hurl) as (queryTime & w1 & _ & ->).
  exists w'. rewrite Hrun. do 3 f_equal.
  apply map_ext. intros query.
  unfold snapshotFor, InstantQuery. rewrite Hdown. reflexivity.
Qed.

Lemma unreachable_backend_recorded_per_query_witness :
  exists w',
    collectMetrics Outage.E_down Scenario.s3 Scenario.job1 Scenario.w3
    = Return (Some (map (fun query =>
                           {| MetricSnapshot.Name := MetricQuery.Name query;
                              MetricSnapshot.Description := MetricQuery.Description query;
                              MetricSnapshot.Query := MetricQuery.Query query;
                              MetricSnapshot.ResultType := "";
                              MetricSnapshot.Summary := "";
                              MetricSnapshot.Series := [];
                              MetricSnapshot.Error :=
                                "query Prometheus: connection refused" |})
                      Scenario.queries), None) w'.
Proof.
  apply (unreachable_backend_recorded_per_query Outage.E_down Scenario.s3
           Scenario.job1 Scenario.w3 "connection refused").
  - vm_compute. discriminate.
  - intros moment base expr t. reflexivity.
Defined.

Lemma filter_none {A} (P : A -> Prop) `{forall x, Decision (P x)} (l : list A) :
  (forall x, x ∈ l -> ~ P x) -> filter P l = [].
Proof.
  induction l as [|x l IH]; intros Hall; [reflexivity|].
  rewrite filter_cons_False by (apply Hall; left).
  apply IH. intros y Hy. apply Hall. right. exact Hy.
Qed.

(** X18. The summary of no series is [no series]; series that carry no
    label other than [__name__] are summarised by their bare values,
    joined by a semicolon and a space. *)
Theorem summarizeSeries_bare_values (series : list MetricSeries.t) :
  (series = [] -> summarizeSeries series = "no series") /\
  (series <> [] ->
   Forall (fun s => forall k v, MetricSeries.Labels s !! k = Some v -> k = "__name__") series ->
   summarizeSeries series = Join (map MetricSeries.Value series) "; ").
Proof.
  split; [intros ->; reflexivity|].
  intros Hne Hall. unfold summarizeSeries.
  destruct series as [|s0 rest]; [contradiction|]. cbn [length Nat.eqb].
  f_equal. apply Forall_fmap_ext_1.
  eapply Forall_impl; [exact Hall|]. intros s Hs. simpl.
  rewrite filter_none; [reflexivity|].
  intros [k v] Hkv Hk. apply elem_of_map_to_list in Hkv.
  apply Hk. simpl. eapply Hs. exact Hkv.
Qed.

Lemma summarizeSeries_bare_values_witness :
  summarizeSeries
    [ {| MetricSeries.Labels := {[ "__name__" := "up" ]}; MetricSeries.Value := "1" |};
      {| MetricSeries.Labels := ∅; MetricSeries.Value := "0" |} ]
  = "1; 0".
Proof.
  destruct (summarizeSeries_bare_values
              [ {| MetricSeries.Labels := {[ "__name__" := "up" ]}; MetricSeries.Value := "1" |};
                {| MetricSeries.Labels := ∅; MetricSeries.Value := "0" |} ]) as [_ H].
  rewrite H; [reflexivity|discriminate|].
  repeat constructor; simpl.
  - intros k v Hkv. apply lookup_singleton_Some in Hkv as [<- _]. reflexivity.
  - intros k v Hkv. rewrite lookup_empty in Hkv. discriminate.
Defined.

(** ** The queue between admission and the workers *)

(** X19. A webhook never displaces a job that was accepted before it and
    never overfills the queue: the buffered and the handed-over jobs stay
    where they are, at most one job is added behind them, the capacity is
    unchanged, no parked receiver is added, and a buffer within capacity
    stays within capacity. *)
Theorem admission_keeps_queue (E : Env) (s : server.t) (r : Request.t) (w : World) :
  exists response w',
    handleGrafanaWebhook E s r w = Return response w' /\
    Chan.cap (queue w') = Chan.cap (queue w) /\
    Chan.buf (queue w) `prefix_of` Chan.buf (queue w') /\
    Chan.handed (queue w) `prefix_of` Chan.handed (queue w') /\
    pending w' <= S (pending w) /\
    Chan.recvq (queue w') <= Chan.recvq (queue w) /\
    ((Chan.len (queue w) <= Chan.cap (queue w))%Z ->
     (Chan.len (queue w') <= Chan.cap (queue w'))%Z) /\
    (pending w' = S (pending w) <-> exists id n names, response = Queued StatusAccepted id n names).
Proof.
  unfold handleGrafanaWebhook.
  destruct (negb (String.eqb (Request.Method r) "POST")).
  { eexists. exists w. split; [reflexivity|].
    split; [reflexivity|]. split; [reflexivity|]. split; [reflexivity|].
    split; [lia|]. split; [lia|]. split; [auto|].
    split; [lia|intros (id & n & names & H); discriminate]. }
  destruct (decodePayload E (Request.Body r)) as [payload|m].
  2:{ eexists. exists w. split; [reflexivity|].
      split; [reflexivity|]. split; [reflexivity|]. split; [reflexivity|].
      split; [lia|]. split; [lia|]. split; [auto|].
      split; [lia|intros (id & n & names & H); discriminate]. }
  unfold bind, modify, timeNow. simpl.
  match goal with |- context [Chan.trySend ?j (queue w)] => set (job := j) end.
  unfold Chan.trySend, pending, Chan.len.
  destruct (Chan.recvq (queue w)) as [|k] eqn:Hrecv.
  - destruct (Z.ltb_spec (Z.of_nat (length (Chan.buf (queue w)))) (Chan.cap (queue w)))
      as [Hroom|Hfull].
    + eexists. eexists. split; [reflexivity|]. simpl. rewrite length_app. simpl.
      split; [reflexivity|]. split; [apply prefix_app_r; reflexivity|].
      split; [reflexivity|]. split; [lia|]. split; [lia|]. split; [lia|].
      split; [eauto|lia].
    + eexists. eexists. split; [reflexivity|]. simpl.
      split; [reflexivity|]. split; [reflexivity|]. split; [reflexivity|].
      split; [lia|]. split; [lia|]. split; [auto|].
      split; [lia|intros (id & n & names & H); discriminate].
  - eexists. eexists. split; [reflexivity|]. simpl. rewrite length_app. simpl.
    split; [reflexivity|]. split; [reflexivity|].
    split; [apply prefix_app_r; reflexivity|].
    split; [lia|]. split; [lia|]. split; [auto|].
    split; [eauto|lia].
Qed.

Section QueueFacts.
Context (E : Env).

(** Processing a job, whether it returns or panics, leaves the queue, the
    queue depth gauge and the capacity of the store as they were. *)
Lemma processJob_keeps_queue (s : server.t) (id : Z) (job : analysisJob.t) (w : World) :
  let w' := world_of (processJob E s id job w) in
  queue w' = queue w /\
  queueDepthGauge w' = queueDepthGauge w /\
  analysisStore.max (store w') = analysisStore.max (store w).
Proof.
  destruct (assembleRecord_spec E s job w)
    as (metrics & wm & results & wp & _ & _ & Hasm & Hf).
  destruct Hf as (Hq & Hs & _ & _ & Hg & _).
  cbv zeta. unfold processJob, bind. rewrite Hasm.
  unfold timeNow, modify, storeAdd. simpl. rewrite Hs.
  unfold analysisStore.add.
  destruct (_ <? _)%Z; [destruct (_ <? 0)%Z|]; simpl;
    repeat split; simpl; congruence.
Qed.

Lemma processJob_record_key (s : server.t) (id : Z) (job : analysisJob.t) (w : World) :
  exists record start w1,
    assembleRecord E s job w = Return (record, start) w1 /\
    recordKey record = jobKey job /\
    analysisRecord.Error record = "".
Proof.
  destruct (assembleRecord_spec E s job w)
    as (metrics & wm & results & wp & _ & _ & Hasm & _).
  eexists. eexists. eexists. split; [exact Hasm|]. split; reflexivity.
Qed.

Lemma workerLoop_gauge (s : server.t) (id : Z) (fuel : nat) :
  forall w,
    queueDepthGauge w = Z.of_nat (pending w) ->
    let w' := snd (workerLoop E fuel s id w) in
    queueDepthGauge w' = Z.of_nat (pending w').
Proof.
  induction fuel as [|fuel IH]; intros w Hinv; simpl; [exact Hinv|].
  destruct (decide (pending w = 0)) as [Hzero|Hpos].
  - destruct (receive_none w Hzero) as (q & -> & Hq & _). simpl.
    unfold pending. simpl. rewrite Hq. lia.
  - destruct (receive_some w ltac:(lia)) as (job & q & -> & Hq & _).
    set (w1 := set_queueDepthGauge (queueDepthGauge w - 1) (set_queue q w)).
    destruct (processJob_keeps_queue s id job w1) as (Hqueue & Hgauge & _).
    assert (Hinv1 : queueDepthGauge (world_of (processJob E s id job w1))
                    = Z.of_nat (pending (world_of (processJob E s id job w1)))).
    { rewrite Hgauge. unfold pending. rewrite Hqueue. simpl. lia. }
    destruct (processJob E s id job w1) as [[] w2|msg w2]; simpl in *.
    + apply IH. exact Hinv1.
    + exact Hinv1.
Qed.

(** X20. The queue depth gauge tracks the jobs that were accepted and not
    yet picked up: if it equals their number before a webhook or a run of
    a worker, it equals their number afterwards, also when the worker
    run ends in a panic. *)
Theorem queue_depth_gauge_tracks_pending (s : server.t) (w : World) :
  queueDepthGauge w = Z.of_nat (pending w) ->
  (forall r,
      let w' := world_of (handleGrafanaWebhook E s r w) in
      queueDepthGauge w' = Z.of_nat (pending w')) /\
  (forall id,
      let w' := snd (worker E s id w) in
      queueDepthGauge w' = Z.of_nat (pending w')).
Proof.
  intros Hinv. split.
  - intros r. cbv zeta. unfold handleGrafanaWebhook.
    destruct (negb (String.eqb (Request.Method r) "POST")); [exact Hinv|].
    destruct (decodePayload E (Request.Body r)) as [payload|m]; [|exact Hinv].
    unfold bind, modify, timeNow. simpl.
    match goal with |- context [Chan.trySend ?j (queue w)] => set (job := j) end.
    unfold Chan.trySend, pending in *.
    destruct (Chan.recvq (queue w)) as [|k].
    + destruct (Chan.len (queue w) <? Chan.cap (queue w))%Z; simpl;
        [rewrite length_app; simpl; lia|exact Hinv].
    + simpl. rewrite length_app. simpl. lia.
  - intros id. apply workerLoop_gauge. exact Hinv.
Qed.

End QueueFacts.

Lemma queue_depth_gauge_tracks_pending_witness :
  queueDepthGauge (snd (worker Scenario.E0 Scenario.s_neg 1
                          (set_queueDepthGauge 2 Scenario.w_neg))) = 1%Z.
Proof.
  destruct (queue_depth_gauge_tracks_pending Scenario.E0 Scenario.s_neg
              (set_queueDepthGauge 2 Scenario.w_neg) eq_refl) as [_ Hworker].
  rewrite (Hworker 1%Z). vm_compute. reflexivity.
Defined.

Lemma take_app_take {A} (n : nat) (l k : list A) :
  take n (l ++ take n k) = take n (l ++ k).
Proof.
  destruct (decide (n <= length l)) as [Hle|Hgt].
  - rewrite !take_app_le by exact Hle. reflexivity.
  - rewrite !take_app_ge by lia. f_equal. rewrite take_take. f_equal. lia.
Qed.

Lemma receive_head (w : World) (job : analysisJob.t) (rest : list analysisJob.t) :
  pendingJobs w = job :: rest ->
  exists q,
    Chan.receive (queue w) = (Some job, q) /\
    Chan.handed q ++ Chan.buf q = rest.
Proof.
  unfold pendingJobs, Chan.receive.
  destruct (Chan.handed (queue w)) as [|j h]; simpl.
  - destruct (Chan.buf (queue w)) as [|j b]; [discriminate|].
    intros [= -> ->]. eexists. split; reflexivity.
  - intros [= -> <-]. eexists. split; reflexivity.
Qed.

Lemma pending_length (w : World) : pending w = length (pendingJobs w).
Proof. unfold pending, pendingJobs. rewrite length_app. reflexivity. Qed.

Section WorkerOrder.
Context (E : Env).

Lemma workerLoop_keys (s : server.t) (id : Z) (fuel : nat) :
  forall w,
    (0 <= analysisStore.max (store w))%Z ->
    length (analysisStore.items (store w)) <= Z.to_nat (analysisStore.max (store w)) ->
    length (pendingJobs w) < fuel ->
    exists w',
      workerLoop E fuel s id w = (Parked, w') /\
      pendingJobs w' = [] /\
      map recordKey (analysisStore.items (store w'))
      = take (Z.to_nat (analysisStore.max (store w)))
          (reverse (map jobKey (pendingJobs w))
           ++ map recordKey (analysisStore.items (store w))).
Proof.
  induction fuel as [|fuel IH]; intros w Hmax Hinv Hfuel; [lia|].
  simpl. destruct (pendingJobs w) as [|job rest] eqn:Hpending.
  - assert (Hzero : pending w = 0) by (rewrite pending_length, Hpending; reflexivity).
    destruct (receive_none w Hzero) as (q & -> & Hq & _).
    eexists. split; [reflexivity|]. simpl. split.
    + unfold pendingJobs. simpl.
      destruct (Chan.handed q), (Chan.buf q); simpl in Hq; try lia. reflexivity.
    + rewrite take_ge; [reflexivity|]. rewrite length_map. exact Hinv.
  - destruct (receive_head w job rest Hpending) as (q & -> & Hrest).
    set (w1 := set_queueDepthGauge (queueDepthGauge w - 1) (set_queue q w)).
    destruct (processJob_spec E s id job w1) as (record & start & wa & Hasm & _ & Hadd).
    destruct (processJob_record_key E s id job w1)
      as (record' & start' & wa' & Hasm' & Hkey & _).
    rewrite Hasm in Hasm'. injection Hasm' as <- <- <-.
    rewrite add_ok in Hadd by exact Hmax.
    destruct Hadd as (w2 & -> & Hst & Hqueue & _).
    destruct (IH w2) as (w' & Hloop & Hp & Hkeys).
    { rewrite Hst. exact Hmax. }
    { rewrite Hst. simpl. rewrite length_take. lia. }
    { unfold pendingJobs. rewrite Hqueue. simpl. rewrite Hrest.
      simpl in Hfuel. lia. }
    exists w'. split; [exact Hloop|]. split; [exact Hp|].
    rewrite Hkeys, Hst. simpl.
    unfold pendingJobs at 1. rewrite Hqueue. simpl. rewrite Hrest.
    rewrite fmap_take, take_app_take. simpl.
    rewrite reverse_cons, <- app_assoc. simpl. rewrite Hkey. reflexivity.
Qed.

Lemma worker_keys_helper (s : server.t) (id : Z) (w : World) :
  (0 <= analysisStore.max (store w))%Z ->
  length (analysisStore.items (store w)) <= Z.to_nat (analysisStore.max (store w)) ->
  exists w',
    worker E s id w = (Parked, w') /\
    pendingJobs w' = [] /\
    map recordKey (analysisStore.items (store w'))
    = take (Z.to_nat (analysisStore.max (store w)))
        (reverse (map jobKey (pendingJobs w))
         ++ map recordKey (analysisStore.items (store w))).
Proof.
  intros Hmax Hinv. unfold worker.
  apply workerLoop_keys; [exact Hmax|exact Hinv|].
  rewrite pending_length. lia.
Qed.

(** X21. A single worker stores the jobs it finds waiting in the order
    in which they were accepted.  In a deployment with one worker
    ([WORKER_CONCURRENCY=1]), with a store of capacity zero or more that
    holds no more than its capacity, a run of the worker ends parked
    with nothing left to receive, and the store then lists, newest
    first, the waiting jobs in reverse order of acceptance followed by
    what it held before, cut off at the capacity; each new record has
    the identifier, arrival time and alert status of its job. *)
Theorem worker_stores_in_arrival_order (s : server.t) (id : Z) (w : World) :
  Config.WorkerCount (server.cfg s) = 1%Z ->
  (0 <= analysisStore.max (store w))%Z ->
  length (analysisStore.items (store w)) <= Z.to_nat (analysisStore.max (store w)) ->
  exists w',
    worker E s id w = (Parked, w') /\
    pendingJobs w' = [] /\
    map recordKey (analysisStore.list_ (store w'))
    = take (Z.to_nat (analysisStore.max (store w)))
        (reverse (map jobKey (pendingJobs w))
         ++ map recordKey (analysisStore.list_ (store w))).
Proof.
  intros _ Hmax Hinv. unfold worker.
  apply workerLoop_keys; [exact Hmax|exact Hinv|].
  rewrite pending_length. lia.
Qed.

(** X22. An accepted job ends up first in the list of latest analyses
    under the identifier its sender was given.  From a state with no job
    waiting and a store of capacity at least one, a webhook that decodes
    and finds room (a parked receiver or a queue capacity above zero) is
    answered 202; after the next run of a worker, [/analyses/latest]
    lists first a record with the identifier of the answer, the arrival
    time read by the handler and the status of the payload, followed by
    the records stored before. *)
Theorem accepted_job_is_listed_first (s : server.t) (wid : Z) (r : Request.t)
    (w : World) (payload : GrafanaWebhookPayload.t) :
  pendingJobs w = [] ->
  (1 <= analysisStore.max (store w))%Z ->
  length (analysisStore.items (store w)) <= Z.to_nat (analysisStore.max (store w)) ->
  Request.Method r = "POST" ->
  decodePayload E (Request.Body r) = Ok payload ->
  (0 < Chan.recvq (queue w) \/ (0 < Chan.cap (queue w))%Z) ->
  exists id n names w1 w2 record rest,
    handleGrafanaWebhook E s r w = Return (Queued StatusAccepted id n names) w1 /\
    worker E s wid w1 = (Parked, w2) /\
    handleLatestAnalyses s w2 = Return (Items StatusOK (record :: rest)) w2 /\
    analysisRecord.ID record = id /\
    analysisRecord.ReceivedAt record = wall (now E (S (ticks w))) /\
    analysisRecord.AlertStatus record = GrafanaWebhookPayload.Status payload /\
    map recordKey rest
    = take (Z.to_nat (analysisStore.max (store w)) - 1)
        (map recordKey (analysisStore.list_ (store w))).
Proof.
  intros Hnone Hcap Hinv Hpost Hdecode Hroom.
  unfold handleGrafanaWebhook. rewrite Hpost, Hdecode. simpl.
  unfold bind, modify, timeNow. simpl.
  match goal with |- context [Chan.trySend ?j (queue w)] => set (job := j) end.
  assert (Hempty : Chan.handed (queue w) = [] /\ Chan.buf (queue w) = []).
  { unfold pendingJobs in Hnone. apply app_eq_nil in Hnone. exact Hnone. }
  destruct Hempty as [Hh Hb].
  assert (Hsend : exists q, Chan.trySend job (queue w) = Some q /\
                            Chan.handed q ++ Chan.buf q = [job]).
  { unfold Chan.trySend, Chan.len. rewrite Hh, Hb. simpl.
    change (Z.of_nat 0) with 0%Z.
    destruct (Chan.recvq (queue w)) as [|k].
    - destruct Hroom as [Hr|Hc]; [lia|].
      destruct (Z.ltb_spec 0 (Chan.cap (queue w))); [|lia].
      eexists. split; reflexivity.
    - eexists. split; reflexivity. }
  destruct Hsend as (q & -> & Hq).
  set (w1 := set_queueDepthGauge _ _).
  destruct (worker_keys_helper s wid w1) as (w2 & Hrun & _ & Hkeys).
  { simpl. lia. }
  { simpl. exact Hinv. }
  assert (Hp1 : pendingJobs w1 = [job]) by (unfold pendingJobs; simpl; exact Hq).
  rewrite Hp1 in Hkeys. simpl in Hkeys.
  destruct (Z.to_nat (analysisStore.max (store w))) as [|k] eqn:Hk; [lia|].
  simpl in Hkeys.
  destruct (analysisStore.items (store w2)) as [|record rest] eqn:Hitems; [discriminate|].
  injection Hkeys as Hid Hat Hstatus Hrest.
  eexists. eexists. eexists. exists w1, w2, record, rest.
  split; [reflexivity|]. split; [exact Hrun|].
  split; [unfold handleLatestAnalyses, analysisStore.list_; rewrite Hitems; reflexivity|].
  split; [exact Hid|]. split; [exact Hat|]. split; [exact Hstatus|].
  rewrite Hrest. f_equal. lia.
Qed.

End WorkerOrder.

Lemma worker_stores_in_arrival_order_witness :
  exists w',
    worker Scenario.E0 SingleWorker.s 1 SingleWorker.w_two_waiting = (Parked, w') /\
    map recordKey (analysisStore.list_ (store w'))
    = [jobKey Scenario.job2; jobKey Scenario.job1].
Proof.
  destruct (worker_stores_in_arrival_order Scenario.E0 SingleWorker.s 1
              SingleWorker.w_two_waiting)
    as (w' & Hrun & _ & Hkeys).
  - reflexivity.
  - simpl. lia.
  - simpl. lia.
  - exists w'. split; [exact Hrun|exact Hkeys].
Defined.

Lemma accepted_job_is_listed_first_witness :
  exists w1 w2 record rest,
    handleGrafanaWebhook Scenario.E0 Scenario.s_q1 (Scenario.post "first") Scenario.w_q1
    = Return (Queued StatusAccepted "1765084800000000000-first" 1
                ["chatty"; "fast"; "slow"]) w1 /\
    worker Scenario.E0 Scenario.s_q1 1 w1 = (Parked, w2) /\
    handleLatestAnalyses Scenario.s_q1 w2 = Return (Items StatusOK (record :: rest)) w2 /\
    analysisRecord.ID record = "1765084800000000000-first".
Proof.
  destruct (accepted_job_is_listed_first Scenario.E0 Scenario.s_q1 1
              (Scenario.post "first") Scenario.w_q1
              (Scenario.payloadOf "first" [Scenario.firingAlert 0%Z]))
    as (id & n & names & w1 & w2 & record & rest & Hpost & Hrun & Hlist & Hid & _).
  - reflexivity.
  - simpl. lia.
  - simpl. lia.
  - reflexivity.
  - reflexivity.
  - right. simpl. lia.
  - exists w1, w2, record, rest.
    assert (Hanswer : Queued StatusAccepted id n names
                      = Queued StatusAccepted "1765084800000000000-first" 1
                          ["chatty"; "fast"; "slow"]).
    { assert (Hv : exists w, handleGrafanaWebhook Scenario.E0 Scenario.s_q1
                               (Scenario.post "first") Scenario.w_q1
                             = Return (Queued StatusAccepted "1765084800000000000-first" 1
                                         ["chatty"; "fast"; "slow"]) w)
        by (eexists; vm_compute; reflexivity).
      destruct Hv as [w Hv]. rewrite Hpost in Hv. injection Hv as -> -> -> _. reflexivity. }
    injection Hanswer as -> -> ->.
    split; [exact Hpost|]. split; [exact Hrun|]. split; [exact Hlist|exact Hid].
Defined.

(** ** Backend names in responses *)

Lemma string_leb_total : Total (fun a b : string => Is_true (String.leb a b)).
Proof.
  intros a b. destruct (String.leb_total a b) as [H|H]; rewrite H; simpl; auto.
Qed.

(** X23. The backend names that the webhook answer and the health report
    list are the names of the configured adapters, each as often as it is
    configured, in ascending byte order. *)
Theorem providerNames_sorted (providers : list LLMProvider) :
  Permutation (providerNames providers) (map Name providers) /\
  Sorted (fun a b : string => Is_true (String.leb a b)) (providerNames providers) /\
  length (providerNames providers) = length providers.
Proof.
  unfold providerNames, sortStrings.
  split; [apply merge_sort_Permutation|].
  split; [apply Sorted_merge_sort; apply string_leb_total|].
  rewrite (Permutation_length (merge_sort_Permutation _ _)). apply length_map.
Qed.

(** ** Completing a request *)

Section CompleteFacts.
Context (B : Backends).

(** X24. Once the model was invoked, the Bedrock adapter does not fail:
    an answer that cannot be unwrapped, or that holds no non-empty text
    block, is returned as the raw body, and otherwise the non-empty text
    blocks are joined in order by line feeds; either way the text is
    trimmed, and trimming it again changes nothing. *)
Theorem bedrockComplete_falls_back_to_raw (p : bedrockProvider.t) (req : LLMRequest.t)
    (payload output : string) :
  loadAWSConfig B (bedrockProvider.region p) = Ok tt ->
  marshalChat B
    (BedrockPayload (LLMRequest.UserPrompt req) (LLMRequest.MaxTokens req)
       (if negb (is_empty (LLMRequest.SystemPrompt req))
        then Some (LLMRequest.SystemPrompt req) else None)
       (if PrimFloat.ltb 0 (LLMRequest.Temperature req)
        then Some (LLMRequest.Temperature req) else None)) = Ok payload ->
  invokeModel B (bedrockProvider.region p) (bedrockProvider.model p) payload = Ok output ->
  exists text,
    bedrockComplete B p req = Ok text /\
    TrimSpace text = text /\
    (forall m, unmarshalBlocks B output = Err m -> text = TrimSpace output) /\
    (forall blocks,
        unmarshalBlocks B output = Ok blocks ->
        (textParts blocks = [] -> text = TrimSpace output) /\
        (textParts blocks <> [] -> text = TrimSpace (Join (textParts blocks) nl)) /\
        Forall (fun part => part <> "") (textParts blocks) /\
        textParts blocks `sublist_of` map contentBlock.Text blocks).
Proof.
  intros Hcfg Hpayload Hinvoke.
  unfold bedrockComplete. rewrite Hcfg, Hpayload, Hinvoke.
  destruct (unmarshalBlocks B output) as [blocks|m].
  - destruct (textParts blocks) as [|part parts] eqn:Hparts; simpl.
    + eexists. split; [reflexivity|]. split; [apply TrimSpace_idempotent|].
      split; [intros m H; discriminate|].
      intros blocks' [= <-]. rewrite Hparts.
      split; [reflexivity|]. split; [contradiction|]. split; [constructor|].
      apply sublist_nil_l.
    + eexists. split; [reflexivity|]. split; [apply TrimSpace_idempotent|].
      split; [intros m H; discriminate|].
      intros blocks' [= <-]. rewrite Hparts.
      split; [discriminate|]. split; [reflexivity|].
      rewrite <- Hparts. unfold textParts. split.
      * apply Forall_forall. intros x Hx. apply list_elem_of_filter in Hx. tauto.
      * apply sublist_filter.
  - eexists. split; [reflexivity|]. split; [apply TrimSpace_idempotent|].
    split; [intros m' _; reflexivity|]. intros blocks H. discriminate.
Qed.

(** X25. The chat adapters report success only for an answer with a
    status below 300 that decodes: OpenAI posts to [/chat/completions]
    under the base URL with the bearer key and returns the trimmed
    content of the first choice, of which there must be one; Ollama posts
    to [/api/chat] without a credential and returns the trimmed message
    content. *)
Theorem chat_complete_success_requires (req : LLMRequest.t) :
  (forall (p : openAIProvider.t) text,
      openAIComplete B p req = Ok text ->
      exists body status answer content rest,
        marshalChat B
          (OpenAIPayload (openAIProvider.model p) (LLMRequest.SystemPrompt req)
             (LLMRequest.UserPrompt req) (LLMRequest.MaxTokens req)
             (LLMRequest.Temperature req)) = Ok body /\
        httpPost B (openAIProvider.baseURL p +:+ "/chat/completions")
          [("Authorization", "Bearer " +:+ openAIProvider.apiKey p);
           ("Content-Type", "application/json")] body = PostResponse status answer /\
        (status < 300)%Z /\
        unmarshalChoices B answer = Ok (content :: rest) /\
        text = TrimSpace content /\
        TrimSpace text = text) /\
  (forall (p : ollamaProvider.t) text,
      ollamaComplete B p req = Ok text ->
      exists body status answer content,
        marshalChat B
          (OllamaPayload (ollamaProvider.model p) (LLMRequest.SystemPrompt req)
             (LLMRequest.UserPrompt req) (LLMRequest.Temperature req)
             (LLMRequest.MaxTokens req)) = Ok body /\
        httpPost B (ollamaProvider.baseURL p +:+ "/api/chat")
          [("Content-Type", "application/json")] body = PostResponse status answer /\
        (status < 300)%Z /\
        unmarshalMessage B answer = Ok content /\
        text = TrimSpace content /\
        TrimSpace text = text).
Proof.
  split.
  - intros p text. unfold openAIComplete.
    destruct (marshalChat B _) as [body|m] eqn:Hbody; [|discriminate].
    destruct (httpPost B _ _ body) as [m|m|m|status answer] eqn:Hpost; try discriminate.
    destruct (Z.leb_spec 300 status) as [|Hstatus]; [discriminate|].
    destruct (unmarshalChoices B answer) as [[|content rest]|m] eqn:Hchoices;
      try discriminate.
    intros [= <-]. exists body, status, answer, content, rest.
    repeat split; auto. apply TrimSpace_idempotent.
  - intros p text. unfold ollamaComplete.
    destruct (marshalChat B _) as [body|m] eqn:Hbody; [|discriminate].
    destruct (httpPost B _ _ body) as [m|m|m|status answer] eqn:Hpost; try discriminate.
    destruct (Z.leb_spec 300 status) as [|Hstatus]; [discriminate|].
    destruct (unmarshalMessage B answer) as [content|m] eqn:Hmsg; [|discriminate].
    intros [= <-]. exists body, status, answer, content.
    repeat split; auto. apply TrimSpace_idempotent.
Qed.

End CompleteFacts.

Lemma bedrockComplete_falls_back_to_raw_witness :
  bedrockComplete Healthy.backends Healthy.bedrock Scenario.request1
  = Ok (String "f" (String "i" (String "r" (String "s" (String "t"
         (String "010" "second")))))).
Proof.
  destruct (bedrockComplete_falls_back_to_raw Healthy.backends Healthy.bedrock
              Scenario.request1 "{}" " raw answer " eq_refl eq_refl eq_refl)
    as (text & Hrun & _ & _ & Hblocks).
  destruct (Hblocks _ eq_refl) as (_ & Hjoin & _).
  rewrite Hrun, Hjoin; [reflexivity|discriminate].
Defined.

(** ** The sample window *)

Lemma rotate_insert {A} (l : list A) (p : nat) (x : A) :
  p < length l ->
  (S p < length l ->
     drop (S p) (<[p := x]> l) ++ take (S p) (<[p := x]> l)
     = drop 1 (drop p l ++ take p l) ++ [x]) /\
  (S p = length l ->
     <[p := x]> l = drop 1 (drop p l ++ take p l) ++ [x]).
Proof.
  intros Hp.
  destruct (lookup_lt_is_Some_2 l p Hp) as [y Hy].
  rewrite (insert_take_drop l p x Hp).
  rewrite (drop_S l y p Hy). simpl. rewrite drop_0.
  assert (Hlen : length (take p l) = p) by (rewrite length_take; lia).
  split.
  - intros _.
    rewrite drop_app_ge by (rewrite Hlen; lia). rewrite Hlen.
    replace (S p - p) with 1 by lia. simpl. rewrite drop_0.
    rewrite take_app_ge by (rewrite Hlen; lia). rewrite Hlen.
    replace (S p - p) with 1 by lia. simpl. rewrite take_0.
    rewrite <- app_assoc. reflexivity.
  - intros Hlast.
    assert (Hnil : drop (S p) l = []) by (apply drop_ge; lia).
    rewrite Hnil. reflexivity.
Qed.

Lemma window_holds_new (c : nat) :
  1 <= c ->
  exists w, Window.NewWindow (Z.of_nat c) = Done w /\ Window.holds c [] w.
Proof.
  intros Hc. unfold Window.NewWindow.
  destruct (Z.ltb_spec (Z.of_nat c) 0); [lia|].
  eexists. split; [reflexivity|]. unfold Window.holds. simpl.
  rewrite Nat2Z.id, length_replicate.
  split; [reflexivity|]. split; [reflexivity|].
  destruct (decide (0 < c)); [|lia].
  rewrite Nat.sub_0_r. auto.
Qed.

Lemma window_holds_Add (c : nat) (xs : list float) (x : float) (w : Window.t) :
  1 <= c ->
  Window.holds c xs w ->
  exists w', Window.Add x w = Done w' /\ Window.holds c (xs ++ [x]) w'.
Proof.
  intros Hc (Hcap & Hlen & Hstate).
  unfold Window.Add, Window.holds.
  rewrite Hcap, Hlen, length_app. simpl.
  destruct (decide (length xs < c)) as [Hfill|Hfull].
  - destruct Hstate as (Hdata & Hpos & Hcount). rewrite Hpos, Hcount.
    destruct (Z.ltb_spec (Z.of_nat (length xs)) 0); [lia|].
    destruct (Z.leb_spec (Z.of_nat c) (Z.of_nat (length xs))); [lia|]. simpl.
    destruct (Z.eqb_spec (Z.of_nat c) 0); [lia|].
    destruct (Z.ltb_spec (Z.of_nat (length xs)) (Z.of_nat c)); [|lia].
    eexists. split; [reflexivity|]. simpl.
    rewrite length_insert, Nat2Z.id.
    split; [reflexivity|]. split; [exact Hlen|].
    assert (Hins : <[length xs := x]> (Window.data w)
                   = (xs ++ [x]) ++ replicate (c - (length xs + 1)) 0%float).
    { rewrite Hdata, insert_app_r_alt by lia.
      replace (length xs - length xs) with 0 by lia.
      replace (c - length xs) with (S (c - (length xs + 1))) by lia.
      simpl. rewrite <- app_assoc. reflexivity. }
    destruct (decide (length xs + 1 < c)) as [Hmore|Hlast].
    + split; [exact Hins|]. split; [|lia].
      rewrite Z.rem_small by lia. lia.
    + assert (Heq : length xs + 1 = c) by lia.
      split; [lia|].
      replace (Z.of_nat (length xs) + 1)%Z with (Z.of_nat c) by lia.
      rewrite Z.rem_same by lia.
      split; [lia|]. simpl. rewrite drop_0, app_nil_r, Hins.
      replace (c - (length xs + 1)) with 0 by lia.
      replace (length xs + 1 - c) with 0 by lia.
      simpl. rewrite app_nil_r, drop_0. reflexivity.
  - destruct Hstate as (Hcount & Hpos & Hrot). rewrite Hcount.
    destruct (Z.ltb_spec (Window.pos w) 0); [lia|].
    destruct (Z.leb_spec (Z.of_nat c) (Window.pos w)); [lia|]. simpl.
    destruct (Z.eqb_spec (Z.of_nat c) 0); [lia|].
    destruct (Z.ltb_spec (Z.of_nat c) (Z.of_nat c)); [lia|].
    eexists. split; [reflexivity|]. simpl.
    rewrite length_insert.
    split; [reflexivity|]. split; [exact Hlen|].
    destruct (decide (length xs + 1 < c)); [lia|].
    split; [reflexivity|].
    set (p := Z.to_nat (Window.pos w)) in *.
    assert (Hp : p < length (Window.data w)) by lia.
    destruct (rotate_insert (Window.data w) p x Hp) as [Hmid Hend].
    assert (Htarget : drop (length xs + 1 - c) (xs ++ [x])
                      = drop 1 (drop p (Window.data w) ++ take p (Window.data w)) ++ [x]).
    { rewrite Hrot, drop_drop.
      rewrite drop_app_le by lia. f_equal. f_equal. lia. }
    rewrite Htarget.
    destruct (decide (S p < c)) as [Hin|Hout].
    + rewrite Z.rem_small by lia.
      split; [lia|].
      replace (Z.to_nat (Window.pos w + 1)) with (S p) by lia.
      apply Hmid. lia.
    + assert (Hlast : S p = c) by lia.
      replace (Window.pos w + 1)%Z with (Z.of_nat c) by lia.
      rewrite Z.rem_same by lia.
      split; [lia|]. simpl. rewrite drop_0, app_nil_r.
      apply Hend. lia.
Qed.

Lemma window_holds_addAll (c : nat) (samples : list float) :
  1 <= c ->
  forall xs w,
    Window.holds c xs w ->
    exists w', Window.addAll samples w = Done w' /\ Window.holds c (xs ++ samples) w'.
Proof.
  intros Hc. induction samples as [|x rest IH]; intros xs w Hw; simpl.
  - exists w. rewrite app_nil_r. auto.
  - destruct (window_holds_Add c xs x w Hc Hw) as (w1 & -> & Hw1).
    destruct (IH (xs ++ [x]) w1 Hw1) as (w' & Hrun & Hw').
    exists w'. rewrite <- app_assoc in Hw'. auto.
Qed.

(** X26. A window of capacity [c >= 1] that received the samples [xs]
    holds the most recent [c] of them: no [Add] panics, [Len] is the
    lesser of the number of samples and [c], and [values] returns nil
    for no samples and otherwise the last [min (length xs) c] samples,
    oldest first. *)
Theorem window_keeps_latest (c : nat) (xs : list float) :
  1 <= c ->
  exists w0 w,
    Window.NewWindow (Z.of_nat c) = Done w0 /\
    Window.addAll xs w0 = Done w /\
    Window.Len w = Z.of_nat (Nat.min (length xs) c) /\
    Window.values w
    = Done (if decide (xs = []) then None else Some (drop (length xs - c) xs)).
Proof.
  intros Hc.
  destruct (window_holds_new c Hc) as (w0 & Hnew & H0).
  destruct (window_holds_addAll c xs Hc [] w0 H0) as (w & Hrun & Hw).
  simpl in Hw. exists w0, w. split; [exact Hnew|]. split; [exact Hrun|].
  destruct Hw as (Hcap & Hlen & Hstate).
  unfold Window.Len, Window.values. rewrite Hcap, Hlen.
  destruct (decide (length xs < c)) as [Hfill|Hfull].
  - destruct Hstate as (Hdata & Hpos & Hcount). rewrite Hcount.
    split; [lia|].
    destruct (decide (xs = [])) as [->|Hne]; [reflexivity|].
    assert (Hpos' : 0 < length xs) by (destruct xs; [contradiction|simpl; lia]).
    destruct (Z.eqb_spec (Z.of_nat (length xs)) 0); [lia|].
    destruct (Z.ltb_spec (Z.of_nat (length xs)) 0); [lia|].
    destruct (Z.ltb_spec (Z.of_nat (length xs)) (Z.of_nat c)); [|lia].
    destruct (Z.ltb_spec (Z.of_nat c) (Z.of_nat (length xs))); [lia|].
    rewrite Nat2Z.id, Hdata, take_app_length.
    replace (length xs - c) with 0 by lia. rewrite drop_0. reflexivity.
  - destruct Hstate as (Hcount & Hpos & Hrot). rewrite Hcount.
    split; [lia|].
    destruct (decide (xs = [])) as [->|Hne]; [simpl in Hfull; lia|].
    destruct (Z.eqb_spec (Z.of_nat c) 0); [lia|].
    destruct (Z.ltb_spec (Z.of_nat c) 0); [lia|].
    destruct (Z.ltb_spec (Z.of_nat c) (Z.of_nat c)); [lia|].
    destruct (Z.ltb_spec (Window.pos w) 0); [lia|].
    destruct (Z.ltb_spec (Z.of_nat c) (Window.pos w)); [lia|]. simpl.
    rewrite Nat2Z.id, app_assoc, Hrot.
    rewrite take_app_length'; [reflexivity|].
    rewrite length_drop. lia.
Qed.

Lemma window_keeps_latest_witness :
  exists w0 w,
    Window.NewWindow 2 = Done w0 /\
    Window.addAll [1%float; 2%float; 3%float] w0 = Done w /\
    Window.values w = Done (Some [2%float; 3%float]).
Proof.
  destruct (window_keeps_latest 2 [1%float; 2%float; 3%float]) as (w0 & w & H0 & H1 & _ & H2).
  - lia.
  - exists w0, w. split; [exact H0|]. split; [exact H1|exact H2].
Defined.

(** A window of capacity zero can be created but panics on its
    first [Add], and a negative capacity panics in [NewWindow]. *)
Lemma window_degenerate_capacity (x : float) (capacity : Z) :
  ((capacity < 0)%Z -> Window.NewWindow capacity = Panicked "makeslice: len out of range") /\
  (capacity = 0%Z ->
   exists w,
     Window.NewWindow capacity = Done w /\
     Window.values w = Done None /\
     Window.Add x w = Panicked "index out of range").
Proof.
  split.
  - intros Hneg. unfold Window.NewWindow.
    destruct (Z.ltb_spec capacity 0); [reflexivity|lia].
  - intros ->. eexists. split; [reflexivity|]. split; reflexivity.
Qed.

(** ** Target lists of the probes *)

Lemma trimSpace_elem_of (l : list ascii) (c : ascii) : c ∈ trimSpace l -> c ∈ l.
Proof.
  unfold trimSpace, trimRightSpace, trimLeftSpace, trimLeftSpaceRev.
  set (q2 := fun a b => space2 b a). set (q3 := fun a b c => space3 c b a).
  set (u := dropRunes asciiSpace space2 space3 l).
  destruct (dropRunes_result asciiSpace space2 space3 (length l) l (le_n _))
    as [_ (k & Hk)]. fold u in Hk.
  destruct (dropRunes_result asciiSpace q2 q3 (length (reverse u)) (reverse u) (le_n _))
    as [_ (k' & Hk')].
  intros Hc. apply (proj1 (elem_of_reverse _ _)) in Hc.
  assert (Hu : c ∈ k' ++ dropRunes asciiSpace q2 q3 (reverse u))
    by (apply elem_of_app; right; exact Hc).
  rewrite <- Hk' in Hu. apply (proj1 (elem_of_reverse _ _)) in Hu.
  assert (Hl : c ∈ k ++ u) by (apply elem_of_app; right; exact Hu).
  rewrite <- Hk in Hl. exact Hl.
Qed.

Lemma TrimSpace_elem_of (s : string) (c : ascii) :
  c ∈ list_ascii_of_string (TrimSpace s) -> c ∈ list_ascii_of_string s.
Proof.
  unfold TrimSpace. rewrite list_ascii_of_string_of_list_ascii.
  apply trimSpace_elem_of.
Qed.

Lemma SplitByte_pieces (sep : ascii) (s : string) :
  (sep ∉ list_ascii_of_string (fst (SplitByte sep s))) /\
  Forall (fun p => sep ∉ list_ascii_of_string p) (snd (SplitByte sep s)).
Proof.
  induction s as [|c rest [IHp IHps]]; simpl.
  - split; [apply not_elem_of_nil|constructor].
  - destruct (SplitByte sep rest) as [p ps]. simpl in *.
    destruct (Ascii.eqb_spec c sep) as [->|Hne]; simpl.
    + split; [apply not_elem_of_nil|constructor; assumption].
    + split; [|assumption].
      intros Hin. apply elem_of_cons in Hin. destruct Hin; congruence.
Qed.

Lemma SplitByte_whole (sep : ascii) (s : string) :
  sep ∉ list_ascii_of_string s -> SplitByte sep s = (s, []).
Proof.
  induction s as [|c rest IH]; simpl; intros Hnot; [reflexivity|].
  rewrite IH by (intros Hin; apply Hnot; apply elem_of_cons; auto).
  destruct (Ascii.eqb_spec c sep) as [->|Hne]; [|reflexivity].
  exfalso. apply Hnot. apply elem_of_cons. auto.
Qed.

(** X27. [envList] is nil exactly for a variable that is unset or blank.
    Otherwise every target it returns is non-empty, carries no white
    space around it and no comma, and there are no more targets than
    pieces between commas; a value without a comma is one target, the
    trimmed value. *)
Theorem envList_targets_are_clean (E : Env) (key : string) :
  (envList E key = None <-> TrimSpace (Getenv E key) = "") /\
  (forall out,
      envList E key = Some out ->
      Forall (fun t => t <> "" /\ TrimSpace t = t /\ ","%char ∉ list_ascii_of_string t) out /\
      length out <= length (Split (TrimSpace (Getenv E key)) ",")) /\
  (TrimSpace (Getenv E key) <> "" ->
   ","%char ∉ list_ascii_of_string (Getenv E key) ->
   envList E key = Some [TrimSpace (Getenv E key)]).
Proof.
  unfold envList. set (v := TrimSpace (Getenv E key)).
  split; [|split].
  - case_empty v Hv; [tauto|]. split; [discriminate|contradiction].
  - intros out Hout. case_empty v Hv; [discriminate|].
    injection Hout as <-. split.
    + apply Forall_forall. intros t Ht.
      apply list_elem_of_In, filter_In in Ht. destruct Ht as [Ht Hne].
      apply in_map_iff in Ht. destruct Ht as (p & <- & Hp).
      split; [apply is_empty_false, negb_true_iff; exact Hne|].
      split; [apply TrimSpace_idempotent|].
      intros Hin. apply TrimSpace_elem_of in Hin.
      unfold Split in Hp. pose proof (SplitByte_pieces "," v) as [Hfst Hsnd].
      destruct (SplitByte "," v) as [q qs]. simpl in *.
      destruct Hp as [<-|Hp]; [contradiction|].
      rewrite Forall_forall in Hsnd. apply (Hsnd p); [|exact Hin].
      apply list_elem_of_In. exact Hp.
    + etransitivity; [apply filter_length_le|]. rewrite length_map. reflexivity.
  - intros Hv Hcomma. apply is_empty_false in Hv. rewrite Hv.
    unfold Split. rewrite SplitByte_whole.
    + assert (Hid : TrimSpace v = v) by apply TrimSpace_idempotent.
      simpl. rewrite Hid, Hv. reflexivity.
    + intros Hin. apply Hcomma. apply TrimSpace_elem_of. exact Hin.
Qed.

Lemma envList_targets_are_clean_witness :
  envList (withEnviron {[ "DNS_TARGETS" := " example.org " ]} Scenario.E0) "DNS_TARGETS"
  = Some ["example.org"].
Proof.
  destruct (envList_targets_are_clean
              (withEnviron {[ "DNS_TARGETS" := " example.org " ]} Scenario.E0)
              "DNS_TARGETS") as (_ & _ & Hone).
  apply Hone; vm_compute.
  - discriminate.
  - intros Hin. repeat (apply elem_of_cons in Hin; destruct Hin as [Hin|Hin];
                        [discriminate|]).
    apply elem_of_nil in Hin. exact Hin.
Defined.

(** ** The gateway monitor *)

Lemma tcpProbeFrom_spec (net : Network) (host : string) (timeout : Duration)
    (ports : list Z) :
  forall i up lat e,
    GatewayMonitor.tcpProbeFrom net host timeout i ports = (up, lat, e) ->
    (up = true ->
       e = None /\
       exists k port,
         ports !! k = Some port /\
         Dial.err (net (i + k) host port timeout) = None /\
         lat = Dial.latency (net (i + k) host port timeout) /\
         forall j q, j < k -> ports !! j = Some q ->
                     Dial.err (net (i + j) host q timeout) <> None) /\
    (up = false ->
       lat = 0%Z /\ e = Some ("no tcp ports reachable on " +:+ host) /\
       forall j q, ports !! j = Some q ->
                   Dial.err (net (i + j) host q timeout) <> None).
Proof.
  induction ports as [|port rest IH]; intros i up lat e; simpl.
  - intros [= <- <- <-]. split; [discriminate|].
    intros _. split; [reflexivity|]. split; [reflexivity|].
    intros j q Hj. discriminate.
  - destruct (Dial.err (net i host port timeout)) as [m|] eqn:Herr.
    + intros Hrun. destruct (IH (S i) up lat e Hrun) as [Hup Hdown]. split.
      * intros Htrue. destruct (Hup Htrue) as (He & k & q & Hk & Hq & Hlat & Hbefore).
        split; [exact He|]. exists (S k), q.
        replace (i + S k) with (S i + k) by lia.
        split; [exact Hk|]. split; [exact Hq|]. split; [exact Hlat|].
        intros [|j] p Hj Hp.
        -- simpl in Hp. injection Hp as <-. rewrite Nat.add_0_r, Herr. discriminate.
        -- replace (i + S j) with (S i + j) by lia. apply Hbefore; [lia|exact Hp].
      * intros Hfalse. destruct (Hdown Hfalse) as (Hlat & He & Hall).
        split; [exact Hlat|]. split; [exact He|].
        intros [|j] p Hp.
        -- simpl in Hp. injection Hp as <-. rewrite Nat.add_0_r, Herr. discriminate.
        -- replace (i + S j) with (S i + j) by lia. apply Hall. exact Hp.
    + intros [= <- <- <-]. split; [|discriminate].
      intros _. split; [reflexivity|]. exists 0, port. rewrite Nat.add_0_r.
      split; [reflexivity|]. split; [exact Herr|]. split; [reflexivity|].
      intros j q Hj. lia.
Qed.

(** X28. [tcpProbe] reports a host as up exactly when one of the ports
    accepts a connection.  It then returns no error and the latency of
    the first port, in the order given, that accepted; every port before
    it was tried and refused.  When every port refuses, it reports the
    host as down with latency zero and the error that names the host. *)
Theorem tcpProbe_first_answering_port (net : Network) (host : string)
    (ports : list Z) (timeout : Duration) (up : bool) (lat : Duration)
    (e : option string) :
  GatewayMonitor.tcpProbe net host ports timeout = (up, lat, e) ->
  (up = true <->
     exists k port, ports !! k = Some port /\
                    Dial.err (net k host port timeout) = None) /\
  (up = true ->
     e = None /\
     exists k port,
       ports !! k = Some port /\
       Dial.err (net k host port timeout) = None /\
       lat = Dial.latency (net k host port timeout) /\
       forall j q, j < k -> ports !! j = Some q ->
                   Dial.err (net j host q timeout) <> None) /\
  (up = false ->
     lat = 0%Z /\ e = Some ("no tcp ports reachable on " +:+ host)).
Proof.
  unfold GatewayMonitor.tcpProbe. intros Hrun.
  destruct (tcpProbeFrom_spec net host timeout ports 0 up lat e Hrun) as [Hup Hdown].
  simpl in Hup, Hdown.
  split; [|split].
  - split.
    + intros Htrue. destruct (Hup Htrue) as (_ & k & port & Hk & Herr & _).
      exists k, port. auto.
    + intros (k & port & Hk & Herr). destruct up; [reflexivity|].
      destruct (Hdown eq_refl) as (_ & _ & Hall).
      exfalso. exact (Hall k port Hk Herr).
  - exact Hup.
  - intros Hfalse. destruct (Hdown Hfalse) as (Hlat & He & _). auto.
Qed.

Lemma tcpProbe_first_answering_port_witness :
  exists k port,
    GatewayMonitor.probePorts !! k = Some port /\
    Dial.err (GatewayMonitor.plainOnly k "192.168.1.1" port GatewayMonitor.probeTimeout) = None /\
    1000000%Z = Dial.latency (GatewayMonitor.plainOnly k "192.168.1.1" port
                                GatewayMonitor.probeTimeout) /\
    forall j q, j < k -> GatewayMonitor.probePorts !! j = Some q ->
                Dial.err (GatewayMonitor.plainOnly j "192.168.1.1" q
                            GatewayMonitor.probeTimeout) <> None.
Proof.
  destruct (tcpProbe_first_answering_port GatewayMonitor.plainOnly "192.168.1.1"
              GatewayMonitor.probePorts GatewayMonitor.probeTimeout
              true 1000000%Z None eq_refl) as (_ & Hup & _).
  destruct (Hup eq_refl) as (_ & Hfirst). exact Hfirst.
Defined.

(** X29. What one round of the gateway monitor records.  The gauges and
    the remembered state follow the two probes.  The event counter moves
    only in a round in which a link that was up is found down, and then
    by one, under a label that depends on what is up after the round
    alone: [wan] if the gateway is up, [lan] if only the WAN target is
    up, [full] if both are down.  A link that comes back, or a state
    that persists, is never counted. *)
Theorem failure_domain_classification (gatewayIP wanTarget : string)
    (netGw netWan : Network) (st : GatewayMonitor.Loop) :
  let gwUp := fst (fst (GatewayMonitor.tcpProbe netGw gatewayIP
                          GatewayMonitor.probePorts GatewayMonitor.probeTimeout)) in
  let wUp := fst (fst (GatewayMonitor.tcpProbe netWan wanTarget
                         GatewayMonitor.probePorts GatewayMonitor.probeTimeout)) in
  let st' := GatewayMonitor.iteration gatewayIP wanTarget netGw netWan st in
  let events := GatewayMonitor.failureDomainEventsTotal (GatewayMonitor.metrics st) in
  let wentDown := GatewayMonitor.prevGatewayUp st && negb gwUp
                  || GatewayMonitor.prevWanUp st && negb wUp in
  GatewayMonitor.prevGatewayUp st' = gwUp /\
  GatewayMonitor.prevWanUp st' = wUp /\
  GatewayMonitor.gatewayReachable (GatewayMonitor.metrics st')
    = (if gwUp then 1%float else 0%float) /\
  GatewayMonitor.wanReachable (GatewayMonitor.metrics st')
    = (if wUp then 1%float else 0%float) /\
  GatewayMonitor.failureDomainEventsTotal (GatewayMonitor.metrics st')
    = if wentDown
      then Inc (if gwUp then "wan" else if wUp then "lan" else "full") events
      else events.
Proof.
  cbv zeta. unfold GatewayMonitor.iteration. simpl.
  split; [reflexivity|]. split; [reflexivity|].
  split; [reflexivity|]. split; [reflexivity|].
  destruct (GatewayMonitor.prevGatewayUp st), (GatewayMonitor.prevWanUp st),
    (fst (fst (GatewayMonitor.tcpProbe netGw gatewayIP _ _))),
    (fst (fst (GatewayMonitor.tcpProbe netWan wanTarget _ _))); reflexivity.
Qed.

Lemma run_steady (gatewayIP wanTarget : string) (gw w : bool)
    (ticks : list (Network * Network)) :
  Forall (fun tick =>
            fst (fst (GatewayMonitor.tcpProbe (fst tick) gatewayIP
                        GatewayMonitor.probePorts GatewayMonitor.probeTimeout)) = gw /\
            fst (fst (GatewayMonitor.tcpProbe (snd tick) wanTarget
                        GatewayMonitor.probePorts GatewayMonitor.probeTimeout)) = w) ticks ->
  forall st,
    GatewayMonitor.prevGatewayUp st = gw ->
    GatewayMonitor.prevWanUp st = w ->
    GatewayMonitor.failureDomainEventsTotal
      (GatewayMonitor.metrics (GatewayMonitor.run gatewayIP wanTarget ticks st))
    = GatewayMonitor.failureDomainEventsTotal (GatewayMonitor.metrics st).
Proof.
  induction 1 as [|[netGw netWan] rest [Hgw Hw] _ IH]; intros st Hpg Hpw; simpl;
    [reflexivity|].
  simpl in Hgw, Hw. rewrite IH.
  - unfold GatewayMonitor.iteration. simpl. rewrite Hgw, Hw, Hpg, Hpw.
    destruct gw, w; reflexivity.
  - unfold GatewayMonitor.iteration. simpl. exact Hgw.
  - unfold GatewayMonitor.iteration. simpl. exact Hw.
Qed.

(** X30. A state of the links that persists is counted once.  In a run
    of the monitor, from its start, in which every round finds the same
    state of the two links, nothing is counted if both are up, and
    otherwise one event under the label of that state, however long the
    run. *)
Theorem persistent_state_counted_once (gatewayIP wanTarget : string) (gw w : bool)
    (ticks : list (Network * Network)) :
  ticks <> [] ->
  Forall (fun tick =>
            fst (fst (GatewayMonitor.tcpProbe (fst tick) gatewayIP
                        GatewayMonitor.probePorts GatewayMonitor.probeTimeout)) = gw /\
            fst (fst (GatewayMonitor.tcpProbe (snd tick) wanTarget
                        GatewayMonitor.probePorts GatewayMonitor.probeTimeout)) = w) ticks ->
  GatewayMonitor.failureDomainEventsTotal
    (GatewayMonitor.metrics
       (GatewayMonitor.run gatewayIP wanTarget ticks GatewayMonitor.initial))
  = if gw && w then ∅
    else {[ (if gw then "wan" else if w then "lan" else "full") := 1 ]}.
Proof.
  intros Hne Hall. destruct ticks as [|[netGw netWan] rest]; [contradiction|].
  apply Forall_cons in Hall. destruct Hall as [[Hgw Hw] Hrest]. simpl in Hgw, Hw.
  simpl. rewrite (run_steady gatewayIP wanTarget gw w rest Hrest).
  - unfold GatewayMonitor.iteration. simpl. rewrite Hgw, Hw.
    destruct gw, w; reflexivity.
  - unfold GatewayMonitor.iteration. simpl. exact Hgw.
  - unfold GatewayMonitor.iteration. simpl. exact Hw.
Qed.

Lemma persistent_state_counted_once_witness :
  GatewayMonitor.failureDomainEventsTotal
    (GatewayMonitor.metrics
       (GatewayMonitor.run "192.168.1.1" "1.1.1.1"
          [(GatewayMonitor.refused, GatewayMonitor.plainOnly);
           (GatewayMonitor.refused, GatewayMonitor.plainOnly);
           (GatewayMonitor.refused, GatewayMonitor.plainOnly)]
          GatewayMonitor.initial))
  = {[ "lan" := 1 ]}.
Proof.
  apply (persistent_state_counted_once "192.168.1.1" "1.1.1.1" false true).
  - discriminate.
  - repeat constructor.
Defined.
